(** * MindMate AI: ownership-scoped resources, analytics and token renewal

    A shallow embedding of the server controllers and models
    (moodController, journalController, the Mood and Journal schemas) and
    of the client's authService, with the properties the design document
    states about them.

    Conventions of the embedding:
    - a MongoDB collection is a finite map from [_id] to documents;
    - a JavaScript [Number] is a rational ([Q]); a [Date] is the number of
      milliseconds since the epoch ([Z]), and the time zone of the server,
      which the local date methods go by, is a parameter;
    - a JavaScript string is kept as the bytes of its UTF-8 encoding;
    - a request payload is what [express.json()] hands the handler: a JSON
      object, read as the schema's paths it carries (each optional;
      Mongoose's strict mode drops every other key before persistence)
      together with its [$]-keys, or a JSON array of such objects;
    - what the database makes of an update document that is not a plain
      object of schema paths is code of MongoDB and Mongoose, not of the
      repository, and is a parameter;
    - an Express handler returns what it sends: either a JSON reply with
      its status code or the error it hands to [next];
    - identifiers are well-formed ObjectIds, and the values of a payload
      have the types of their paths, so that no cast fails. *)

From Stdlib Require Import String Ascii ZArith QArith Qround List Lia Lqa Bool.
From stdpp Require Import base option list gmap strings sorting pretty.

Local Open Scope string_scope.
Local Open Scope list_scope.

(** ** Strings, as the JavaScript methods the code calls *)

Definition lower_ascii (c : ascii) : ascii :=
  let n := nat_of_ascii c in
  if (Nat.leb 65 n && Nat.leb n 90)%bool then ascii_of_nat (n + 32) else c.

(** [String.prototype.toLowerCase], on the ASCII range. *)
Fixpoint toLowerCase (s : string) : string :=
  match s with
  | EmptyString => EmptyString
  | String c r => String (lower_ascii c) (toLowerCase r)
  end.

(** [hay.includes(needle)]. *)
Fixpoint includes (hay needle : string) : bool :=
  if String.prefix needle hay then true
  else match hay with
       | EmptyString => false
       | String _ r => includes r needle
       end.

(** A JavaScript string is kept as the bytes of its UTF-8 encoding; a
    literal below is ASCII and so its own encoding. *)
Definition bytes (l : list nat) : string :=
  foldr (fun n s => String (ascii_of_nat n) s) EmptyString l.

(** [s.length]: the number of UTF-16 code units. A continuation byte adds
    none, the lead byte of a four-byte sequence stands for a surrogate
    pair, every other byte starts a character of one unit. *)
Definition codeUnits (c : ascii) : nat :=
  let n := nat_of_ascii c in
  if (Nat.leb 128 n && Nat.ltb n 192)%bool then 0
  else if Nat.leb 240 n then 2 else 1.

Fixpoint jsLength (s : string) : nat :=
  match s with
  | EmptyString => 0
  | String c r => codeUnits c + jsLength r
  end.

(** The code points [trim] strips, ECMAScript's WhiteSpace and
    LineTerminator: U+0009 to U+000D, U+0020, U+00A0, U+1680, U+2000 to
    U+200A, U+2028, U+2029, U+202F, U+205F, U+3000 and U+FEFF. *)
Definition whiteSpace : list string :=
  map bytes
    [[9]; [10]; [11]; [12]; [13]; [32]; [194; 160]; [225; 154; 128];
     [226; 128; 128]; [226; 128; 129]; [226; 128; 130]; [226; 128; 131];
     [226; 128; 132]; [226; 128; 133]; [226; 128; 134]; [226; 128; 135];
     [226; 128; 136]; [226; 128; 137]; [226; 128; 138];
     [226; 128; 168]; [226; 128; 169]; [226; 128; 175]; [226; 129; 159];
     [227; 128; 128]; [239; 187; 191]].

(** What follows the prefix [p] in [s], when [s] starts with [p]. *)
Fixpoint stripPrefix (p s : string) : option string :=
  match p, s with
  | EmptyString, _ => Some s
  | String a p', String b s' => if Ascii.eqb a b then stripPrefix p' s' else None
  | String _ _, EmptyString => None
  end.

(** The rest of [s] after one leading character of [spaces]. *)
Definition skipSpace (spaces : list string) (s : string) : option string :=
  head (omap (fun w => stripPrefix w s) spaces).

(** Skipping leading characters of [spaces] for as long as there are
    any; [fuel] bounds the number of characters skipped. *)
Fixpoint skipSpaces (fuel : nat) (spaces : list string) (s : string) : string :=
  match fuel with
  | O => s
  | S n =>
      match skipSpace spaces s with
      | Some r => skipSpaces n spaces r
      | None => s
      end
  end.

Definition trimStart (s : string) : string :=
  skipSpaces (String.length s) whiteSpace s.

Definition trimEnd (s : string) : string :=
  String.rev (skipSpaces (String.length s) (map String.rev whiteSpace) (String.rev s)).

(** [String.prototype.trim], the setter behind the schemas' [trim: true]. *)
Definition trim (s : string) : string := trimEnd (trimStart s).

Definition inEnum (s : string) (enum : list string) : bool :=
  existsb (String.eqb s) enum.

(** ** Numbers *)

Definition Math_min (a b : Q) : Q := if Qle_bool a b then a else b.
Definition Math_max (a b : Q) : Q := if Qle_bool a b then b else a.

(** The schemas' [min]/[max] validators. *)
Definition inRange (lo hi x : Q) : bool := (Qle_bool lo x && Qle_bool x hi)%bool.

(** JavaScript's [!x] on an optional number: [undefined] and [0] are falsy. *)
Definition falsyNumber (o : option Q) : bool :=
  match o with
  | None => true
  | Some q => Qeq_bool q 0
  end.

(** [a / b] on numbers: [None] stands for the non-finite results of a
    division by zero ([NaN], [Infinity]). *)
Definition jsDiv (a b : Q) : option Q :=
  if Qeq_bool b 0 then None else Some (Qred (a / b)).

Definition sumQ (l : list Q) : Q := fold_left Qplus l 0%Q.

(** ** Dates *)

Definition msPerDay : Z := 86400000.

(** The UTC calendar day of a timestamp, as a day number. MongoDB's
    [$dateToString] with format [%Y-%m-%d] renders this day; the rendering
    is injective and, on four-digit years, monotone for the string order
    [$sort] uses, so the aggregation keys are kept as day numbers. *)
Definition dayOf (t : Z) : Z := (t / msPerDay)%Z.

(** The time zone of the host, as ECMAScript's [LocalTZA]: the offset of
    local time from UTC, in milliseconds, at a UTC instant and at a local
    time value. The two differ, and change over the year, where
    daylight-saving time is kept. *)
Record TimeZone := {
  offsetAtUTC : Z -> Z;
  offsetAtLocal : Z -> Z
}.

(** ECMAScript's [LocalTime(t)] and [UTC(t)]. *)
Definition LocalTime (tz : TimeZone) (t : Z) : Z := (t + offsetAtUTC tz t)%Z.
Definition UTC (tz : TimeZone) (t : Z) : Z := (t - offsetAtLocal tz t)%Z.

(** [d = new Date(); d.setDate(d.getDate() - n)]: [setDate] moves the
    local calendar date and keeps the local time of day, that is, it takes
    [n] days off the local time value and converts the result back. Across
    a change of daylight-saving time the result is not [n] days of
    86400000 ms before [now]. *)
Definition daysAgo (tz : TimeZone) (n : Z) (now : Z) : Z :=
  UTC tz (LocalTime tz now - n * msPerDay)%Z.

(** ** Requests, replies and errors *)

Definition ObjectId := string.

(** [req.user], as the [protect] middleware attaches it. [id] is the
    string form of [_id]. *)
Record AuthUser := { id : ObjectId; role : string }.

Inductive Err :=
| ErrorResponse (message : string) (statusCode : nat)
| ValidationError (path : string)
| DuplicateKey (key : ObjectId)
| DatabaseError (message : string).

(** A JSON value, for the parts of a payload that the schemas give no
    type. *)
#[warnings="-register-all"] Inductive JsonValue :=
| JNull
| JBool (b : bool)
| JNumber (q : Q)
| JString (s : string)
| JArray (items : list JsonValue)
| JObject (fields : list (string * JsonValue)).

(** The errors among the results of saving several documents at once,
    and the error [Model.create] rejects with: the first to occur. A
    validation error occurs before the document is sent to the database,
    and so before any error of the database. *)
Definition isValidationError (e : Err) : bool :=
  match e with
  | ValidationError _ => true
  | _ => false
  end.

Definition errorsOf {A : Type} (results : list (Err + A)) : list Err :=
  omap (fun r => match r with inl e => Some e | inr _ => None end) results.

Definition savedOf {A : Type} (results : list (Err + A)) : list A :=
  omap (fun r => match r with inl _ => None | inr d => Some d end) results.

Definition firstError {A : Type} (results : list (Err + A)) : option Err :=
  let errors := errorsOf results in
  head (List.filter isValidationError errors
        ++ List.filter (fun e => negb (isValidationError e)) errors).

Definition statusCodeOf (e : Err) : option nat :=
  match e with
  | ErrorResponse _ c => Some c
  | _ => None
  end.

(** What a handler does with its request: [res.status(s).json(...)] or
    [next(err)]. [asyncHandler] turns a rejection of the handler's promise
    into [next(err)] as well. *)
Inductive Reply (A : Type) :=
| Json (status : nat) (success : bool) (data : A)
| Next (err : Err).
Arguments Json {A} status success data.
Arguments Next {A} err.

Definition isAdmin (u : AuthUser) : bool := String.eqb (role u) "admin".

(** The guard every single-resource handler repeats:
    [doc.user.toString() !== req.user.id && req.user.role !== 'admin']. *)
Definition notOwnerNorAdmin (owner : ObjectId) (u : AuthUser) : bool :=
  (negb (String.eqb owner (id u)) && negb (isAdmin u))%bool.

(** ** Queries and aggregation stages *)

(** The documents of a collection, in the order a scan meets them. *)
Definition scan {A : Type} (s : gmap ObjectId A) : list A := (map_to_list s).*2.

(** [$group] with [_id: key]: one group per distinct key, each holding the
    documents that fall in it. *)
Fixpoint addToGroup {A : Type} (k : Z) (x : A) (gs : list (Z * list A))
    : list (Z * list A) :=
  match gs with
  | [] => [(k, [x])]
  | (k', xs) :: r =>
      if Z.eqb k k' then (k', xs ++ [x]) :: r else (k', xs) :: addToGroup k x r
  end.

Definition groupBy {A : Type} (key : A -> Z) (l : list A) : list (Z * list A) :=
  fold_left (fun gs x => addToGroup (key x) x gs) l [].

(** The documents a list of groups holds under the key [k]. *)
Fixpoint groupOf {A : Type} (k : Z) (gs : list (Z * list A)) : list A :=
  match gs with
  | [] => []
  | (k', xs) :: r => if Z.eqb k k' then xs else groupOf k r
  end.

(** The test that puts a document in the group of [k]. *)
Definition onDay {A : Type} (key : A -> Z) (k : Z) (x : A) : bool := Z.eqb (key x) k.

(** [$sort: { _id: 1 }]. *)
Definition keyLe {B : Type} (g1 g2 : Z * B) : Prop := (g1.1 <= g2.1)%Z.
#[global] Instance keyLe_dec {B : Type} : RelDecision (@keyLe B).
Proof. intros g1 g2. unfold keyLe. apply _. Defined.
Definition sortByKey {B : Type} (gs : list (Z * B)) : list (Z * B) :=
  merge_sort keyLe gs.

(** [$avg] over a group. *)
Definition avg (l : list Q) : option Q := jsDiv (sumQ l) (inject_Z (Z.of_nat (length l))).

(** Counting occurrences into an object, [acc[k] = (acc[k] || 0) + 1]:
    keys stay in the order they were first written. *)
Fixpoint bump (k : string) (acc : list (string * nat)) : list (string * nat) :=
  match acc with
  | [] => [(k, 1)]
  | (k', n) :: r => if String.eqb k k' then (k', S n) :: r else (k', n) :: bump k r
  end.

Definition countOccurrences (l : list string) : list (string * nat) :=
  fold_left (fun acc k => bump k acc) l [].

(** [Object.entries(counts).sort((a, b) => b[1] - a[1])[0]]: the sort is
    stable, so the head is the first entry with the greatest count; there
    is none when the object is empty. *)
Fixpoint firstMax (best : string * nat) (l : list (string * nat)) : string * nat :=
  match l with
  | [] => best
  | e :: r => if Nat.ltb best.2 e.2 then firstMax e r else firstMax best r
  end.

Definition mostCommon (counts : list (string * nat)) : option string :=
  match counts with
  | [] => None
  | e :: r => Some (firstMax e r).1
  end.

(** [[...new Set(l)]]: the first occurrence of each value, in order. *)
Definition dedupe (l : list string) : list string :=
  fold_left (fun acc x => if inEnum x acc then acc else acc ++ [x]) l [].

(** [parseFloat(x.toFixed(2))], on the exact value of a number that is
    not negative: the nearest multiple of a hundredth, the larger of two
    that are as near. The error of the binary representation is left
    out. *)
Definition toFixed2 (x : Q) : Q :=
  Qred (inject_Z (Qfloor (x * 100 + (1 # 2))%Q) / 100)%Q.

Definition Qabs_gt (x bound : Q) : bool :=
  (negb (Qle_bool x bound) || negb (Qle_bool (- bound) x))%bool.

(** ** The Mood model and its controller *)

Module Mood.

Definition moodEnum : list string :=
  ["happy"; "sad"; "anxious"; "angry"; "calm"; "excited"; "grateful"; "tired"; "neutral"].

Definition activityEnum : list string :=
  ["work"; "exercise"; "social"; "family"; "hobby"; "rest"; "other"].

(** A stored document of [moodSchema], with its timestamps. *)
Record doc := {
  _id : ObjectId;
  user : ObjectId;
  mood : string;
  intensity : Q;
  note : option string;
  activities : list string;
  sleepQuality : option Q;
  weather : option string;
  location : option string;
  tags : list string;
  isShared : bool;
  aiInsights : option string;
  createdAt : Z;
  updatedAt : Z
}.

(** A JSON object of a request: the schema's paths a client may send,
    the two paths of [timestamps: true] among them. *)
Record body := {
  b_user : option ObjectId;
  b_mood : option string;
  b_intensity : option Q;
  b_note : option string;
  b_activities : option (list string);
  b_sleepQuality : option Q;
  b_weather : option string;
  b_location : option string;
  b_tags : option (list string);
  b_isShared : option bool;
  b_aiInsights : option string;
  b_createdAt : option Z;
  b_updatedAt : option Z
}.

Definition emptyBody : body :=
  {| b_user := None; b_mood := None; b_intensity := None; b_note := None;
     b_activities := None; b_sleepQuality := None; b_weather := None;
     b_location := None; b_tags := None; b_isShared := None;
     b_aiInsights := None; b_createdAt := None; b_updatedAt := None |}.

(** [req.body.user = v], on an object. *)
Definition setUser (v : ObjectId) (b : body) : body :=
  {| b_user := Some v; b_mood := b_mood b; b_intensity := b_intensity b;
     b_note := b_note b; b_activities := b_activities b;
     b_sleepQuality := b_sleepQuality b; b_weather := b_weather b;
     b_location := b_location b; b_tags := b_tags b;
     b_isShared := b_isShared b; b_aiInsights := b_aiInsights b;
     b_createdAt := b_createdAt b; b_updatedAt := b_updatedAt b |}.

(** [req.body]: a JSON object, with its schema paths and its keys that
    start with [$] (the update operators), or a JSON array of objects. *)
Inductive Payload :=
| Object (b : body) (operators : list (string * JsonValue))
| Array (items : list body).

(** [req.body.user = v]: on an array the assignment adds a property to
    the array object and leaves its items as they are. *)
Definition stamp (v : ObjectId) (p : Payload) : Payload :=
  match p with
  | Object b operators => Object (setUser v b) operators
  | Array items => Array items
  end.

Record Request := {
  req_user : AuthUser;
  params_id : ObjectId;
  req_body : Payload
}.

(** The [data] of the reply to a create: the document, or the array of
    documents when the body was an array. *)
Inductive Created :=
| One (d : doc)
| Many (ds : list doc).

(** The schema validators, on the paths that carry one. *)
Definition checkMood (m : string) : bool := inEnum m moodEnum.
Definition checkIntensity (i : Q) : bool := inRange 1 10 i.
Definition checkNote (n : option string) : bool :=
  match n with
  | None => true
  | Some s => Nat.leb (jsLength s) 500
  end.
Definition checkActivities (l : list string) : bool :=
  forallb (fun a => inEnum a activityEnum) l.
Definition checkSleepQuality (o : option Q) : bool :=
  match o with
  | None => true
  | Some q => inRange 1 5 q
  end.

Section WithRuntime.

(** The host's rendering of a number in a template literal, and the
    server's time zone (for [getDay] and [getHours]). *)
Variable numberToString : Q -> string.
Variable tz : TimeZone.

Definition getDay (t : Z) : nat := Z.to_nat ((dayOf (LocalTime tz t) + 4) mod 7).
Definition getHours (t : Z) : Z := ((LocalTime tz t mod msPerDay) / 3600000)%Z.

(** The virtual [timeOfDay]. *)
Definition timeOfDay (d : doc) : string :=
  let hour := getHours (createdAt d) in
  if (hour <? 12)%Z then "morning"
  else if (hour <? 17)%Z then "afternoon"
  else if (hour <? 21)%Z then "evening"
  else "night".

Definition days : list string :=
  ["sunday"; "monday"; "tuesday"; "wednesday"; "thursday"; "friday"; "saturday"].

Definition noteAbsent (n : option string) : bool :=
  match n with
  | None => true
  | Some s => String.eqb s ""
  end.

(** [moodSchema.pre('save')]: a default note and default tags. *)
Definition preSave (d : doc) : doc :=
  let note' :=
    if noteAbsent (note d)
    then Some ("Feeling " +:+ mood d +:+ " with intensity "
               +:+ numberToString (intensity d) +:+ "/10")
    else note d in
  let tags' :=
    match tags d with
    | [] => [nth (getDay (createdAt d)) days ""; timeOfDay d]
    | _ => tags d
    end in
  {| _id := _id d; user := user d; mood := mood d; intensity := intensity d;
     note := note'; activities := activities d;
     sleepQuality := sleepQuality d; weather := weather d;
     location := location d; tags := tags'; isShared := isShared d;
     aiInsights := aiInsights d; createdAt := createdAt d;
     updatedAt := updatedAt d |}.

(** [Mood.create(body)] on one object: cast with the schema's setters and
    defaults, validate, stamp the times, run the pre-save hook, insert.
    [oid] is the identifier of the new document and [now] the clock. The
    timestamps hook sets [createdAt] to the clock only when the document
    has none, and [updatedAt] of a new document to its [createdAt]. *)
Definition create (oid : ObjectId) (now : Z) (b : body)
    (s : gmap ObjectId doc) : Err + (doc * gmap ObjectId doc) :=
  match b_user b, b_mood b, b_intensity b with
  | None, _, _ => inl (ValidationError "user")
  | Some _, None, _ => inl (ValidationError "mood")
  | Some _, Some _, None => inl (ValidationError "intensity")
  | Some u, Some m, Some i =>
      let n := trim <$> b_note b in
      let acts := default [] (b_activities b) in
      if negb (checkMood m) then inl (ValidationError "mood")
      else if negb (checkIntensity i) then inl (ValidationError "intensity")
      else if negb (checkNote n) then inl (ValidationError "note")
      else if negb (checkActivities acts) then inl (ValidationError "activities")
      else if negb (checkSleepQuality (b_sleepQuality b))
           then inl (ValidationError "sleepQuality")
      else
        let d := preSave
          {| _id := oid; user := u; mood := m; intensity := i; note := n;
             activities := acts; sleepQuality := b_sleepQuality b;
             weather := trim <$> b_weather b;
             location := trim <$> b_location b;
             tags := map trim (default [] (b_tags b));
             isShared := default false (b_isShared b);
             aiInsights := trim <$> b_aiInsights b;
             createdAt := default now (b_createdAt b);
             updatedAt := default now (b_createdAt b) |} in
        match s !! oid with
        | Some _ => inl (DuplicateKey oid)
        | None => inr (d, <[oid := d]> s)
        end
  end.

(** [Mood.create(array)]: every item is saved on its own, the [n]-th
    under the identifier [newId n], whether or not another item fails. *)
Fixpoint createEach (newId : nat -> ObjectId) (n : nat) (now : Z)
    (items : list body) (s : gmap ObjectId doc)
    : list (Err + doc) * gmap ObjectId doc :=
  match items with
  | [] => ([], s)
  | b :: rest =>
      match create (newId n) now b s with
      | inl e =>
          let '(results, s') := createEach newId (S n) now rest s in
          (inl e :: results, s')
      | inr (d, s1) =>
          let '(results, s') := createEach newId (S n) now rest s1 in
          (inr d :: results, s')
      end
  end.

(** [createMood]: [req.body.user = req.user.id], then
    [Mood.create(req.body)], then the reply 201. [newId] gives the
    identifiers of the new documents. *)
Definition createMood (newId : nat -> ObjectId) (now : Z) (req : Request)
    (s : gmap ObjectId doc) : Reply Created * gmap ObjectId doc :=
  match stamp (id (req_user req)) (req_body req) with
  | Object b _ =>
      match create (newId 0) now b s with
      | inl e => (Next e, s)
      | inr (d, s') => (Json 201 true (One d), s')
      end
  | Array items =>
      let '(results, s') := createEach newId 0 now items s in
      match firstError results with
      | Some e => (Next e, s')
      | None => (Json 201 true (Many (savedOf results)), s')
      end
  end.

End WithRuntime.

(** The update validators ([runValidators: true]) look at the paths the
    update sets, and at nothing else. *)
Definition validateUpdate (b : body) : option string :=
  if negb (from_option checkMood true (b_mood b)) then Some "mood"
  else if negb (from_option checkIntensity true (b_intensity b)) then Some "intensity"
  else if negb (checkNote (trim <$> b_note b)) then Some "note"
  else if negb (from_option checkActivities true (b_activities b)) then Some "activities"
  else if negb (checkSleepQuality (b_sleepQuality b)) then Some "sleepQuality"
  else None.

(** The document after [$set]-ting every path the update carries. *)
Definition applyUpdate (now : Z) (b : body) (d : doc) : doc :=
  {| _id := _id d;
     user := default (user d) (b_user b);
     mood := default (mood d) (b_mood b);
     intensity := default (intensity d) (b_intensity b);
     note := from_option (fun n => Some (trim n)) (note d) (b_note b);
     activities := default (activities d) (b_activities b);
     sleepQuality := from_option Some (sleepQuality d) (b_sleepQuality b);
     weather := from_option (fun w => Some (trim w)) (weather d) (b_weather b);
     location := from_option (fun w => Some (trim w)) (location d) (b_location b);
     tags := from_option (map trim) (tags d) (b_tags b);
     isShared := default (isShared d) (b_isShared b);
     aiInsights := from_option (fun w => Some (trim w)) (aiInsights d) (b_aiInsights b);
     createdAt := createdAt d;
     updatedAt := now |}.

Section WithDatabase.

(** What Mongoose and MongoDB make of an update document that is not a
    plain object of schema paths, one with update operators ([$inc],
    [$unset], ...) or an array (an aggregation pipeline), on the stored
    document: the updated document or an error. Update validators run
    for some operators only. *)
Variable databaseUpdate : Z -> Payload -> doc -> Err + doc.

(** [Mood.findByIdAndUpdate(id, body, {new: true, runValidators: true})].
    Query middleware only: the document's pre-save hook does not run.
    The reply of [None] is Mongoose's [null] for a missing document. An
    object without operators is a [$set] of its paths; [_id] is
    immutable, whatever the update document. *)
Definition findByIdAndUpdate (now : Z) (i : ObjectId) (p : Payload)
    (s : gmap ObjectId doc) : Err + (option doc * gmap ObjectId doc) :=
  match p with
  | Object b [] =>
      match validateUpdate b with
      | Some path => inl (ValidationError path)
      | None =>
          match s !! i with
          | None => inr (None, s)
          | Some d => let d' := applyUpdate now b d in inr (Some d', <[i := d']> s)
          end
      end
  | _ =>
      match s !! i with
      | None => inr (None, s)
      | Some d =>
          match databaseUpdate now p d with
          | inl e => inl e
          | inr d' =>
              if String.eqb (_id d') (_id d) then inr (Some d', <[i := d']> s)
              else inl (DatabaseError "the update would modify the immutable field _id")
          end
      end
  end.

Definition notFound (i : ObjectId) : Err :=
  ErrorResponse ("Mood entry not found with id of " +:+ i) 404.

Definition notAuthorized (u : AuthUser) (verb : string) : Err :=
  ErrorResponse ("User " +:+ id u +:+ " is not authorized to " +:+ verb
                 +:+ " this mood entry") 401.

(** [getMood]. *)
Definition getMood (req : Request) (s : gmap ObjectId doc) : Reply doc :=
  match s !! params_id req with
  | None => Next (notFound (params_id req))
  | Some m =>
      if notOwnerNorAdmin (user m) (req_user req)
      then Next (notAuthorized (req_user req) "access")
      else Json 200 true m
  end.

(** [updateMood]. The reply's data is what [findByIdAndUpdate] returns. *)
Definition updateMood (now : Z) (req : Request) (s : gmap ObjectId doc)
    : Reply (option doc) * gmap ObjectId doc :=
  match s !! params_id req with
  | None => (Next (notFound (params_id req)), s)
  | Some m =>
      if notOwnerNorAdmin (user m) (req_user req)
      then (Next (notAuthorized (req_user req) "update"), s)
      else match findByIdAndUpdate now (params_id req) (req_body req) s with
           | inl e => (Next e, s)
           | inr (r, s') => (Json 200 true r, s')
           end
  end.

(** [deleteMood]; the reply's data is the empty object. *)
Definition deleteMood (req : Request) (s : gmap ObjectId doc)
    : Reply unit * gmap ObjectId doc :=
  match s !! params_id req with
  | None => (Next (notFound (params_id req)), s)
  | Some m =>
      if notOwnerNorAdmin (user m) (req_user req)
      then (Next (notAuthorized (req_user req) "delete"), s)
      else (Json 200 true tt, delete (_id m) s)
  end.

End WithDatabase.

(** *** Statistics *)

Record TimelineEntry := {
  t_day : Z;
  t_avgIntensity : option Q;
  t_count : nat;
  t_moods : list string
}.

Definition timelineEntry (g : Z * list doc) : TimelineEntry :=
  {| t_day := g.1;
     t_avgIntensity := avg (map intensity g.2);
     t_count := length g.2;
     t_moods := map mood g.2 |}.

(** The [$match] stage of the timeline:
    [{ user: req.user._id, createdAt: { $gte: thirtyDaysAgo } }]. *)
Definition inWindow (u : AuthUser) (since : Z) (d : doc) : bool :=
  (String.eqb (user d) (id u) && Z.leb since (createdAt d))%bool.

(** [moodTimeline] of [getMoodStats]: match, group by calendar day,
    sort by day ascending. *)
Definition moodTimeline (tz : TimeZone) (now : Z) (u : AuthUser)
    (s : gmap ObjectId doc) : list TimelineEntry :=
  let thirtyDaysAgo := daysAgo tz 30 now in
  map timelineEntry
    (sortByKey
       (groupBy (fun d => dayOf (createdAt d))
          (List.filter (inWindow u thirtyDaysAgo) (scan s)))).

(** *** Insights *)

Record Stats := {
  averageIntensity : option Q;
  mostCommonMood : string;
  moodCounts : list (string * nat);
  totalEntries : nat
}.

Inductive InsightsData :=
| NoData (message : string) (suggestions : list string)
| Report (recentMood : doc) (moodTrend : list (Z * string * Q))
         (stats : Stats) (insights suggestions : list string).

Definition newestFirst (d1 d2 : doc) : Prop := (createdAt d2 <= createdAt d1)%Z.
#[global] Instance newestFirst_dec : RelDecision newestFirst.
Proof. intros d1 d2. unfold newestFirst. apply _. Defined.

(** [Mood.find({ user, createdAt: { $gte: sevenDaysAgo } }).sort({ createdAt: -1 })]. *)
Definition recentMoodsOf (tz : TimeZone) (now : Z) (u : AuthUser)
    (s : gmap ObjectId doc) : list doc :=
  merge_sort newestFirst (List.filter (inWindow u (daysAgo tz 7 now)) (scan s)).

Definition trendInsight (recentMoods : list doc) : list string :=
  match recentMoods, last recentMoods with
  | lastMood :: _, Some firstMood =>
      let moodChange := (intensity lastMood - intensity firstMood)%Q in
      if Qabs_gt moodChange 2
      then ["Your mood has "
            +:+ (if Qle_bool moodChange 0 then "declined" else "improved")
            +:+ " significantly over the past week."]
      else []
  | _, _ => []
  end.

Definition activityInsight (recentMoods : list doc) : list string * list string :=
  let acts := concat (map activities recentMoods) in
  match mostCommon (countOccurrences acts) with
  | None => ([], [])
  | Some mostCommonActivity =>
      (["You've been engaging in " +:+ mostCommonActivity +:+ " frequently."],
       if String.eqb mostCommonActivity "exercise"
       then ["Keep up with your exercise routine! Regular physical activity is great for mental health."]
       else if String.eqb mostCommonActivity "meditation"
       then ["Your meditation practice is helping build mindfulness. Consider trying different techniques."]
       else [])
  end.

Definition moodSuggestions (mostCommonMood : string) : list string :=
  if String.eqb mostCommonMood "anxious" then
    ["Try deep breathing exercises to help manage anxiety.";
     "Consider journaling about what's causing your anxiety to better understand and process your feelings."]
  else if String.eqb mostCommonMood "sad" then
    ["Reach out to a friend or loved one for support.";
     "Engage in activities you usually enjoy, even if you don't feel like it right now."]
  else if String.eqb mostCommonMood "happy" then
    ["Share your positive energy with others!";
     "Take a moment to reflect on what's contributing to your happiness."]
  else [].

Definition intensitySuggestions (avgIntensity : option Q) : list string :=
  match avgIntensity with
  | None => []
  | Some a =>
      if negb (Qle_bool a 7) then
        ["Your high intensity moods suggest you might benefit from stress-reduction techniques."]
      else if negb (Qle_bool 4 a) then
        ["Consider activities that energize you to help lift your mood."]
      else []
  end.

Inductive Thrown := TypeError.

(** The body of [getMoodInsights] past its guard, on any list: what it
    computes, or what it throws ([[0][0]] on the entries of an empty
    object). A division by zero does not throw: it leaves [NaN], here
    [None], in [avgIntensity]. *)
Definition report (recentMoods : list doc) : Thrown + InsightsData :=
  let avgIntensity :=
    jsDiv (sumQ (map intensity recentMoods))
          (inject_Z (Z.of_nat (length recentMoods))) in
  let moodCounts := countOccurrences (map mood recentMoods) in
  match mostCommon moodCounts, recentMoods with
  | None, _ => inl TypeError
  | Some _, [] => inl TypeError
  | Some mostCommonMood, newest :: _ =>
      let '(activityInsights, activitySuggestions) := activityInsight recentMoods in
      let insights := trendInsight recentMoods ++ activityInsights in
      let suggestions :=
        activitySuggestions ++ moodSuggestions mostCommonMood
        ++ intensitySuggestions avgIntensity in
      inr (Report newest
             (map (fun m => (createdAt m, mood m, intensity m)) recentMoods)
             {| averageIntensity := toFixed2 <$> avgIntensity;
                mostCommonMood := mostCommonMood;
                moodCounts := moodCounts;
                totalEntries := length recentMoods |}
             insights
             (firstn 3 (dedupe suggestions)))
  end.

Definition noDataMessage : string := "No mood entries found in the last 7 days".
Definition starterSuggestion : string :=
  "Start by adding your first mood entry to track your emotional well-being.".

Inductive InsightsReply :=
| InsightsJson (status : nat) (success : bool) (data : InsightsData)
| InsightsThrew (e : Thrown).

(** [getMoodInsights]. *)
Definition getMoodInsights (tz : TimeZone) (now : Z) (u : AuthUser)
    (s : gmap ObjectId doc) : InsightsReply :=
  let recentMoods := recentMoodsOf tz now u s in
  if Nat.eqb (length recentMoods) 0
  then InsightsJson 200 true (NoData noDataMessage [starterSuggestion])
  else match report recentMoods with
       | inl e => InsightsThrew e
       | inr data => InsightsJson 200 true data
       end.

End Mood.


(** ** The Journal model and its controller *)

Module Journal.

Definition emotionEnum : list string :=
  ["happy"; "sad"; "anxious"; "angry"; "calm"; "excited"; "grateful"; "tired"; "neutral"].

Definition activityEnum : list string :=
  ["exercise"; "meditation"; "social"; "work"; "hobby"; "rest"; "other"].

(** A stored document of [journalSchema], with its timestamps. *)
Record doc := {
  _id : ObjectId;
  user : ObjectId;
  title : option string;
  content : string;
  emotion : string;
  sentimentScore : option Q;
  tags : list string;
  isPrivate : bool;
  mood : Q;
  activities : list string;
  location : option string;
  weather : option string;
  sleepHours : option Q;
  aiInsights : option string;
  createdAt : Z;
  updatedAt : Z
}.

(** A JSON object of a request: the schema's paths a client may send,
    the two paths of [timestamps: true] among them. *)
Record body := {
  b_user : option ObjectId;
  b_title : option string;
  b_content : option string;
  b_emotion : option string;
  b_sentimentScore : option Q;
  b_tags : option (list string);
  b_isPrivate : option bool;
  b_mood : option Q;
  b_activities : option (list string);
  b_location : option string;
  b_weather : option string;
  b_sleepHours : option Q;
  b_aiInsights : option string;
  b_createdAt : option Z;
  b_updatedAt : option Z
}.

Definition emptyBody : body :=
  {| b_user := None; b_title := None; b_content := None; b_emotion := None;
     b_sentimentScore := None; b_tags := None; b_isPrivate := None;
     b_mood := None; b_activities := None; b_location := None;
     b_weather := None; b_sleepHours := None; b_aiInsights := None;
     b_createdAt := None; b_updatedAt := None |}.

(** [req.body.user = v], on an object. *)
Definition setUser (v : ObjectId) (b : body) : body :=
  {| b_user := Some v; b_title := b_title b; b_content := b_content b;
     b_emotion := b_emotion b; b_sentimentScore := b_sentimentScore b;
     b_tags := b_tags b; b_isPrivate := b_isPrivate b; b_mood := b_mood b;
     b_activities := b_activities b; b_location := b_location b;
     b_weather := b_weather b; b_sleepHours := b_sleepHours b;
     b_aiInsights := b_aiInsights b;
     b_createdAt := b_createdAt b; b_updatedAt := b_updatedAt b |}.

(** [req.body]: a JSON object, with its schema paths and its keys that
    start with [$] (the update operators), or a JSON array of objects. *)
Inductive Payload :=
| Object (b : body) (operators : list (string * JsonValue))
| Array (items : list body).

(** [req.body.user = v]: on an array the assignment adds a property to
    the array object and leaves its items as they are. *)
Definition stamp (v : ObjectId) (p : Payload) : Payload :=
  match p with
  | Object b operators => Object (setUser v b) operators
  | Array items => Array items
  end.

Record Request := {
  req_user : AuthUser;
  params_id : ObjectId;
  req_body : Payload
}.

(** The [data] of the reply to a create: the document, or the array of
    documents when the body was an array. *)
Inductive Created :=
| One (d : doc)
| Many (ds : list doc).

(** *** The pre-save hook *)

Definition positiveWords : list string :=
  ["happy"; "joy"; "excited"; "good"; "great"; "amazing"; "wonderful"].
Definition negativeWords : list string :=
  ["sad"; "angry"; "anxious"; "bad"; "terrible"; "awful"; "worst"].

(** The two [forEach] loops: one point up per positive word the content
    includes, one point down per negative word. *)
Definition keywordScore (content : string) : Z :=
  let up := fold_left (fun score word =>
                         if includes content word then (score + 1)%Z else score)
                      positiveWords 0%Z in
  fold_left (fun score word =>
               if includes content word then (score - 1)%Z else score)
            negativeWords up.

(** [Math.max(-1, Math.min(1, score / 5))] on the lower-cased content. *)
Definition heuristicScore (text : string) : Q :=
  let score := keywordScore (toLowerCase text) in
  Math_max (-1) (Math_min 1 (Qred (inject_Z score / 5))).

Definition setSentimentScore (v : option Q) (d : doc) : doc :=
  {| _id := _id d; user := user d; title := title d; content := content d;
     emotion := emotion d; sentimentScore := v; tags := tags d;
     isPrivate := isPrivate d; mood := mood d; activities := activities d;
     location := location d; weather := weather d; sleepHours := sleepHours d;
     aiInsights := aiInsights d; createdAt := createdAt d;
     updatedAt := updatedAt d |}.

(** [journalSchema.pre('save')];
    [contentModified] is [this.isModified('content')]. *)
Definition preSave (contentModified : bool) (d : doc) : doc :=
  if (contentModified && falsyNumber (sentimentScore d))%bool
  then setSentimentScore (Some (heuristicScore (content d))) d
  else d.

(** *** Validation and persistence *)

Definition checkTitle (t : option string) : bool :=
  match t with
  | None => true
  | Some s => Nat.leb (jsLength s) 100
  end.
Definition checkContent (c : string) : bool := negb (String.eqb c "").
Definition checkEmotion (e : string) : bool := inEnum e emotionEnum.
Definition checkSentimentScore (o : option Q) : bool :=
  match o with
  | None => true
  | Some q => inRange (-1) 1 q
  end.
Definition checkMood (m : Q) : bool := inRange 1 5 m.
Definition checkActivities (l : list string) : bool :=
  forallb (fun a => inEnum a activityEnum) l.
Definition checkSleepHours (o : option Q) : bool :=
  match o with
  | None => true
  | Some q => inRange 0 24 q
  end.

(** [Journal.create(body)] on one object: cast with the schema's setters
    and defaults, validate, stamp the times, run the pre-save hook (the
    content of a new document counts as modified), insert. The timestamps
    hook sets [createdAt] to the clock only when the document has none,
    and [updatedAt] of a new document to its [createdAt]. *)
Definition create (oid : ObjectId) (now : Z) (b : body)
    (s : gmap ObjectId doc) : Err + (doc * gmap ObjectId doc) :=
  match b_user b, b_content b, b_mood b with
  | None, _, _ => inl (ValidationError "user")
  | Some _, None, _ => inl (ValidationError "content")
  | Some _, Some _, None => inl (ValidationError "mood")
  | Some u, Some c, Some m =>
      let t := trim <$> b_title b in
      let c' := trim c in
      let e := default "neutral" (b_emotion b) in
      let acts := default [] (b_activities b) in
      if negb (checkTitle t) then inl (ValidationError "title")
      else if negb (checkContent c') then inl (ValidationError "content")
      else if negb (checkEmotion e) then inl (ValidationError "emotion")
      else if negb (checkSentimentScore (b_sentimentScore b))
           then inl (ValidationError "sentimentScore")
      else if negb (checkMood m) then inl (ValidationError "mood")
      else if negb (checkActivities acts) then inl (ValidationError "activities")
      else if negb (checkSleepHours (b_sleepHours b))
           then inl (ValidationError "sleepHours")
      else
        let d := preSave true
          {| _id := oid; user := u; title := t; content := c'; emotion := e;
             sentimentScore := b_sentimentScore b;
             tags := map trim (default [] (b_tags b));
             isPrivate := default true (b_isPrivate b);
             mood := m; activities := acts;
             location := trim <$> b_location b;
             weather := trim <$> b_weather b;
             sleepHours := b_sleepHours b;
             aiInsights := trim <$> b_aiInsights b;
             createdAt := default now (b_createdAt b);
             updatedAt := default now (b_createdAt b) |} in
        match s !! oid with
        | Some _ => inl (DuplicateKey oid)
        | None => inr (d, <[oid := d]> s)
        end
  end.

(** [Journal.create(array)]: every item is saved on its own, the [n]-th
    under the identifier [newId n], whether or not another item fails. *)
Fixpoint createEach (newId : nat -> ObjectId) (n : nat) (now : Z)
    (items : list body) (s : gmap ObjectId doc)
    : list (Err + doc) * gmap ObjectId doc :=
  match items with
  | [] => ([], s)
  | b :: rest =>
      match create (newId n) now b s with
      | inl e =>
          let '(results, s') := createEach newId (S n) now rest s in
          (inl e :: results, s')
      | inr (d, s1) =>
          let '(results, s') := createEach newId (S n) now rest s1 in
          (inr d :: results, s')
      end
  end.

(** [createJournal]: [req.body.user = req.user.id], then
    [Journal.create(req.body)], then the reply 201. [newId] gives the
    identifiers of the new documents. *)
Definition createJournal (newId : nat -> ObjectId) (now : Z) (req : Request)
    (s : gmap ObjectId doc) : Reply Created * gmap ObjectId doc :=
  match stamp (id (req_user req)) (req_body req) with
  | Object b _ =>
      match create (newId 0) now b s with
      | inl e => (Next e, s)
      | inr (d, s') => (Json 201 true (One d), s')
      end
  | Array items =>
      let '(results, s') := createEach newId 0 now items s in
      match firstError results with
      | Some e => (Next e, s')
      | None => (Json 201 true (Many (savedOf results)), s')
      end
  end.

(** The update validators ([runValidators: true]) look at the paths the
    update sets, and at nothing else. *)
Definition validateUpdate (b : body) : option string :=
  if negb (checkTitle (trim <$> b_title b)) then Some "title"
  else if negb (from_option (fun c => checkContent (trim c)) true (b_content b))
       then Some "content"
  else if negb (from_option checkEmotion true (b_emotion b)) then Some "emotion"
  else if negb (checkSentimentScore (b_sentimentScore b)) then Some "sentimentScore"
  else if negb (from_option checkMood true (b_mood b)) then Some "mood"
  else if negb (from_option checkActivities true (b_activities b)) then Some "activities"
  else if negb (checkSleepHours (b_sleepHours b)) then Some "sleepHours"
  else None.

(** The document after [$set]-ting every path the update carries. *)
Definition applyUpdate (now : Z) (b : body) (d : doc) : doc :=
  {| _id := _id d;
     user := default (user d) (b_user b);
     title := from_option (fun t => Some (trim t)) (title d) (b_title b);
     content := from_option trim (content d) (b_content b);
     emotion := default (emotion d) (b_emotion b);
     sentimentScore := from_option Some (sentimentScore d) (b_sentimentScore b);
     tags := from_option (map trim) (tags d) (b_tags b);
     isPrivate := default (isPrivate d) (b_isPrivate b);
     mood := default (mood d) (b_mood b);
     activities := default (activities d) (b_activities b);
     location := from_option (fun w => Some (trim w)) (location d) (b_location b);
     weather := from_option (fun w => Some (trim w)) (weather d) (b_weather b);
     sleepHours := from_option Some (sleepHours d) (b_sleepHours b);
     aiInsights := from_option (fun w => Some (trim w)) (aiInsights d) (b_aiInsights b);
     createdAt := createdAt d;
     updatedAt := now |}.

Section WithDatabase.

(** What Mongoose and MongoDB make of an update document that is not a
    plain object of schema paths, one with update operators ([$inc],
    [$unset], ...) or an array (an aggregation pipeline), on the stored
    document: the updated document or an error. Update validators run
    for some operators only. *)
Variable databaseUpdate : Z -> Payload -> doc -> Err + doc.

(** [Journal.findByIdAndUpdate(id, body, {new: true, runValidators: true})].
    This is a query: of the schema's middleware only query middleware
    runs, and [pre('save')] is document middleware. An object without
    operators is a [$set] of its paths; [_id] is immutable, whatever the
    update document. *)
Definition findByIdAndUpdate (now : Z) (i : ObjectId) (p : Payload)
    (s : gmap ObjectId doc) : Err + (option doc * gmap ObjectId doc) :=
  match p with
  | Object b [] =>
      match validateUpdate b with
      | Some path => inl (ValidationError path)
      | None =>
          match s !! i with
          | None => inr (None, s)
          | Some d => let d' := applyUpdate now b d in inr (Some d', <[i := d']> s)
          end
      end
  | _ =>
      match s !! i with
      | None => inr (None, s)
      | Some d =>
          match databaseUpdate now p d with
          | inl e => inl e
          | inr d' =>
              if String.eqb (_id d') (_id d) then inr (Some d', <[i := d']> s)
              else inl (DatabaseError "the update would modify the immutable field _id")
          end
      end
  end.

Definition notFound (i : ObjectId) : Err :=
  ErrorResponse ("Journal not found with id of " +:+ i) 404.

Definition notAuthorized (u : AuthUser) (verb : string) : Err :=
  ErrorResponse ("User " +:+ id u +:+ " is not authorized to " +:+ verb
                 +:+ " this journal") 401.

(** [getJournal]. *)
Definition getJournal (req : Request) (s : gmap ObjectId doc) : Reply doc :=
  match s !! params_id req with
  | None => Next (notFound (params_id req))
  | Some j =>
      if notOwnerNorAdmin (user j) (req_user req)
      then Next (notAuthorized (req_user req) "access")
      else Json 200 true j
  end.

(** [updateJournal]. *)
Definition updateJournal (now : Z) (req : Request) (s : gmap ObjectId doc)
    : Reply (option doc) * gmap ObjectId doc :=
  match s !! params_id req with
  | None => (Next (notFound (params_id req)), s)
  | Some j =>
      if notOwnerNorAdmin (user j) (req_user req)
      then (Next (notAuthorized (req_user req) "update"), s)
      else match findByIdAndUpdate now (params_id req) (req_body req) s with
           | inl e => (Next e, s)
           | inr (r, s') => (Json 200 true r, s')
           end
  end.

(** [deleteJournal]. *)
Definition deleteJournal (req : Request) (s : gmap ObjectId doc)
    : Reply unit * gmap ObjectId doc :=
  match s !! params_id req with
  | None => (Next (notFound (params_id req)), s)
  | Some j =>
      if notOwnerNorAdmin (user j) (req_user req)
      then (Next (notAuthorized (req_user req) "delete"), s)
      else (Json 200 true tt, delete (_id j) s)
  end.

End WithDatabase.

(** *** Statistics *)

Record TimelineEntry := {
  t_day : Z;
  t_count : nat;
  t_avgMood : option Q
}.

Definition timelineEntry (g : Z * list doc) : TimelineEntry :=
  {| t_day := g.1;
     t_count := length g.2;
     t_avgMood := avg (map mood g.2) |}.

(** The [$match] stage: [{ user: req.user._id }]. *)
Definition ownedBy (u : AuthUser) (d : doc) : bool := String.eqb (user d) (id u).

(** [journalTimeline] of [getJournalStats]: match the user, group by
    calendar day, sort by day ascending, [$limit: 30]. *)
Definition journalTimeline (u : AuthUser) (s : gmap ObjectId doc)
    : list TimelineEntry :=
  map timelineEntry
    (firstn 30
       (sortByKey
          (groupBy (fun d => dayOf (createdAt d))
             (List.filter (ownedBy u) (scan s))))).

End Journal.

(** ** Listing: the [advancedResults] middleware *)

Module AdvancedResults.

(** A value a filter compares a path with. *)
Inductive Value :=
| VStr (s : string)
| VNum (q : Q)
| VBool (b : bool).

Definition valueEqb (a b : Value) : bool :=
  match a, b with
  | VStr x, VStr y => String.eqb x y
  | VNum x, VNum y => Qeq_bool x y
  | VBool x, VBool y => Bool.eqb x y
  | _, _ => false
  end.

(** [req.query]: field-equality filters, then [page] and [limit]. *)
Record Query := {
  q_filter : list (string * Value);
  q_page : nat;
  q_limit : nat
}.

Record Results (doc : Type) := {
  success : bool;
  count : nat;
  data : list doc
}.
Arguments success {doc} _.
Arguments count {doc} _.
Arguments data {doc} _.

Section Generic.

Context {doc : Type}.
(** What the middleware needs of a model: the owner and the creation time
    of a document, and the value of a path. *)
Variable owner : doc -> ObjectId.
Variable created : doc -> Z.
Variable field : string -> doc -> option Value.

Definition matchesFilter (f : list (string * Value)) (d : doc) : bool :=
  forallb (fun kv => match field kv.1 d with
                     | Some v => valueEqb v kv.2
                     | None => false
                     end) f.

Definition selected (ownerId : ObjectId) (f : list (string * Value)) (d : doc) : bool :=
  (String.eqb (owner d) ownerId && matchesFilter f d)%bool.

Definition newestFirst (d1 d2 : doc) : Prop := (created d2 <= created d1)%Z.
#[local] Instance newestFirst_dec : RelDecision newestFirst.
Proof. intros d1 d2. unfold newestFirst. apply _. Defined.

(** Every entry of [ownerId] that passes the filter, newest first. *)
Definition matching (ownerId : ObjectId) (f : list (string * Value))
    (s : gmap ObjectId doc) : list doc :=
  merge_sort newestFirst (List.filter (selected ownerId f) (scan s)).

(** Modelled from the spec: the [advancedResults] middleware, whose file
    ([middleware/advancedResults]) is not part of the sources; only its
    use in the two routers is. The design document's [list(ownerId,
    filter, page)] returns resources scoped to [ownerId] only, supports
    field-equality filters and pagination by page and limit, ordered by
    creation time descending. *)
Definition advancedResults (u : AuthUser) (q : Query) (s : gmap ObjectId doc)
    : Results doc :=
  let startIndex := (q_page q - 1) * q_limit q in
  let page := take (q_limit q) (drop startIndex (matching (id u) (q_filter q) s)) in
  {| success := true; count := length page; data := page |}.

End Generic.

End AdvancedResults.

Definition moodField (path : string) (d : Mood.doc) : option AdvancedResults.Value :=
  if String.eqb path "mood" then Some (AdvancedResults.VStr (Mood.mood d))
  else if String.eqb path "intensity" then Some (AdvancedResults.VNum (Mood.intensity d))
  else if String.eqb path "note" then AdvancedResults.VStr <$> Mood.note d
  else if String.eqb path "sleepQuality" then AdvancedResults.VNum <$> Mood.sleepQuality d
  else if String.eqb path "weather" then AdvancedResults.VStr <$> Mood.weather d
  else if String.eqb path "location" then AdvancedResults.VStr <$> Mood.location d
  else if String.eqb path "isShared" then Some (AdvancedResults.VBool (Mood.isShared d))
  else if String.eqb path "aiInsights" then AdvancedResults.VStr <$> Mood.aiInsights d
  else None.

Definition journalField (path : string) (d : Journal.doc) : option AdvancedResults.Value :=
  if String.eqb path "title" then AdvancedResults.VStr <$> Journal.title d
  else if String.eqb path "content" then Some (AdvancedResults.VStr (Journal.content d))
  else if String.eqb path "emotion" then Some (AdvancedResults.VStr (Journal.emotion d))
  else if String.eqb path "sentimentScore" then AdvancedResults.VNum <$> Journal.sentimentScore d
  else if String.eqb path "isPrivate" then Some (AdvancedResults.VBool (Journal.isPrivate d))
  else if String.eqb path "mood" then Some (AdvancedResults.VNum (Journal.mood d))
  else if String.eqb path "location" then AdvancedResults.VStr <$> Journal.location d
  else if String.eqb path "weather" then AdvancedResults.VStr <$> Journal.weather d
  else if String.eqb path "sleepHours" then AdvancedResults.VNum <$> Journal.sleepHours d
  else if String.eqb path "aiInsights" then AdvancedResults.VStr <$> Journal.aiInsights d
  else None.

(** [getMoods] and [getJournals] reply 200 with [res.advancedResults], the
    listing the router's middleware left for them. *)
Definition getMoods (u : AuthUser) (q : AdvancedResults.Query)
    (s : gmap ObjectId Mood.doc) : nat * AdvancedResults.Results Mood.doc :=
  (200, AdvancedResults.advancedResults Mood.user Mood.createdAt moodField u q s).

Definition getJournals (u : AuthUser) (q : AdvancedResults.Query)
    (s : gmap ObjectId Journal.doc) : nat * AdvancedResults.Results Journal.doc :=
  (200, AdvancedResults.advancedResults Journal.user Journal.createdAt journalField u q s).

(** ** The client's authService *)

Module AuthService.

Definition refreshUrl : string := "/auth/refresh-token".

(** An axios request config, with the [_retry] mark the interceptors put
    on it. *)
Record Config := {
  url : string;
  _retry : bool;
  authorization : option string
}.

Definition markRetry (c : Config) : Config :=
  {| url := url c; _retry := true; authorization := authorization c |}.

Definition withAuthorization (a : option string) (c : Config) : Config :=
  {| url := url c; _retry := _retry c; authorization := a |}.

(** [api.post('/auth/refresh-token')] starts from a fresh config. *)
Definition refreshConfig : Config :=
  {| url := refreshUrl; _retry := false; authorization := None |}.

Record TokenResponse := { token : string }.

Record Response := {
  status : nat;
  data : TokenResponse;
  config : Config
}.

Inductive Error :=
| AxiosError (response_status : option nat) (error_config : Config)
| ApiError (response_status : option nat)
| JsTypeError.

(** How a promise ends; [Pending]: it never settles. *)
Inductive Settled (A : Type) :=
| Fulfilled (a : A)
| Rejected (e : Error)
| Pending.
Arguments Fulfilled {A} a.
Arguments Rejected {A} e.
Arguments Pending {A}.

(** What the server puts on the wire for a request. *)
Inductive Wire :=
| Answer (code : nat) (body_token : string)
| NoResponse.

(** The state the module and its callers share. [refreshTokenRequest]
    holds, for a stored promise, how it ends for whoever awaits it now. *)
Record World := {
  localToken : option string;
  refreshTokenRequest : option (Settled Response);
  sent : list Config;
  location : option string;
  defaultAuthorization : option string;
  isAuthenticated : bool
}.

Definition setLocalToken (t : option string) (w : World) : World :=
  {| localToken := t; refreshTokenRequest := refreshTokenRequest w;
     sent := sent w; location := location w;
     defaultAuthorization := defaultAuthorization w;
     isAuthenticated := isAuthenticated w |}.

Definition setRefreshTokenRequest (p : option (Settled Response)) (w : World) : World :=
  {| localToken := localToken w; refreshTokenRequest := p;
     sent := sent w; location := location w;
     defaultAuthorization := defaultAuthorization w;
     isAuthenticated := isAuthenticated w |}.

Definition pushSent (c : Config) (w : World) : World :=
  {| localToken := localToken w; refreshTokenRequest := refreshTokenRequest w;
     sent := sent w ++ [c]; location := location w;
     defaultAuthorization := defaultAuthorization w;
     isAuthenticated := isAuthenticated w |}.

Definition setLocation (l : string) (w : World) : World :=
  {| localToken := localToken w; refreshTokenRequest := refreshTokenRequest w;
     sent := sent w; location := Some l;
     defaultAuthorization := defaultAuthorization w;
     isAuthenticated := isAuthenticated w |}.

(** [authService.setAuthToken] and [clearAuthToken]. *)
Definition setDefaultAuthorization (a : option string) (w : World) : World :=
  {| localToken := localToken w; refreshTokenRequest := refreshTokenRequest w;
     sent := sent w; location := location w;
     defaultAuthorization := a;
     isAuthenticated := isAuthenticated w |}.

Definition setIsAuthenticated (b : bool) (w : World) : World :=
  {| localToken := localToken w; refreshTokenRequest := refreshTokenRequest w;
     sent := sent w; location := location w;
     defaultAuthorization := defaultAuthorization w;
     isAuthenticated := b |}.

Definition bearer (t : string) : string := "Bearer " +:+ t.

(** The config that goes on the wire: the instance's default headers,
    then the request interceptor, which reads the token of localStorage. *)
Definition prepare (w : World) (c : Config) : Config :=
  let c1 := match authorization c with
            | Some _ => c
            | None => withAuthorization (defaultAuthorization w) c
            end in
  match localToken w with
  | Some t => if String.eqb t "" then c1 else withAuthorization (Some (bearer t)) c1
  | None => c1
  end.

(** What axios makes of an answer: a response for a 2xx status, an error
    that carries the config otherwise. *)
Definition settle (wire : Wire) (c : Config) : Settled Response :=
  match wire with
  | Answer code t =>
      if (Nat.leb 200 code && Nat.ltb code 300)%bool
      then Fulfilled {| status := code; data := {| token := t |}; config := c |}
      else Rejected (AxiosError (Some code) c)
  | NoResponse => Rejected (AxiosError None c)
  end.

(** [error.response?.status]. *)
Definition statusOf (e : Error) : option nat :=
  match e with
  | AxiosError st _ => st
  | ApiError st => st
  | JsTypeError => None
  end.

(** [error.response?.status !== 401], negated. *)
Definition is401 (e : Error) : bool :=
  match statusOf e with
  | Some code => Nat.eqb code 401
  | None => false
  end.

(** [error.config]. *)
Definition configOf (e : Error) : option Config :=
  match e with
  | AxiosError _ c => Some c
  | _ => None
  end.

(** [handleApiError]: an axios error is rethrown as an [ApiError] with its
    response, anything else as it is. *)
Definition handleApiError (e : Error) : Error :=
  match e with
  | AxiosError st _ => ApiError st
  | _ => e
  end.

(** An error on which neither interceptor starts a renewal: not a 401, or
    without a config, or with a config that is already marked. *)
Definition inert (e : Error) : bool :=
  (negb (is401 e)
   || match configOf e with
      | None => true
      | Some c => _retry c
      end)%bool.

(** The two response interceptors: the one the module installs when it is
    loaded, and the one [setupResponseInterceptor] installs for the auth
    context, with that context's two callbacks. *)
Inductive Interceptor := ModuleLevel | Setup.

Section Client.

(** The server: its answer to the [n]-th request the client has sent. *)
Variable server : nat -> Config -> Wire.
(** The response interceptors of the instance, in the order they were
    installed. *)
Variable chain : list Interceptor.

Section Knot.

(** A call of the instance, [api(config)]. *)
Variable api_rec : Config -> World -> option (Settled Response * World).

(** [authService.refreshToken]. *)
Definition refreshToken (w : World) : option (Settled TokenResponse * World) :=
  match refreshTokenRequest w with
  | Some (Fulfilled existingResponse) =>
      Some (Fulfilled (data existingResponse), setRefreshTokenRequest None w)
  | Some (Rejected error) =>
      Some (Rejected (handleApiError error), setRefreshTokenRequest None w)
  | Some Pending => Some (Pending, w)
  | None =>
      match api_rec refreshConfig (setRefreshTokenRequest (Some Pending) w) with
      | None => None
      | Some (Fulfilled tokenData, w') =>
          Some (Fulfilled (data tokenData), setRefreshTokenRequest None w')
      | Some (Rejected error, w') =>
          Some (Rejected (handleApiError error), setRefreshTokenRequest None w')
      | Some (Pending, w') => Some (Pending, w')
      end
  end.

(** The rejection handler of the module-level interceptor. *)
Definition moduleInterceptor (error : Error) (w : World)
    : option (Settled Response * World) :=
  if negb (is401 error) then Some (Rejected error, w)
  else match configOf error with
       | None => Some (Rejected JsTypeError, w)
       | Some originalRequest =>
           if _retry originalRequest then Some (Rejected error, w)
           else
             let originalRequest := markRetry originalRequest in
             match refreshToken w with
             | None => None
             | Some (Fulfilled d, w') =>
                 api_rec (withAuthorization (Some (bearer (token d))) originalRequest)
                         (setLocalToken (Some (token d)) w')
             | Some (Rejected refreshError, w') =>
                 Some (Rejected refreshError,
                       setLocation "/login" (setLocalToken None w'))
             | Some (Pending, w') => Some (Pending, w')
             end
       end.

(** [refreshTokenHandler] of the auth context, the [onTokenRefresh] it
    passes. Its [catch] calls [authService.logout], which the service does
    not define: the call throws a TypeError in place of the caught error. *)
Definition refreshTokenHandler (w : World) : option (Settled string * World) :=
  match refreshToken w with
  | None => None
  | Some (Fulfilled d, w') =>
      if String.eqb (token d) "" then Some (Rejected JsTypeError, w')
      else Some (Fulfilled (token d),
                 setDefaultAuthorization (Some (bearer (token d))) w')
  | Some (Rejected _, w') => Some (Rejected JsTypeError, w')
  | Some (Pending, w') => Some (Pending, w')
  end.

(** [handleUnauthenticated] of the auth context, the [onUnauthenticated]
    it passes. *)
Definition handleUnauthenticated (w : World) : World :=
  setLocation "/login" (setDefaultAuthorization None (setIsAuthenticated false w)).

(** The rejection handler [setupResponseInterceptor] installs. *)
Definition setupInterceptor (error : Error) (w : World)
    : option (Settled Response * World) :=
  if negb (is401 error) then Some (Rejected error, w)
  else match configOf error with
       | None => Some (Rejected JsTypeError, w)
       | Some originalRequest =>
           if _retry originalRequest then Some (Rejected error, w)
           else
             let originalRequest := markRetry originalRequest in
             match refreshTokenHandler w with
             | None => None
             | Some (Fulfilled newToken, w') =>
                 api_rec (withAuthorization (Some (bearer newToken)) originalRequest) w'
             | Some (Rejected refreshError, w') =>
                 Some (Rejected refreshError, handleUnauthenticated w')
             | Some (Pending, w') => Some (Pending, w')
             end
       end.

Definition onRejected (i : Interceptor) : Error -> World -> option (Settled Response * World) :=
  match i with
  | ModuleLevel => moduleInterceptor
  | Setup => setupInterceptor
  end.

(** The response chain: each interceptor's handlers are attached to the
    promise the previous one returned. The fulfilment handlers return the
    response as it is. *)
Fixpoint runChain (handlers : list Interceptor) (r : Settled Response) (w : World)
    : option (Settled Response * World) :=
  match handlers with
  | [] => Some (r, w)
  | i :: rest =>
      match r with
      | Rejected e =>
          match onRejected i e w with
          | None => None
          | Some (r', w') => runChain rest r' w'
          end
      | _ => runChain rest r w
      end
  end.

(** One call of the instance: send, then run the response chain. *)
Definition api_step (c : Config) (w : World) : option (Settled Response * World) :=
  let c1 := prepare w c in
  let wire := server (length (sent w)) c1 in
  runChain chain (settle wire c1) (pushSent c1 w).

End Knot.

(** [api(config)], with a bound on the depth of the calls the
    interceptors make back into the instance; [None]: the bound was hit. *)
Fixpoint api (fuel : nat) (c : Config) (w : World) : option (Settled Response * World) :=
  match fuel with
  | O => None
  | S n => api_step (api n) c w
  end.

End Client.

End AuthService.

(** ** The single-flight renewal, as the event loop runs it *)

Module SingleFlight.

(** How the [n]-th renewal request ends. *)
Inductive Result :=
| Succeeded (token : string)
| Failed (response_status : option nat).

(** What a caller of [refreshToken] gets: the response's data, or the
    error [handleApiError] throws. *)
Inductive Outcome :=
| Returned (token : string)
| Threw (apiError_status : option nat).

Definition outcomeOf (r : Result) : Outcome :=
  match r with
  | Succeeded t => Returned t
  | Failed st => Threw st
  end.

(** [refreshTokenRequest] holds a promise, named by the number of the
    request that made it; [posts] counts the renewal requests issued;
    [waiting] lists the callers suspended at their [await], with the
    promise each awaits, in the order they arrived; [settled] lists the
    callers whose call has ended. *)
Record State := {
  refreshTokenRequest : option nat;
  posts : nat;
  waiting : list (nat * nat);
  settled : list (nat * Outcome)
}.

Definition idle (s : State) : Prop :=
  refreshTokenRequest s = None /\ waiting s = [].

(** A caller enters [refreshToken] and runs to its [await]: it awaits the
    stored promise when there is one, and otherwise posts the renewal
    request, stores its promise and awaits it. *)
Definition call (caller : nat) (s : State) : State :=
  match refreshTokenRequest s with
  | Some p =>
      {| refreshTokenRequest := Some p; posts := posts s;
         waiting := waiting s ++ [(caller, p)]; settled := settled s |}
  | None =>
      {| refreshTokenRequest := Some (posts s); posts := S (posts s);
         waiting := waiting s ++ [(caller, posts s)]; settled := settled s |}
  end.

Definition awaits (p : nat) (w : nat * nat) : bool := Nat.eqb w.2 p.

(** A renewal request that is answered 401 does not settle its promise:
    the response interceptor takes the answer for one more expired token,
    enters [refreshToken], and awaits the stored promise, which is the one
    it would have to settle. *)
Definition neverSettles (r : Result) : bool :=
  match r with
  | Failed (Some code) => Nat.eqb code 401
  | _ => false
  end.

(** The answer to the renewal request of promise [p] arrives. Unless it
    is a 401, the promise settles: every caller awaiting it resumes, in
    order, ends with the shared result, and runs its [finally], which
    empties [refreshTokenRequest]. *)
Definition resolve (p : nat) (r : Result) (s : State) : State :=
  if neverSettles r then s
  else
    let resumed := List.filter (awaits p) (waiting s) in
    {| refreshTokenRequest :=
         match resumed with
         | [] => refreshTokenRequest s
         | _ => None
         end;
       posts := posts s;
       waiting := List.filter (fun w => negb (awaits p w)) (waiting s);
       settled := settled s ++ map (fun w => (w.1, outcomeOf r)) resumed |}.


End SingleFlight.

(** ** Sample data *)

Module Sample.

Definition alice : AuthUser := {| id := "alice"; role := "user" |}.
Definition bob : AuthUser := {| id := "bob"; role := "user" |}.
Definition root : AuthUser := {| id := "root"; role := "admin" |}.

(** 14 November 2023, 22:13:20 UTC, a Tuesday. *)
Definition now : Z := 1700000000000.

(** A server that keeps UTC, and one in New York in the autumn of 2023:
    four hours behind UTC until 5 November, 06:00 UTC (02:00 local
    daylight time), five hours behind from then on. *)
Definition utc : TimeZone :=
  {| offsetAtUTC := fun _ => 0%Z; offsetAtLocal := fun _ => 0%Z |}.
Definition newYork : TimeZone :=
  {| offsetAtUTC := fun t =>
       if (t <? 1699164000000)%Z then (-14400000)%Z else (-18000000)%Z;
     offsetAtLocal := fun t =>
       if (t <? 1699149600000)%Z then (-14400000)%Z else (-18000000)%Z |}.

Definition bobsMood : Mood.doc :=
  {| Mood._id := "m1"; Mood.user := "bob"; Mood.mood := "anxious";
     Mood.intensity := 8; Mood.note := Some "Feeling anxious with intensity 8/10";
     Mood.activities := ["exercise"]; Mood.sleepQuality := None;
     Mood.weather := None; Mood.location := None;
     Mood.tags := ["tuesday"; "night"]; Mood.isShared := false;
     Mood.aiInsights := None; Mood.createdAt := now; Mood.updatedAt := now |}.

Definition moods : gmap ObjectId Mood.doc := {[ "m1" := bobsMood ]}.

Definition bobsJournal : Journal.doc :=
  {| Journal._id := "j1"; Journal.user := "bob"; Journal.title := None;
     Journal.content := "a happy day"; Journal.emotion := "neutral";
     Journal.sentimentScore := Some (1 # 5); Journal.tags := [];
     Journal.isPrivate := true; Journal.mood := 4; Journal.activities := [];
     Journal.location := None; Journal.weather := None;
     Journal.sleepHours := None; Journal.aiInsights := None;
     Journal.createdAt := now; Journal.updatedAt := now |}.

Definition journals : gmap ObjectId Journal.doc := {[ "j1" := bobsJournal ]}.

(** A request whose body is a JSON object of schema paths. *)
Definition moodRequest (u : AuthUser) (i : ObjectId) (b : Mood.body) : Mood.Request :=
  {| Mood.req_user := u; Mood.params_id := i; Mood.req_body := Mood.Object b [] |}.

Definition journalRequest (u : AuthUser) (i : ObjectId) (b : Journal.body)
    : Journal.Request :=
  {| Journal.req_user := u; Journal.params_id := i;
     Journal.req_body := Journal.Object b [] |}.

(** A request whose body is a JSON array. *)
Definition moodsRequest (u : AuthUser) (items : list Mood.body) : Mood.Request :=
  {| Mood.req_user := u; Mood.params_id := ""; Mood.req_body := Mood.Array items |}.

Definition journalsRequest (u : AuthUser) (items : list Journal.body)
    : Journal.Request :=
  {| Journal.req_user := u; Journal.params_id := "";
     Journal.req_body := Journal.Array items |}.

(** The identifiers of new documents: [i] for the first, [i-1], [i-2], ...
    for the further items of an array. *)
Definition ids (i : ObjectId) (n : nat) : ObjectId :=
  match n with
  | O => i
  | S _ => i +:+ "-" +:+ pretty n
  end.

(** The rendering of a whole number; the sample intensities are whole. *)
Definition showInteger (q : Q) : string := pretty (Qfloor q).

(** A payload that names another owner. *)
Definition forgedMood : Mood.body :=
  {| Mood.b_user := Some "mallory"; Mood.b_mood := Some "calm";
     Mood.b_intensity := Some 3%Q; Mood.b_note := None;
     Mood.b_activities := Some ["rest"]; Mood.b_sleepQuality := None;
     Mood.b_weather := None; Mood.b_location := None; Mood.b_tags := None;
     Mood.b_isShared := None; Mood.b_aiInsights := None;
     Mood.b_createdAt := None; Mood.b_updatedAt := None |}.

Definition bobsLaterMood : Mood.doc :=
  {| Mood._id := "m2"; Mood.user := "bob"; Mood.mood := "happy";
     Mood.intensity := 5; Mood.note := Some "better";
     Mood.activities := []; Mood.sleepQuality := None;
     Mood.weather := None; Mood.location := None;
     Mood.tags := ["wednesday"; "night"]; Mood.isShared := false;
     Mood.aiInsights := None; Mood.createdAt := now + msPerDay;
     Mood.updatedAt := now + msPerDay |}.

Definition alicesMood : Mood.doc :=
  {| Mood._id := "m3"; Mood.user := "alice"; Mood.mood := "tired";
     Mood.intensity := 6; Mood.note := Some "long day";
     Mood.activities := ["work"]; Mood.sleepQuality := None;
     Mood.weather := None; Mood.location := None;
     Mood.tags := ["tuesday"; "night"]; Mood.isShared := false;
     Mood.aiInsights := None; Mood.createdAt := now + 1000;
     Mood.updatedAt := now + 1000 |}.

Definition threeMoods : gmap ObjectId Mood.doc :=
  <["m3" := alicesMood]> (<["m2" := bobsLaterMood]> moods).

Definition firstPage : AdvancedResults.Query :=
  {| AdvancedResults.q_filter := []; AdvancedResults.q_page := 1;
     AdvancedResults.q_limit := 25 |}.

(** Two bodies for a journal entry: a new entry without a score, and an
    update that rewrites the content. *)
Definition happyDay : Journal.body :=
  {| Journal.b_user := None; Journal.b_title := None;
     Journal.b_content := Some "a happy day"; Journal.b_emotion := None;
     Journal.b_sentimentScore := None; Journal.b_tags := None;
     Journal.b_isPrivate := None; Journal.b_mood := Some 4%Q;
     Journal.b_activities := None; Journal.b_location := None;
     Journal.b_weather := None; Journal.b_sleepHours := None;
     Journal.b_aiInsights := None;
     Journal.b_createdAt := None; Journal.b_updatedAt := None |}.

Definition nowSad : Journal.body :=
  {| Journal.b_user := None; Journal.b_title := None;
     Journal.b_content := Some "sad, bad, awful"; Journal.b_emotion := None;
     Journal.b_sentimentScore := None; Journal.b_tags := None;
     Journal.b_isPrivate := None; Journal.b_mood := None;
     Journal.b_activities := None; Journal.b_location := None;
     Journal.b_weather := None; Journal.b_sleepHours := None;
     Journal.b_aiInsights := None;
     Journal.b_createdAt := None; Journal.b_updatedAt := None |}.

(** An entry Bob wrote a hundred days ago. *)
Definition oldJournal : Journal.doc :=
  {| Journal._id := "j0"; Journal.user := "bob"; Journal.title := None;
     Journal.content := "long ago"; Journal.emotion := "neutral";
     Journal.sentimentScore := Some 0%Q; Journal.tags := [];
     Journal.isPrivate := true; Journal.mood := 3; Journal.activities := [];
     Journal.location := None; Journal.weather := None;
     Journal.sleepHours := None; Journal.aiInsights := None;
     Journal.createdAt := now - 100 * msPerDay;
     Journal.updatedAt := now - 100 * msPerDay |}.

Definition oldJournals : gmap ObjectId Journal.doc := {[ "j0" := oldJournal ]}.

(** No renewal in flight, none made yet. *)
Definition idleState : SingleFlight.State :=
  {| SingleFlight.refreshTokenRequest := None; SingleFlight.posts := 0;
     SingleFlight.waiting := []; SingleFlight.settled := [] |}.

(** A server that answers 401 to everything but the second request it
    receives, which it answers with a fresh token. *)
Definition expiredServer (n : nat) (c : AuthService.Config) : AuthService.Wire :=
  match n with
  | 1 => AuthService.Answer 200 "fresh"
  | _ => AuthService.Answer 401 ""
  end.

Definition moodsConfig : AuthService.Config :=
  {| AuthService.url := "/mood"; AuthService._retry := false;
     AuthService.authorization := None |}.

Definition staleWorld : AuthService.World :=
  {| AuthService.localToken := Some "stale";
     AuthService.refreshTokenRequest := None;
     AuthService.sent := [];
     AuthService.location := None;
     AuthService.defaultAuthorization := None;
     AuthService.isAuthenticated := true |}.

End Sample.

(** ** More aggregation stages *)

(** [$group] on a key of any type with a decidable equality, as
    [addToGroup] does on days. *)
Fixpoint addToBucket {K A : Type} `{EqDecision K} (k : K) (x : A)
    (gs : list (K * list A)) : list (K * list A) :=
  match gs with
  | [] => [(k, [x])]
  | (k', xs) :: r =>
      if decide (k = k') then (k', xs ++ [x]) :: r else (k', xs) :: addToBucket k x r
  end.

Definition bucketBy {K A : Type} `{EqDecision K} (key : A -> K) (l : list A)
    : list (K * list A) :=
  fold_left (fun gs x => addToBucket (key x) x gs) l [].

(** The documents a list of buckets holds under the key [k]. *)
Fixpoint bucketOf {K A : Type} `{EqDecision K} (k : K) (gs : list (K * list A))
    : list A :=
  match gs with
  | [] => []
  | (k', xs) :: r => if decide (k = k') then xs else bucketOf k r
  end.

(** The test that puts a document in the bucket of [k]. *)
Definition inBucket {K A : Type} `{EqDecision K} (key : A -> K) (k : K) (x : A) : bool :=
  bool_decide (key x = k).

(** [$sort: { count: -1 }], the count of a group being the number of its
    documents. The order among groups of equal count is the server's; the
    model takes that of the merge. *)
Definition countGe {K A : Type} (g1 g2 : K * list A) : Prop :=
  length g2.2 <= length g1.2.
#[global] Instance countGe_dec {K A : Type} : RelDecision (@countGe K A).
Proof. intros g1 g2. unfold countGe. apply _. Defined.
Definition sortByCount {K A : Type} (gs : list (K * list A)) : list (K * list A) :=
  merge_sort countGe gs.

(** The sum of the counts of a list of groups. *)
Definition totalCount {K A : Type} (gs : list (K * list A)) : nat :=
  foldr (fun g n => length g.2 + n) 0 gs.

(** MongoDB's [$dayOfWeek] (1 is Sunday, 7 is Saturday) and [$hour], both
    in UTC. *)
Definition dayOfWeek (t : Z) : Z := ((dayOf t + 4) mod 7 + 1)%Z.
Definition hourOf (t : Z) : Z := ((t mod msPerDay) / 3600000)%Z.

(** ** The other aggregations of [getMoodStats] *)

Module MoodStats.

(** The [$match] stage: [{ user: req.user._id }]. *)
Definition ownedBy (u : AuthUser) (d : Mood.doc) : bool :=
  String.eqb (Mood.user d) (id u).

Record DistributionEntry := {
  d_mood : string;
  d_count : nat;
  d_avgIntensity : option Q
}.

Definition distributionEntry (g : string * list Mood.doc) : DistributionEntry :=
  {| d_mood := g.1;
     d_count := length g.2;
     d_avgIntensity := avg (map Mood.intensity g.2) |}.

(** [moodDistribution]: match the user, group by mood, sort by count
    descending. *)
Definition moodDistribution (u : AuthUser) (s : gmap ObjectId Mood.doc)
    : list DistributionEntry :=
  map distributionEntry
    (sortByCount (bucketBy Mood.mood (List.filter (ownedBy u) (scan s)))).

Record BreakdownEntry := {
  k_key : Z;
  k_avgIntensity : option Q;
  k_count : nat;
  k_moods : list string
}.

Definition breakdownEntry (g : Z * list Mood.doc) : BreakdownEntry :=
  {| k_key := g.1;
     k_avgIntensity := avg (map Mood.intensity g.2);
     k_count := length g.2;
     k_moods := map Mood.mood g.2 |}.

(** [moodByDay]: match the user, group by day of the week, sort by it. *)
Definition moodByDay (u : AuthUser) (s : gmap ObjectId Mood.doc)
    : list BreakdownEntry :=
  map breakdownEntry
    (sortByKey (groupBy (fun d => dayOfWeek (Mood.createdAt d))
                  (List.filter (ownedBy u) (scan s)))).

(** [moodByHour]: match the user, group by hour of the day, sort by it. *)
Definition moodByHour (u : AuthUser) (s : gmap ObjectId Mood.doc)
    : list BreakdownEntry :=
  map breakdownEntry
    (sortByKey (groupBy (fun d => hourOf (Mood.createdAt d))
                  (List.filter (ownedBy u) (scan s)))).

(** The [$match] stage of the correlation:
    [{ user, activities: { $exists: true, $not: { $size: 0 } } }]. *)
Definition hasActivities (u : AuthUser) (d : Mood.doc) : bool :=
  (ownedBy u d && negb (Nat.eqb (length (Mood.activities d)) 0))%bool.

(** [$unwind: '$activities']: one copy of the document per element of its
    array, each with that element in the array's place. *)
Definition unwindActivities (l : list Mood.doc) : list (string * Mood.doc) :=
  flat_map (fun d => map (fun a => (a, d)) (Mood.activities d)) l.

Record CorrelationEntry := {
  c_activity : string;
  c_avgIntensity : option Q;
  c_count : nat;
  c_moods : list string
}.

Definition correlationEntry (g : string * list (string * Mood.doc)) : CorrelationEntry :=
  {| c_activity := g.1;
     c_avgIntensity := avg (map (fun p => Mood.intensity p.2) g.2);
     c_count := length g.2;
     c_moods := map (fun p => Mood.mood p.2) g.2 |}.

(** [activitiesCorrelation]: match, unwind, group by activity, sort by
    count descending. *)
Definition activitiesCorrelation (u : AuthUser) (s : gmap ObjectId Mood.doc)
    : list CorrelationEntry :=
  map correlationEntry
    (sortByCount
       (bucketBy (fun p : string * Mood.doc => p.1)
          (unwindActivities (List.filter (hasActivities u) (scan s))))).

End MoodStats.

(** ** The other aggregations of [getJournalStats] *)

Module JournalStats.

Record CountEntry := {
  e_label : string;
  e_count : nat
}.

Definition countEntry {A : Type} (g : string * list A) : CountEntry :=
  {| e_label := g.1; e_count := length g.2 |}.

(** [moodStats]: match the user, group by emotion, sort by count
    descending. *)
Definition moodStats (u : AuthUser) (s : gmap ObjectId Journal.doc)
    : list CountEntry :=
  map countEntry
    (sortByCount (bucketBy Journal.emotion (List.filter (Journal.ownedBy u) (scan s)))).

(** The [$match] stage of the tag statistics:
    [{ user, tags: { $exists: true, $ne: [] } }]. *)
Definition hasTags (u : AuthUser) (d : Journal.doc) : bool :=
  (Journal.ownedBy u d && negb (Nat.eqb (length (Journal.tags d)) 0))%bool.

(** [$unwind: '$tags']. *)
Definition unwindTags (l : list Journal.doc) : list (string * Journal.doc) :=
  flat_map (fun d => map (fun t => (t, d)) (Journal.tags d)) l.

(** [tagStats]: match, unwind, group by tag, sort by count descending,
    [$limit: 10]. *)
Definition tagStats (u : AuthUser) (s : gmap ObjectId Journal.doc)
    : list CountEntry :=
  map countEntry
    (firstn 10
       (sortByCount
          (bucketBy (fun p : string * Journal.doc => p.1)
             (unwindTags (List.filter (hasTags u) (scan s)))))).

End JournalStats.

(** ** The chat controller *)

Module Chat.

(** The user of a chat request and the two keys the handler reads from
    [req.body], each whatever JSON value the client sent, or absent (as
    both are when the body is an array). Nothing enforces the checks the
    route declares. *)
Record Request := {
  req_user : AuthUser;
  username : string;
  message : option JsonValue;
  context : option JsonValue
}.

(** JavaScript's truthiness of a JSON value: [null], [false], [0] and
    the empty string are falsy. *)
Definition truthy (v : JsonValue) : bool :=
  match v with
  | JNull => false
  | JBool b => b
  | JNumber q => negb (Qeq_bool q 0)
  | JString s => negb (String.eqb s "")
  | JArray _ => true
  | JObject _ => true
  end.

Definition isContinuation (c : ascii) : bool :=
  let n := nat_of_ascii c in (Nat.leb 128 n && Nat.ltb n 192)%bool.

(** The characters a string yields when it is iterated: its code points,
    each with the bytes of its encoding. *)
Fixpoint codePoints (s : string) : list string :=
  match s with
  | EmptyString => []
  | String c r =>
      let rest := codePoints r in
      match r with
      | String c' _ =>
          if isContinuation c'
          then match rest with
               | x :: xs => String c x :: xs
               | [] => [String c EmptyString]
               end
          else String c EmptyString :: rest
      | EmptyString => String c EmptyString :: rest
      end
  end.

(** [[...context]] with the default [context = []]: the items of an
    array, the characters of a string, nothing for an absent key, and a
    TypeError ([None]) for [null] and for everything else, which is not
    iterable. *)
Definition spread (context : option JsonValue) : option (list JsonValue) :=
  match context with
  | None => Some []
  | Some (JArray items) => Some items
  | Some (JString s) => Some (map JString (codePoints s))
  | Some _ => None
  end.

Record Sentiment := {
  sentiment : string;
  score : Q
}.

(** What the completion service sends back for the sentiment prompt, once
    parsed: the two fields the code reads, either of which may be missing. *)
Record Classified := {
  cl_sentiment : option string;
  cl_score : option Q
}.

Record Resource := {
  r_type : string;
  r_title : string;
  r_description : string;
  r_url : string;
  r_icon : string
}.

Definition positiveWords : list string :=
  ["happy"; "joy"; "excited"; "good"; "great"; "amazing"; "wonderful"].
Definition negativeWords : list string :=
  ["sad"; "angry"; "anxious"; "bad"; "terrible"; "awful"; "worst"].

(** The [catch] branch of [analyzeSentiment]: a fifth up per positive
    word the text includes, a fifth down per negative word, clamped. The
    steps of [0.2] are exact fifths here; the sums of the code carry the
    rounding of binary floating point. *)
Definition fallbackScore (text : string) : Q :=
  let textLower := toLowerCase text in
  let up := fold_left (fun score word =>
                         if includes textLower word
                         then Qred (score + (1 # 5)) else score)
                      positiveWords 0%Q in
  let score := fold_left (fun score word =>
                            if includes textLower word
                            then Qred (score - (1 # 5)) else score)
                         negativeWords up in
  Math_max (-1) (Math_min 1 score).

Definition labelOf (score : Q) : string :=
  if negb (Qle_bool score (1 # 10)) then "positive"
  else if negb (Qle_bool (- (1 # 10)) score) then "negative"
  else "neutral".

Definition fallback (text : string) : Sentiment :=
  let score := fallbackScore text in
  {| sentiment := labelOf score; score := score |}.

(** [result.sentiment || 'neutral'] and [parseFloat(result.score) || 0]. *)
Definition fromClassified (c : Classified) : Sentiment :=
  {| sentiment := match cl_sentiment c with
                  | Some l => if String.eqb l "" then "neutral" else l
                  | None => "neutral"
                  end;
     score := default 0%Q (cl_score c) |}.

(** [getSupportResources]. *)
Definition crisis : Resource :=
  {| r_type := "crisis"; r_title := "Crisis Support";
     r_description := "If you're in crisis, please reach out to a crisis hotline.";
     r_url := "https://www.mentalhealth.gov/get-help/immediate-help";
     r_icon := "emergency" |}.
Definition breathing : Resource :=
  {| r_type := "breathing"; r_title := "Breathing Exercise";
     r_description := "Try this 4-7-8 breathing exercise to help calm your mind.";
     r_url := "https://www.healthline.com/health/4-7-8-breathing";
     r_icon := "breath" |}.
Definition meditation : Resource :=
  {| r_type := "meditation"; r_title := "Guided Meditation";
     r_description := "A short guided meditation to help ease your mind.";
     r_url := "https://www.headspace.com/meditation/meditation-for-beginners";
     r_icon := "meditation" |}.

Definition getSupportResources (s : Sentiment) : list Resource :=
  [crisis; breathing]
  ++ (if String.eqb (sentiment s) "negative" then [meditation] else []).

Record ChatData := {
  response : string;
  c_sentiment : Sentiment;
  resources : list Resource
}.

Definition newline : string := String (ascii_of_nat 10) EmptyString.

Section WithServices.

(** The completion service, as the controller uses it: the text of the
    first choice for a list of messages, and the parsed classification of
    a text (the value is rendered into the prompt, whatever it is).
    [None]: the call, or reading its answer, throws. *)
Variable complete : list JsonValue -> option string.
Variable classify : JsonValue -> option Classified.
(** The host's rendering of a number in a template literal. *)
Variable numberToString : Q -> string.

(** [analyzeSentiment]: the service's answer, or the keyword fallback when
    anything in the [try] throws. The fallback calls [text.toLowerCase()]
    inside the [catch]: on a value that is not a string this throws a
    TypeError, which leaves [analyzeSentiment] ([None]). *)
Definition analyzeSentiment (text : JsonValue) : option Sentiment :=
  match classify text with
  | Some c => Some (fromClassified c)
  | None =>
      match text with
      | JString s => Some (fallback s)
      | _ => None
      end
  end.

(** [Mood.find({ user: userId }).sort({ createdAt: -1 }).limit(5)]. *)
Definition recentMoods (u : AuthUser) (s : gmap ObjectId Mood.doc) : list Mood.doc :=
  firstn 5 (merge_sort Mood.newestFirst (List.filter (MoodStats.ownedBy u) (scan s))).

Definition message_of (role : string) (content : JsonValue) : JsonValue :=
  JObject [("role", JString role); ("content", content)].

Definition systemMessage (req : Request) (s : gmap ObjectId Mood.doc) : JsonValue :=
  message_of "system"
    (JString
       ("You are MindMate, a compassionate AI mental health companion. You are talking to "
        +:+ username req +:+ ". " +:+ newline +:+ "      "
        +:+ match recentMoods (req_user req) s with
            | m :: _ =>
                "Their recent mood has been " +:+ Mood.mood m
                +:+ " with an intensity of " +:+ numberToString (Mood.intensity m)
                +:+ "/10."
            | [] => ""
            end
        +:+ newline
        +:+ "      Be empathetic, supportive, and non-judgmental. Help them process their thoughts and feelings.")).

(** The messages sent for completion: the system message, the
    conversation so far, the new message. *)
Definition messagesFor (req : Request) (text : JsonValue) (history : list JsonValue)
    (s : gmap ObjectId Mood.doc) : list JsonValue :=
  systemMessage req s :: history ++ [message_of "user" text].

Definition chatFailed : Err := ErrorResponse "Error processing your request" 500.

(** [chat]. Whatever throws inside its [try] ends in the 500 reply. *)
Definition chat (req : Request) (s : gmap ObjectId Mood.doc) : Reply ChatData :=
  match message req with
  | None => Next (ErrorResponse "Please provide a message" 400)
  | Some text =>
      if negb (truthy text) then Next (ErrorResponse "Please provide a message" 400)
      else
        match spread (context req) with
        | None => Next chatFailed
        | Some history =>
            match complete (messagesFor req text history s) with
            | None => Next chatFailed
            | Some aiResponse =>
                match analyzeSentiment text with
                | None => Next chatFailed
                | Some sentiment =>
                    let resources :=
                      if negb (Qle_bool (- (1 # 2)) (score sentiment))
                      then getSupportResources sentiment
                      else [] in
                    Json 200 true
                      {| response := aiResponse; c_sentiment := sentiment;
                         resources := resources |}
                end
            end
        end
  end.

(** [analyzeText]. *)
Definition analyzeText (text : option JsonValue) : Reply Sentiment :=
  match text with
  | None => Next (ErrorResponse "Please provide text to analyze" 400)
  | Some t =>
      if negb (truthy t) then Next (ErrorResponse "Please provide text to analyze" 400)
      else match analyzeSentiment t with
           | None => Next (ErrorResponse "Error analyzing text" 500)
           | Some sentiment => Json 200 true sentiment
           end
  end.

End WithServices.

End Chat.

(** ** What the schemas require of a stored document *)

(** The validators of [moodSchema] that bear on a stored document's
    enumerated and numeric paths. *)
Definition moodInSchema (d : Mood.doc) : bool :=
  (Mood.checkMood (Mood.mood d) && Mood.checkIntensity (Mood.intensity d)
   && Mood.checkActivities (Mood.activities d)
   && Mood.checkSleepQuality (Mood.sleepQuality d))%bool.

(** The validators of [journalSchema]. *)
Definition journalInSchema (d : Journal.doc) : bool :=
  (Journal.checkTitle (Journal.title d) && Journal.checkContent (Journal.content d)
   && Journal.checkEmotion (Journal.emotion d)
   && Journal.checkSentimentScore (Journal.sentimentScore d)
   && Journal.checkMood (Journal.mood d)
   && Journal.checkActivities (Journal.activities d)
   && Journal.checkSleepHours (Journal.sleepHours d))%bool.

(** A collection holds each document under its own [_id]. *)
Definition moodsKeyed (s : gmap ObjectId Mood.doc) : Prop :=
  forall k d, s !! k = Some d -> Mood._id d = k.
Definition journalsKeyed (s : gmap ObjectId Journal.doc) : Prop :=
  forall k d, s !! k = Some d -> Journal._id d = k.

(** ** Sequences of renewal events *)

Module RenewalTrace.

(** What happens to the renewal slot, one event at a time: a caller enters
    [refreshToken], or the answer to a renewal request arrives. *)
Inductive Event :=
| Call (caller : nat)
| Settle (promise : nat) (result : SingleFlight.Result).

Definition step (e : Event) (s : SingleFlight.State) : SingleFlight.State :=
  match e with
  | Call c => SingleFlight.call c s
  | Settle p r => SingleFlight.resolve p r s
  end.

Definition run (trace : list Event) (s : SingleFlight.State) : SingleFlight.State :=
  fold_left (fun st e => step e st) trace s.

Definition isCall (e : Event) : bool :=
  match e with
  | Call _ => true
  | Settle _ _ => false
  end.

End RenewalTrace.

(** The slot and the callers agree: with no promise stored nobody waits,
    and with a promise stored somebody waits, everybody who waits awaits
    that promise, and the promise is one that was posted. *)
Definition slotAgrees (s : SingleFlight.State) : Prop :=
  match SingleFlight.refreshTokenRequest s with
  | None => SingleFlight.waiting s = []
  | Some p =>
      SingleFlight.waiting s <> []
      /\ p < SingleFlight.posts s
      /\ Forall (fun w => w.2 = p) (SingleFlight.waiting s)
  end.

(** The number of renewals in flight: one when a promise is stored. *)
Definition inFlight (s : SingleFlight.State) : nat :=
  match SingleFlight.refreshTokenRequest s with
  | Some _ => 1
  | None => 0
  end.

Definition countCalls (trace : list RenewalTrace.Event) : nat :=
  length (List.filter RenewalTrace.isCall trace).
Definition countSettles (trace : list RenewalTrace.Event) : nat :=
  length (List.filter (fun e => negb (RenewalTrace.isCall e)) trace).

(** ** More sample data *)

Module Cases.

(** A server that answers 401 to everything, the renewal included. *)
Definition lockedServer (n : nat) (c : AuthService.Config) : AuthService.Wire :=
  AuthService.Answer 401 "".

(** A server that answers 401 to everything but the second request it
    receives, the renewal, on which it fails. *)
Definition brokenServer (n : nat) (c : AuthService.Config) : AuthService.Wire :=
  match n with
  | 1 => AuthService.Answer 500 ""
  | _ => AuthService.Answer 401 ""
  end.

Definition bothInterceptors : list AuthService.Interceptor :=
  [AuthService.ModuleLevel; AuthService.Setup].

(** The completion service answers the chat and fails on the sentiment
    prompt, so that the keyword fallback is used. *)
Definition canned (messages : list JsonValue) : option string :=
  Some "I hear you.".
Definition offline (text : JsonValue) : option Chat.Classified := None.

Definition badDay : Chat.Request :=
  {| Chat.req_user := Sample.bob; Chat.username := "bob";
     Chat.message := Some (JString "sad, anxious, the worst");
     Chat.context := None |}.

(** A message that is a JSON array, which is truthy and no string. *)
Definition listMessage : Chat.Request :=
  {| Chat.req_user := Sample.bob; Chat.username := "bob";
     Chat.message := Some (JArray [JString "sad"]);
     Chat.context := Some (JArray []) |}.

(** One journal entry, and one mood entry, of Bob on each of the 31 days
    up to [Sample.now], at the same time of day. *)
Definition dailyJournal (n : nat) : Journal.doc :=
  {| Journal._id := "d" +:+ pretty n; Journal.user := "bob";
     Journal.title := None; Journal.content := "another day";
     Journal.emotion := "neutral"; Journal.sentimentScore := Some 0%Q;
     Journal.tags := []; Journal.isPrivate := true; Journal.mood := 3;
     Journal.activities := []; Journal.location := None;
     Journal.weather := None; Journal.sleepHours := None;
     Journal.aiInsights := None;
     Journal.createdAt := Sample.now - Z.of_nat n * msPerDay;
     Journal.updatedAt := Sample.now - Z.of_nat n * msPerDay |}.

Definition dailyJournals : gmap ObjectId Journal.doc :=
  list_to_map (map (fun n => ("d" +:+ pretty n, dailyJournal n)) (seq 0 31)).

Definition dailyMood (n : nat) : Mood.doc :=
  {| Mood._id := "d" +:+ pretty n; Mood.user := "bob"; Mood.mood := "calm";
     Mood.intensity := 5; Mood.note := Some "another day";
     Mood.activities := []; Mood.sleepQuality := None;
     Mood.weather := None; Mood.location := None;
     Mood.tags := ["daily"]; Mood.isShared := false;
     Mood.aiInsights := None;
     Mood.createdAt := Sample.now - Z.of_nat n * msPerDay;
     Mood.updatedAt := Sample.now - Z.of_nat n * msPerDay |}.

Definition dailyMoods : gmap ObjectId Mood.doc :=
  list_to_map (map (fun n => ("d" +:+ pretty n, dailyMood n)) (seq 0 31)).

(** 8 November 2023, 22:00 UTC: 17:00 in New York, three days after the
    clocks went back there. *)
Definition afterTheChange : Z := 1699480800000.

(** Bob's one mood, logged [age] ms before that hour. *)
Definition agedMood (age : Z) : gmap ObjectId Mood.doc :=
  {[ "m1" := {| Mood._id := "m1"; Mood.user := "bob"; Mood.mood := "calm";
                Mood.intensity := 5; Mood.note := Some "a week ago";
                Mood.activities := []; Mood.sleepQuality := None;
                Mood.weather := None; Mood.location := None;
                Mood.tags := []; Mood.isShared := false;
                Mood.aiInsights := None;
                Mood.createdAt := afterTheChange - age;
                Mood.updatedAt := afterTheChange - age |} ]}.

(** A database that refuses every update document with operators. *)
Definition noOperators (now : Z) (p : Mood.Payload) (d : Mood.doc)
    : Err + Mood.doc :=
  inl (DatabaseError "unknown modifier").
Definition noJournalOperators (now : Z) (p : Journal.Payload) (d : Journal.doc)
    : Err + Journal.doc :=
  inl (DatabaseError "unknown modifier").

(** A database that knows one operator: [$inc] on the intensity of a
    mood entry, applied as MongoDB applies it, with no validator run. *)
Definition setIntensity (i : Q) (d : Mood.doc) : Mood.doc :=
  {| Mood._id := Mood._id d; Mood.user := Mood.user d; Mood.mood := Mood.mood d;
     Mood.intensity := i; Mood.note := Mood.note d;
     Mood.activities := Mood.activities d; Mood.sleepQuality := Mood.sleepQuality d;
     Mood.weather := Mood.weather d; Mood.location := Mood.location d;
     Mood.tags := Mood.tags d; Mood.isShared := Mood.isShared d;
     Mood.aiInsights := Mood.aiInsights d; Mood.createdAt := Mood.createdAt d;
     Mood.updatedAt := Mood.updatedAt d |}.

Definition incrementing (now : Z) (p : Mood.Payload) (d : Mood.doc)
    : Err + Mood.doc :=
  match p with
  | Mood.Object b [("$inc", JObject [("intensity", JNumber q)])] =>
      match Mood.validateUpdate b with
      | Some path => inl (ValidationError path)
      | None =>
          let d' := Mood.applyUpdate now b d in
          inr (setIntensity (Qred (Mood.intensity d' + q)) d')
      end
  | _ => inl (DatabaseError "unknown modifier")
  end.

(** Bob's update of his entry [m1]: [{ "$inc": { "intensity": 100 } }]. *)
Definition raiseIntensity : Mood.Request :=
  {| Mood.req_user := Sample.bob; Mood.params_id := "m1";
     Mood.req_body :=
       Mood.Object Mood.emptyBody
         [("$inc", JObject [("intensity", JNumber 100)])] |}.

(** A mood entry that its body dates a day back. *)
Definition backdatedMood : Mood.body :=
  {| Mood.b_user := None; Mood.b_mood := Some "calm";
     Mood.b_intensity := Some 3%Q; Mood.b_note := None;
     Mood.b_activities := None; Mood.b_sleepQuality := None;
     Mood.b_weather := None; Mood.b_location := None; Mood.b_tags := None;
     Mood.b_isShared := None; Mood.b_aiInsights := None;
     Mood.b_createdAt := Some (Sample.now - msPerDay)%Z;
     Mood.b_updatedAt := Some 0%Z |}.

(** A calm mood of Alice with the given note and tags. *)
Definition notedMood (note : option string) (tags : option (list string)) : Mood.body :=
  {| Mood.b_user := Some "alice"; Mood.b_mood := Some "calm";
     Mood.b_intensity := Some 3%Q; Mood.b_note := note;
     Mood.b_activities := None; Mood.b_sleepQuality := None;
     Mood.b_weather := None; Mood.b_location := None; Mood.b_tags := tags;
     Mood.b_isShared := None; Mood.b_aiInsights := None;
     Mood.b_createdAt := None; Mood.b_updatedAt := None |}.

(** A no-break space, a space and a byte order mark; and a note between
    a no-break space and an em space. *)
Definition blankNote : string := bytes [194; 160; 32; 239; 187; 191].
Definition paddedNote : string :=
  bytes [194; 160] +:+ " morning run " +:+ bytes [226; 128; 131].

(** A journal entry whose body names Mallory as the owner. *)
Definition forgedJournal : Journal.body := Journal.setUser "mallory" Sample.happyDay.

(** Two callers share the first renewal; a third comes after it has
    settled and starts the second. *)
Definition twoRenewals : list RenewalTrace.Event :=
  [RenewalTrace.Call 1; RenewalTrace.Call 2;
   RenewalTrace.Settle 0 (SingleFlight.Succeeded "t"); RenewalTrace.Call 3].

End Cases.

(** * Properties *)

(** ** Ownership at creation *)

Lemma mood_create_inv nts tz oid now b s d s' :
  Mood.create nts tz oid now b s = inr (d, s') ->
  Mood.b_user b = Some (Mood.user d) /\ s !! oid = None /\ s' = <[oid := d]> s.
Proof.
  unfold Mood.create. intros H.
  repeat case_match; simplify_eq; auto.
Qed.

Lemma journal_create_inv oid now b s d s' :
  Journal.create oid now b s = inr (d, s') ->
  Journal.b_user b = Some (Journal.user d) /\ s !! oid = None /\ s' = <[oid := d]> s.
Proof.
  unfold Journal.create, Journal.preSave. intros H.
  repeat case_match; simplify_eq; auto.
Qed.

(** A create request whose body is a JSON object. Whatever the object
    says about the owner, [createMood] and [createJournal] either store
    nothing and pass an error on, or reply 201 with one entry, stored
    under its id, whose owner is the authenticated caller. *)
Theorem object_body_belongs_to_caller :
  forall nts tz newId now (mreq : Mood.Request) (ms : gmap ObjectId Mood.doc)
         (jreq : Journal.Request) (js : gmap ObjectId Journal.doc),
    ((exists b operators, Mood.req_body mreq = Mood.Object b operators) ->
     match Mood.createMood nts tz newId now mreq ms with
     | (Json st ok data, ms') =>
         st = 201 /\ ok = true
         /\ exists d, data = Mood.One d
                      /\ Mood.user d = id (Mood.req_user mreq)
                      /\ ms' !! newId 0 = Some d
     | (Next _, ms') => ms' = ms
     end)
    /\
    ((exists b operators, Journal.req_body jreq = Journal.Object b operators) ->
     match Journal.createJournal newId now jreq js with
     | (Json st ok data, js') =>
         st = 201 /\ ok = true
         /\ exists d, data = Journal.One d
                      /\ Journal.user d = id (Journal.req_user jreq)
                      /\ js' !! newId 0 = Some d
     | (Next _, js') => js' = js
     end).
Proof.
  intros. split.
  - intros (b & operators & Hb). unfold Mood.createMood. rewrite Hb. simpl.
    destruct (Mood.create _ _ _ _ _ _) as [e | [d s']] eqn:E; [reflexivity |].
    apply mood_create_inv in E as (Hu & _ & ->). simpl in Hu.
    split; [reflexivity |]. split; [reflexivity |]. exists d.
    split; [reflexivity |]. split; [congruence | apply lookup_insert_eq].
  - intros (b & operators & Hb). unfold Journal.createJournal. rewrite Hb. simpl.
    destruct (Journal.create _ _ _ _) as [e | [d s']] eqn:E; [reflexivity |].
    apply journal_create_inv in E as (Hu & _ & ->). simpl in Hu.
    split; [reflexivity |]. split; [reflexivity |]. exists d.
    split; [reflexivity |]. split; [congruence | apply lookup_insert_eq].
Qed.

(** Alice sends a mood, and Bob a journal entry, in an object that names
    Mallory as the owner; the stored entries are Alice's and Bob's. *)
Lemma object_body_belongs_to_caller_witness :
  (exists d ms',
      Mood.createMood Sample.showInteger Sample.utc (Sample.ids "m9") Sample.now
        (Sample.moodRequest Sample.alice "" Sample.forgedMood) Sample.moods
      = (Json 201 true (Mood.One d), ms')
      /\ Mood.b_user Sample.forgedMood = Some "mallory"
      /\ Mood.user d = "alice"
      /\ ms' !! "m9" = Some d)
  /\ (exists d js',
        Journal.createJournal (Sample.ids "j9") Sample.now
          (Sample.journalRequest Sample.bob "" Cases.forgedJournal) Sample.journals
        = (Json 201 true (Journal.One d), js')
        /\ Journal.b_user Cases.forgedJournal = Some "mallory"
        /\ Journal.user d = "bob"
        /\ js' !! "j9" = Some d).
Proof.
  destruct (object_body_belongs_to_caller Sample.showInteger Sample.utc
              (Sample.ids "m9") Sample.now
              (Sample.moodRequest Sample.alice "" Sample.forgedMood) Sample.moods
              (Sample.journalRequest Sample.bob "" Cases.forgedJournal) ∅)
    as [Hm _].
  destruct (object_body_belongs_to_caller Sample.showInteger Sample.utc
              (Sample.ids "j9") Sample.now
              (Sample.moodRequest Sample.alice "" Sample.forgedMood) Sample.moods
              (Sample.journalRequest Sample.bob "" Cases.forgedJournal) Sample.journals)
    as [_ Hj].
  specialize (Hm ltac:(do 2 eexists; reflexivity)).
  specialize (Hj ltac:(do 2 eexists; reflexivity)).
  split.
  - destruct (Mood.createMood _ _ _ _ _ _) as [[st ok data | e] ms'] eqn:E;
      [| vm_compute in E; discriminate].
    destruct Hm as (-> & -> & d & -> & Hu & Hl).
    exists d, ms'. split; [reflexivity |]. split; [reflexivity |].
    split; [exact Hu | exact Hl].
  - destruct (Journal.createJournal _ _ _ _) as [[st ok data | e] js'] eqn:E;
      [| vm_compute in E; discriminate].
    destruct Hj as (-> & -> & d & -> & Hu & Hl).
    exists d, js'. split; [reflexivity |]. split; [reflexivity |].
    split; [exact Hu | exact Hl].
Defined.

(** C1 at its failing input. Alice posts a JSON array whose one item
    names Mallory as the owner. [req.body.user = req.user.id] sets a
    property of the array, not of its item, and [Model.create] saves the
    item as it came: the reply is 201 and the stored entry is Mallory's,
    not Alice's. So it is for a mood and for a journal entry; the same
    item sent as an object is stored as Alice's. *)
Theorem C1_array_body_keeps_client_owner :
  (exists d ms',
      Mood.createMood Sample.showInteger Sample.utc (Sample.ids "m9") Sample.now
        (Sample.moodsRequest Sample.alice [Sample.forgedMood]) Sample.moods
      = (Json 201 true (Mood.Many [d]), ms')
      /\ ms' !! "m9" = Some d
      /\ Mood.user d = "mallory"
      /\ Mood.user d <> id Sample.alice)
  /\ (exists d js',
        Journal.createJournal (Sample.ids "j9") Sample.now
          (Sample.journalsRequest Sample.alice [Cases.forgedJournal]) Sample.journals
        = (Json 201 true (Journal.Many [d]), js')
        /\ js' !! "j9" = Some d
        /\ Journal.user d = "mallory"
        /\ Journal.user d <> id Sample.alice)
  /\ (exists d ms',
        Mood.createMood Sample.showInteger Sample.utc (Sample.ids "m9") Sample.now
          (Sample.moodRequest Sample.alice "" Sample.forgedMood) Sample.moods
        = (Json 201 true (Mood.One d), ms')
        /\ Mood.user d = id Sample.alice).
Proof.
  split; [| split].
  - do 2 eexists. split; [vm_compute; reflexivity |].
    split; [vm_compute; reflexivity |]. split; [reflexivity | discriminate].
  - do 2 eexists. split; [vm_compute; reflexivity |].
    split; [vm_compute; reflexivity |]. split; [reflexivity | discriminate].
  - do 2 eexists. split; [vm_compute; reflexivity |]. reflexivity.
Qed.

(** ** The ownership guard *)

Lemma notOwnerNorAdmin_true owner u :
  id u <> owner -> role u <> "admin" -> notOwnerNorAdmin owner u = true.
Proof.
  intros Ho Ha. unfold notOwnerNorAdmin, isAdmin.
  apply andb_true_intro. split; apply negb_true_iff, String.eqb_neq; congruence.
Qed.

Lemma notOwnerNorAdmin_false owner u :
  id u = owner \/ role u = "admin" -> notOwnerNorAdmin owner u = false.
Proof.
  intros [Ho | Ha]; unfold notOwnerNorAdmin, isAdmin.
  - subst owner. rewrite String.eqb_refl. reflexivity.
  - rewrite Ha. simpl. apply andb_false_r.
Qed.

(** C2, as the code has it. On an existing Mood or Journal entry, get,
    update and delete by a caller who is neither the owner nor an admin
    end in the not-authorized ErrorResponse with status code 401 and leave
    the collection as it was; for the owner and for an admin the guard
    lets the operation through. *)
Theorem C2_guard_denies_with_401 :
  forall (mdb : Z -> Mood.Payload -> Mood.doc -> Err + Mood.doc)
         (jdb : Z -> Journal.Payload -> Journal.doc -> Err + Journal.doc)
         (u : AuthUser) (t : Z)
         (mreq : Mood.Request) (ms : gmap ObjectId Mood.doc) (m : Mood.doc)
         (jreq : Journal.Request) (js : gmap ObjectId Journal.doc) (j : Journal.doc),
    Mood.req_user mreq = u -> ms !! Mood.params_id mreq = Some m ->
    Journal.req_user jreq = u -> js !! Journal.params_id jreq = Some j ->
    (id u <> Mood.user m -> role u <> "admin" ->
       Mood.getMood mreq ms = Next (Mood.notAuthorized u "access")
       /\ Mood.updateMood mdb t mreq ms = (Next (Mood.notAuthorized u "update"), ms)
       /\ Mood.deleteMood mreq ms = (Next (Mood.notAuthorized u "delete"), ms)
       /\ forall verb, statusCodeOf (Mood.notAuthorized u verb) = Some 401)
    /\ (id u = Mood.user m \/ role u = "admin" ->
       Mood.getMood mreq ms = Json 200 true m
       /\ Mood.updateMood mdb t mreq ms =
            match Mood.findByIdAndUpdate mdb t (Mood.params_id mreq) (Mood.req_body mreq) ms with
            | inl e => (Next e, ms)
            | inr (r, ms') => (Json 200 true r, ms')
            end
       /\ Mood.deleteMood mreq ms = (Json 200 true tt, delete (Mood._id m) ms))
    /\ (id u <> Journal.user j -> role u <> "admin" ->
       Journal.getJournal jreq js = Next (Journal.notAuthorized u "access")
       /\ Journal.updateJournal jdb t jreq js = (Next (Journal.notAuthorized u "update"), js)
       /\ Journal.deleteJournal jreq js = (Next (Journal.notAuthorized u "delete"), js)
       /\ forall verb, statusCodeOf (Journal.notAuthorized u verb) = Some 401)
    /\ (id u = Journal.user j \/ role u = "admin" ->
       Journal.getJournal jreq js = Json 200 true j
       /\ Journal.updateJournal jdb t jreq js =
            match Journal.findByIdAndUpdate jdb t (Journal.params_id jreq)
                    (Journal.req_body jreq) js with
            | inl e => (Next e, js)
            | inr (r, js') => (Json 200 true r, js')
            end
       /\ Journal.deleteJournal jreq js = (Json 200 true tt, delete (Journal._id j) js)).
Proof.
  intros mdb jdb u t mreq ms m jreq js j Hmu Hm Hju Hj.
  unfold Mood.getMood, Mood.updateMood, Mood.deleteMood,
    Journal.getJournal, Journal.updateJournal, Journal.deleteJournal.
  rewrite Hm, Hj, Hmu, Hju.
  repeat split.
  all: try (rewrite notOwnerNorAdmin_true by assumption; reflexivity).
  all: try (rewrite notOwnerNorAdmin_false by assumption; reflexivity).
Qed.

(** The guard at work on the sample data: Alice, an ordinary user, is
    refused Bob's entries with status 401; the admin reads them. *)
Lemma C2_guard_denies_with_401_witness :
  Mood.getMood (Sample.moodRequest Sample.alice "m1" Mood.emptyBody) Sample.moods
    = Next (ErrorResponse "User alice is not authorized to access this mood entry" 401)
  /\ Journal.deleteJournal
       (Sample.journalRequest Sample.alice "j1" Journal.emptyBody) Sample.journals
     = (Next (ErrorResponse "User alice is not authorized to delete this journal" 401),
        Sample.journals)
  /\ Mood.getMood (Sample.moodRequest Sample.root "m1" Mood.emptyBody) Sample.moods
     = Json 200 true Sample.bobsMood.
Proof.
  destruct (C2_guard_denies_with_401 Cases.noOperators Cases.noJournalOperators Sample.alice Sample.now
              (Sample.moodRequest Sample.alice "m1" Mood.emptyBody)
              Sample.moods Sample.bobsMood
              (Sample.journalRequest Sample.alice "j1" Journal.emptyBody)
              Sample.journals Sample.bobsJournal
              eq_refl eq_refl eq_refl eq_refl)
    as (Hm & _ & Hj & _).
  destruct (C2_guard_denies_with_401 Cases.noOperators Cases.noJournalOperators Sample.root Sample.now
              (Sample.moodRequest Sample.root "m1" Mood.emptyBody)
              Sample.moods Sample.bobsMood
              (Sample.journalRequest Sample.root "j1" Journal.emptyBody)
              Sample.journals Sample.bobsJournal
              eq_refl eq_refl eq_refl eq_refl)
    as (_ & Hadmin & _).
  split; [| split].
  - apply Hm; simpl; discriminate.
  - apply Hj; simpl; discriminate.
  - apply Hadmin. right. reflexivity.
Defined.

(** C2 as stated fails on the status code: the denial carries 401, and
    403 is never sent. *)
Lemma C2_denial_is_not_403 :
  id Sample.alice <> Mood.user Sample.bobsMood
  /\ role Sample.alice <> "admin"
  /\ Sample.moods !! "m1" = Some Sample.bobsMood
  /\ exists e,
       Mood.getMood (Sample.moodRequest Sample.alice "m1" Mood.emptyBody) Sample.moods
         = Next e
       /\ statusCodeOf e = Some 401
       /\ statusCodeOf e <> Some 403.
Proof.
  split; [simpl; discriminate |].
  split; [simpl; discriminate |].
  split; [reflexivity |].
  eexists. split; [vm_compute; reflexivity |].
  split; [reflexivity | simpl; discriminate].
Qed.

(** ** The owner under updates *)

(** An update that does not carry the [user] path keeps the owner. *)
Lemma mood_update_keeps_owner_without_user_path t b d :
  Mood.b_user b = None -> Mood.user (Mood.applyUpdate t b d) = Mood.user d.
Proof. intros H. unfold Mood.applyUpdate. simpl. rewrite H. reflexivity. Qed.

Lemma journal_update_keeps_owner_without_user_path t b d :
  Journal.b_user b = None -> Journal.user (Journal.applyUpdate t b d) = Journal.user d.
Proof. intros H. unfold Journal.applyUpdate. simpl. rewrite H. reflexivity. Qed.

(** C3 at its failing input. Bob, the owner, sends an update whose body
    carries [user: "alice"]: [updateMood] and [updateJournal] pass the body
    to [findByIdAndUpdate] as it is, and the stored entry changes owner.
    The body is a plain object, so nothing here depends on what the
    database does with update operators. *)
Theorem C3_update_body_reassigns_owner :
  forall (mdb : Z -> Mood.Payload -> Mood.doc -> Err + Mood.doc)
         (jdb : Z -> Journal.Payload -> Journal.doc -> Err + Journal.doc),
  (exists d',
      Mood.updateMood mdb Sample.now
        (Sample.moodRequest Sample.bob "m1" (Mood.setUser "alice" Mood.emptyBody))
        Sample.moods
      = (Json 200 true (Some d'), <["m1" := d']> Sample.moods)
      /\ Mood.user Sample.bobsMood = "bob" /\ Mood.user d' = "alice")
  /\
  (exists d',
      Journal.updateJournal jdb Sample.now
        (Sample.journalRequest Sample.bob "j1" (Journal.setUser "alice" Journal.emptyBody))
        Sample.journals
      = (Json 200 true (Some d'), <["j1" := d']> Sample.journals)
      /\ Journal.user Sample.bobsJournal = "bob" /\ Journal.user d' = "alice").
Proof.
  intros mdb jdb.
  split; eexists; (split; [reflexivity | split; reflexivity]).
Qed.

(** ** Listing *)

Lemma elem_of_scan {A : Type} (s : gmap ObjectId A) (d : A) :
  d ∈ scan s <-> exists k, s !! k = Some d.
Proof.
  unfold scan. rewrite list_elem_of_fmap. split.
  - intros [[k v] [-> Hin]]. exists k. by apply elem_of_map_to_list in Hin.
  - intros [k Hk]. exists (k, d). split; [done |]. by apply elem_of_map_to_list.
Qed.

Lemma elem_of_List_filter {A : Type} (f : A -> bool) (l : list A) (x : A) :
  x ∈ List.filter f l <-> x ∈ l /\ f x = true.
Proof. rewrite !list_elem_of_In. apply filter_In. Qed.

Lemma StronglySorted_sublist {A : Type} (R : relation A) (l1 l2 : list A) :
  l1 `sublist_of` l2 -> StronglySorted R l2 -> StronglySorted R l1.
Proof.
  induction 1 as [| x l1 l2 Hsub IH | x l1 l2 Hsub IH]; intros Hs.
  - constructor.
  - apply StronglySorted_inv in Hs as [Hs Hall]. constructor; [auto |].
    rewrite Forall_forall in Hall |- *. intros y Hy. apply Hall.
    eapply sublist_subseteq; eauto.
  - apply StronglySorted_inv in Hs as [Hs _]. auto.
Qed.

Section Listing.

Context {doc : Type}.
Variable owner : doc -> ObjectId.
Variable created : doc -> Z.
Variable field : string -> doc -> option AdvancedResults.Value.

#[local] Instance newestFirst_trans : Transitive (AdvancedResults.newestFirst created).
Proof. intros x y z. unfold AdvancedResults.newestFirst. lia. Qed.
#[local] Instance newestFirst_total : Total (AdvancedResults.newestFirst created).
Proof. intros x y. unfold AdvancedResults.newestFirst. lia. Qed.

Lemma elem_of_matching (ownerId : ObjectId) f (s : gmap ObjectId doc) (d : doc) :
  d ∈ AdvancedResults.matching owner created field ownerId f s
  <-> (exists k, s !! k = Some d) /\ owner d = ownerId
      /\ AdvancedResults.matchesFilter field f d = true.
Proof.
  unfold AdvancedResults.matching.
  rewrite merge_sort_Permutation, elem_of_List_filter, elem_of_scan.
  unfold AdvancedResults.selected. rewrite andb_true_iff, String.eqb_eq. tauto.
Qed.

Lemma matching_sorted (ownerId : ObjectId) f (s : gmap ObjectId doc) :
  StronglySorted (AdvancedResults.newestFirst created)
    (AdvancedResults.matching owner created field ownerId f s).
Proof. unfold AdvancedResults.matching. apply StronglySorted_merge_sort; apply _. Qed.

Lemma advancedResults_page (u : AuthUser) (q : AdvancedResults.Query)
    (s : gmap ObjectId doc) :
  let res := AdvancedResults.advancedResults owner created field u q s in
  let all := AdvancedResults.matching owner created field (id u)
               (AdvancedResults.q_filter q) s in
  (forall d, d ∈ AdvancedResults.data res ->
             owner d = id u
             /\ (exists k, s !! k = Some d)
             /\ AdvancedResults.matchesFilter field (AdvancedResults.q_filter q) d = true)
  /\ StronglySorted (fun d1 d2 => (created d2 <= created d1)%Z) (AdvancedResults.data res)
  /\ length (AdvancedResults.data res) <= AdvancedResults.q_limit q
  /\ AdvancedResults.count res = length (AdvancedResults.data res)
  /\ (forall i, i < AdvancedResults.q_limit q ->
        AdvancedResults.data res !! i
        = all !! ((AdvancedResults.q_page q - 1) * AdvancedResults.q_limit q + i)).
Proof.
  intros res all. subst res all. unfold AdvancedResults.advancedResults. simpl.
  set (all := AdvancedResults.matching _ _ _ _ _ _).
  set (start := (AdvancedResults.q_page q - 1) * AdvancedResults.q_limit q).
  assert (Hsub : take (AdvancedResults.q_limit q) (drop start all) `sublist_of` all).
  { etrans; [apply sublist_take | apply sublist_drop]. }
  split; [| split; [| split; [| split]]].
  - intros d Hd. apply (sublist_subseteq _ _ Hsub) in Hd.
    apply elem_of_matching in Hd. tauto.
  - eapply StronglySorted_sublist; [exact Hsub | apply matching_sorted].
  - rewrite length_take. lia.
  - reflexivity.
  - intros i Hi. rewrite lookup_take_lt by exact Hi. apply lookup_drop.
Qed.

End Listing.

(** C4. The listing behind GET /mood and GET /journal holds only entries
    of the collection that belong to the authenticated user and pass the
    field-equality filter, newest first, at most [limit] of them: the page
    [page] of all that user's matching entries. *)
Theorem C4_list_is_scoped_to_caller :
  forall (u : AuthUser) (q : AdvancedResults.Query)
         (ms : gmap ObjectId Mood.doc) (js : gmap ObjectId Journal.doc),
    let start := (AdvancedResults.q_page q - 1) * AdvancedResults.q_limit q in
    let mres := (getMoods u q ms).2 in
    let jres := (getJournals u q js).2 in
    ((getMoods u q ms).1 = 200
     /\ (forall d, d ∈ AdvancedResults.data mres ->
           Mood.user d = id u
           /\ (exists k, ms !! k = Some d)
           /\ AdvancedResults.matchesFilter moodField (AdvancedResults.q_filter q) d = true)
     /\ StronglySorted (fun d1 d2 => (Mood.createdAt d2 <= Mood.createdAt d1)%Z)
          (AdvancedResults.data mres)
     /\ length (AdvancedResults.data mres) <= AdvancedResults.q_limit q
     /\ (forall i, i < AdvancedResults.q_limit q ->
           AdvancedResults.data mres !! i
           = AdvancedResults.matching Mood.user Mood.createdAt moodField (id u)
               (AdvancedResults.q_filter q) ms !! (start + i)))
    /\
    ((getJournals u q js).1 = 200
     /\ (forall d, d ∈ AdvancedResults.data jres ->
           Journal.user d = id u
           /\ (exists k, js !! k = Some d)
           /\ AdvancedResults.matchesFilter journalField (AdvancedResults.q_filter q) d = true)
     /\ StronglySorted (fun d1 d2 => (Journal.createdAt d2 <= Journal.createdAt d1)%Z)
          (AdvancedResults.data jres)
     /\ length (AdvancedResults.data jres) <= AdvancedResults.q_limit q
     /\ (forall i, i < AdvancedResults.q_limit q ->
           AdvancedResults.data jres !! i
           = AdvancedResults.matching Journal.user Journal.createdAt journalField (id u)
               (AdvancedResults.q_filter q) js !! (start + i))).
Proof.
  intros u q ms js start mres jres.
  destruct (advancedResults_page Mood.user Mood.createdAt moodField u q ms)
    as (M1 & M2 & M3 & _ & M5).
  destruct (advancedResults_page Journal.user Journal.createdAt journalField u q js)
    as (J1 & J2 & J3 & _ & J5).
  split; (split; [reflexivity |]); auto.
Qed.

(** Bob lists the moods of a collection that also holds one of Alice's:
    his two, the later one first. *)
Lemma C4_list_is_scoped_to_caller_witness :
  AdvancedResults.data (getMoods Sample.bob Sample.firstPage Sample.threeMoods).2
  = [Sample.bobsLaterMood; Sample.bobsMood]
  /\ (forall d,
        d ∈ AdvancedResults.data
              (getMoods Sample.bob Sample.firstPage Sample.threeMoods).2 ->
        Mood.user d = "bob").
Proof.
  split; [vm_compute; reflexivity |].
  intros d Hd.
  destruct (C4_list_is_scoped_to_caller Sample.bob Sample.firstPage
              Sample.threeMoods Sample.journals) as ((_ & Hscoped & _) & _).
  destruct (Hscoped d Hd) as (Hu & _). exact Hu.
Defined.

(** ** Single-flight renewal *)






(** ** One renewal and one retry *)

Section RetryOnce.

Import AuthService.

Lemma prepare_url w c : url (prepare w c) = url c.
Proof.
  unfold prepare. destruct (authorization c), (localToken w) as [t |];
    try destruct (String.eqb t ""); reflexivity.
Qed.

Lemma prepare_retry w c : _retry (prepare w c) = _retry c.
Proof.
  unfold prepare. destruct (authorization c), (localToken w) as [t |];
    try destruct (String.eqb t ""); reflexivity.
Qed.

(** What axios hands the chain is a response or an error with the config
    that was sent. *)
Lemma settle_cases wire c :
  (exists resp, settle wire c = Fulfilled resp)
  \/ (exists st, settle wire c = Rejected (AxiosError st c)).
Proof.
  unfold settle. destruct wire as [code t |]; [| right; eauto].
  destruct (_ && _)%bool; [left | right]; eauto.
Qed.

Variable api_rec : Config -> World -> option (Settled Response * World).

Lemma onRejected_inert i e w :
  inert e = true ->
  exists e', onRejected api_rec i e w = Some (Rejected e', w)
             /\ inert e' = true /\ (e' = e \/ configOf e = None).
Proof.
  intros He. unfold inert in He.
  destruct i; simpl; unfold moduleInterceptor, setupInterceptor;
    destruct (is401 e) eqn:E401; simpl in *.
  all: try (exists e; split; [reflexivity |]; split; [| left; reflexivity];
            unfold inert; rewrite E401; reflexivity).
  all: destruct (configOf e) as [c |] eqn:Ec.
  all: try (rewrite He; exists e; split; [reflexivity |];
            split; [| left; reflexivity];
            unfold inert; rewrite E401, Ec; exact He).
  all: exists JsTypeError; split; [reflexivity |]; split; [reflexivity | right; reflexivity].
Qed.

Lemma runChain_inert handlers e w :
  inert e = true ->
  exists e', runChain api_rec handlers (Rejected e) w = Some (Rejected e', w)
             /\ inert e' = true /\ (e' = e \/ configOf e = None).
Proof.
  revert e. induction handlers as [| i rest IH]; intros e He.
  - exists e. simpl. auto.
  - simpl. destruct (onRejected_inert i e w He) as (e1 & -> & He1 & Hor).
    destruct (IH e1 He1) as (e2 & -> & He2 & Hor2).
    exists e2. split; [reflexivity |]. split; [exact He2 |].
    destruct Hor as [-> | Hn]; [exact Hor2 | right; exact Hn].
Qed.

Lemma runChain_fulfilled handlers resp w :
  runChain api_rec handlers (Fulfilled resp) w = Some (Fulfilled resp, w).
Proof. induction handlers; simpl; auto. Qed.

Lemma runChain_pending handlers w :
  runChain api_rec handlers Pending w = Some (Pending, w).
Proof. induction handlers; simpl; auto. Qed.

(** A response, or an error that carries a marked config, leaves the
    chain as it entered. *)
Lemma runChain_settle_marked handlers wire c w :
  _retry c = true ->
  runChain api_rec handlers (settle wire c) w = Some (settle wire c, w).
Proof.
  intros Hc. destruct (settle_cases wire c) as [[resp ->] | [st ->]].
  - apply runChain_fulfilled.
  - destruct (runChain_inert handlers (AxiosError st c) w) as (e' & -> & _ & [-> | Hn]).
    + unfold inert. simpl. rewrite Hc. apply orb_true_r.
    + reflexivity.
    + discriminate.
Qed.


Variable server : nat -> Config -> Wire.
Variable chain : list Interceptor.

Lemma api_step_marked c w :
  _retry c = true ->
  api_step server chain api_rec c w
  = Some (settle (server (length (sent w)) (prepare w c)) (prepare w c),
          pushSent (prepare w c) w).
Proof.
  intros Hc. unfold api_step. apply runChain_settle_marked.
  rewrite prepare_retry. exact Hc.
Qed.

(** While a caller up the stack holds the stored promise, a call of the
    instance makes no further call: an interceptor that would renew waits
    for that promise, for ever. *)
Lemma api_step_while_awaited c w :
  refreshTokenRequest w = Some Pending ->
  exists r,
    api_step server chain api_rec c w = Some (r, pushSent (prepare w c) w)
    /\ (forall resp,
          settle (server (length (sent w)) (prepare w c)) (prepare w c) = Fulfilled resp ->
          r = Fulfilled resp).
Proof.
  intros Hslot. unfold api_step.
  set (c1 := prepare w c). set (wire := server _ _).
  destruct (settle_cases wire c1) as [[resp ->] | [st Hst]].
  - rewrite runChain_fulfilled. eexists. split; [reflexivity |]. congruence.
  - rewrite Hst.
    destruct (inert (AxiosError st c1)) eqn:Hin.
    + destruct (runChain_inert chain (AxiosError st c1) (pushSent c1 w) Hin)
        as (e' & -> & _). eexists. split; [reflexivity |]. discriminate.
    + destruct chain as [| i rest].
      * simpl. eexists. split; [reflexivity |]. discriminate.
      * unfold inert in Hin. apply orb_false_elim in Hin as [H401 Hretry].
        apply negb_false_iff in H401. simpl in Hretry.
        assert (Hi : onRejected api_rec i (AxiosError st c1) (pushSent c1 w)
                     = Some (Pending, pushSent c1 w)).
        { destruct i; simpl; unfold moduleInterceptor, setupInterceptor,
            refreshTokenHandler, refreshToken;
            rewrite H401; simpl; rewrite Hretry, Hslot; reflexivity. }
        simpl runChain. rewrite Hi, runChain_pending.
        eexists. split; [reflexivity |]. discriminate.
Qed.


Lemma handleApiError_no_config e : configOf (handleApiError e) = None.
Proof. destruct e; reflexivity. Qed.

(** [refreshToken] always comes back, having sent the renewal request or
    nothing; what it throws carries no config. *)
Lemma refreshToken_spec w :
  let rc := prepare w refreshConfig in
  exists r w' extra,
    refreshToken (api_step server chain api_rec) w = Some (r, w')
    /\ sent w' = sent w ++ extra
    /\ (extra = [] \/ extra = [rc])
    /\ (forall e, r = Rejected e -> configOf e = None)
    /\ (refreshTokenRequest w = None ->
        extra = [rc]
        /\ forall resp,
             settle (server (length (sent w)) rc) rc = Fulfilled resp ->
             r = Fulfilled (data resp)).
Proof.
  intros rc. unfold refreshToken.
  destruct (refreshTokenRequest w) as [[resp | e |] |] eqn:Hslot.
  - exists (Fulfilled (data resp)), (setRefreshTokenRequest None w), [].
    rewrite app_nil_r. repeat split; auto; discriminate.
  - exists (Rejected (handleApiError e)), (setRefreshTokenRequest None w), [].
    rewrite app_nil_r. repeat split; auto; try discriminate.
    intros e' [= <-]. apply handleApiError_no_config.
  - exists Pending, w, []. rewrite app_nil_r. repeat split; auto; discriminate.
  - destruct (api_step_while_awaited refreshConfig
                (setRefreshTokenRequest (Some Pending) w) eq_refl)
      as (r0 & -> & Hok).
    change (prepare (setRefreshTokenRequest (Some Pending) w) refreshConfig) with rc in *.
    change (sent (setRefreshTokenRequest (Some Pending) w)) with (sent w) in *.
    destruct r0 as [resp | e |].
    + eexists _, _, [rc]. split; [reflexivity |]. simpl.
      repeat split; auto; try discriminate.
      intros resp' Hs. apply Hok in Hs. congruence.
    + eexists _, _, [rc]. split; [reflexivity |]. simpl.
      repeat split; auto.
      * intros e' [= <-]. apply handleApiError_no_config.
      * intros resp' Hs. apply Hok in Hs. discriminate.
    + eexists _, _, [rc]. split; [reflexivity |]. simpl.
      repeat split; auto; try discriminate.
      intros resp' Hs. apply Hok in Hs. discriminate.
Qed.

(** An interceptor on a 401 whose config is not marked yet: it renews at
    most once, and then either gives up without a retry or retries once
    and returns what that retry gives. *)
Lemma onRejected_active i e c1 w :
  is401 e = true -> configOf e = Some c1 -> _retry c1 = false ->
  let rc := prepare w refreshConfig in
  exists r w' extra,
    onRejected (api_step server chain api_rec) i e w = Some (r, w')
    /\ sent w' = sent w ++ extra
    /\ (((extra = [] \/ extra = [rc])
         /\ (r = Pending \/ exists e', r = Rejected e' /\ configOf e' = None))
        \/ (exists pre again,
              extra = pre ++ [again]
              /\ (pre = [] \/ pre = [rc])
              /\ url again = url c1 /\ _retry again = true
              /\ r = settle (server (length (sent w) + length pre) again) again))
    /\ (refreshTokenRequest w = None ->
        forall resp,
          settle (server (length (sent w)) rc) rc = Fulfilled resp ->
          token (data resp) <> "" ->
          exists again, extra = [rc; again]).
Proof.
  intros H401 Hc Hretry rc.
  destruct (refreshToken_spec w) as (r0 & w0 & extra0 & Hr & Hsent & Hshape & Hrej & Hnone).
  fold rc in Hshape, Hnone.
  destruct i; simpl; unfold moduleInterceptor, setupInterceptor, refreshTokenHandler;
    rewrite H401, Hc; simpl; rewrite Hretry, Hr; destruct r0 as [d | e0 |].
  - (* module-level, renewed *)
    rewrite api_step_marked by reflexivity.
    set (again := prepare _ _).
    exists (settle (server (length (sent (setLocalToken (Some (token d)) w0))) again) again),
      (pushSent again (setLocalToken (Some (token d)) w0)), (extra0 ++ [again]).
    split; [reflexivity |]. split; [simpl; rewrite Hsent, app_assoc; reflexivity |].
    split.
    + right. exists extra0, again. split; [reflexivity |]. split; [exact Hshape |].
      split; [subst again; rewrite prepare_url; reflexivity |].
      split; [subst again; rewrite prepare_retry; reflexivity |].
      simpl. rewrite Hsent, length_app. reflexivity.
    + intros Hslot resp Hs _. destruct (Hnone Hslot) as [-> _]. exists again. reflexivity.
  - eexists _, _, extra0. split; [reflexivity |]. split; [exact Hsent |]. split.
    + left. split; [exact Hshape |]. right. eauto.
    + intros Hslot resp Hs _. destruct (Hnone Hslot) as [_ Hf].
      specialize (Hf resp Hs). discriminate.
  - eexists _, _, extra0. split; [reflexivity |]. split; [exact Hsent |]. split.
    + left. split; [exact Hshape |]. left. reflexivity.
    + intros Hslot resp Hs _. destruct (Hnone Hslot) as [_ Hf].
      specialize (Hf resp Hs). discriminate.
  - (* installed by setupResponseInterceptor, renewed *)
    destruct (String.eqb (token d) "") eqn:Htok.
    + eexists _, _, extra0. split; [reflexivity |]. split; [exact Hsent |]. split.
      * left. split; [exact Hshape |]. right. eauto.
      * intros Hslot resp Hs Hne. destruct (Hnone Hslot) as [_ Hf].
        specialize (Hf resp Hs). injection Hf as Hd. subst d.
        apply String.eqb_eq in Htok. contradiction.
    + rewrite api_step_marked by reflexivity.
      set (w1 := setDefaultAuthorization _ w0). set (again := prepare _ _).
      exists (settle (server (length (sent w1)) again) again),
        (pushSent again w1), (extra0 ++ [again]).
      split; [reflexivity |]. split; [simpl; rewrite Hsent, app_assoc; reflexivity |].
      split.
      * right. exists extra0, again. split; [reflexivity |]. split; [exact Hshape |].
        split; [subst again; rewrite prepare_url; reflexivity |].
        split; [subst again; rewrite prepare_retry; reflexivity |].
        simpl. rewrite Hsent, length_app. reflexivity.
      * intros Hslot resp Hs _. destruct (Hnone Hslot) as [-> _]. exists again. reflexivity.
  - eexists _, _, extra0. split; [reflexivity |]. split; [exact Hsent |]. split.
    + left. split; [exact Hshape |]. right. eauto.
    + intros Hslot resp Hs _. destruct (Hnone Hslot) as [_ Hf].
      specialize (Hf resp Hs). discriminate.
  - eexists _, _, extra0. split; [reflexivity |]. split; [exact Hsent |]. split.
    + left. split; [exact Hshape |]. left. reflexivity.
    + intros Hslot resp Hs _. destruct (Hnone Hslot) as [_ Hf].
      specialize (Hf resp Hs). discriminate.
Qed.

End RetryOnce.

(** C6. A call of the instance always comes back, and besides the request
    itself it sends at most one renewal request and at most one retry:
    either nothing more, or only the renewal request (and then the call
    does not succeed), or a retry, marked [_retry], after whose answer
    nothing more is sent: the call ends with that answer, so that a
    second 401 is the rejection the caller gets. When the request was not
    marked, its answer is a 401, no renewal is in flight and the renewal
    succeeds with a token, the retry is made, exactly once. *)
Theorem C6_at_most_one_renewal_and_retry :
  forall (server : nat -> AuthService.Config -> AuthService.Wire)
         (chain : list AuthService.Interceptor) (n : nat)
         (c : AuthService.Config) (w : AuthService.World),
    let first := AuthService.prepare w c in
    let k := length (AuthService.sent w) in
    let rc := AuthService.prepare w AuthService.refreshConfig in
    exists r w' extra,
      AuthService.api server chain (S (S n)) c w = Some (r, w')
      /\ AuthService.sent w' = AuthService.sent w ++ first :: extra
      /\ ((extra = []
           /\ (r = AuthService.settle (server k first) first
               \/ forall resp, r <> AuthService.Fulfilled resp))
          \/ (extra = [rc] /\ forall resp, r <> AuthService.Fulfilled resp)
          \/ (exists pre again,
                extra = pre ++ [again]
                /\ (pre = [] \/ pre = [rc])
                /\ AuthService.url again = AuthService.url c
                /\ AuthService._retry again = true
                /\ r = AuthService.settle (server (S k + length pre) again) again))
      /\ (AuthService._retry c = false -> chain <> [] ->
          AuthService.refreshTokenRequest w = None ->
          AuthService.settle (server k first) first
            = AuthService.Rejected (AuthService.AxiosError (Some 401) first) ->
          forall resp,
            AuthService.settle (server (S k) rc) rc = AuthService.Fulfilled resp ->
            AuthService.token (AuthService.data resp) <> "" ->
            exists again,
              extra = [rc; again]
              /\ AuthService.url again = AuthService.url c
              /\ AuthService._retry again = true
              /\ r = AuthService.settle (server (S (S k)) again) again).
Proof.
  intros server chain n c w first k rc.
  change (AuthService.api server chain (S (S n)) c w)
    with (AuthService.api_step server chain
            (AuthService.api_step server chain (AuthService.api server chain n)) c w).
  set (inner := AuthService.api server chain n).
  unfold AuthService.api_step at 1. fold first. fold k.
  set (w1 := AuthService.pushSent first w).
  assert (Hw1 : AuthService.sent w1 = AuthService.sent w ++ [first]) by reflexivity.
  destruct (settle_cases (server k first) first) as [[resp Hs] | [st Hs]].
  - (* answered in the 2xx range *)
    rewrite Hs, runChain_fulfilled.
    exists (AuthService.Fulfilled resp), w1, []. split; [reflexivity |].
    split; [exact Hw1 |]. split; [left; auto |].
    intros _ _ _ Habs. discriminate.
  - rewrite Hs.
    destruct (AuthService.inert (AuthService.AxiosError st first)) eqn:Hin.
    + (* an error no interceptor acts on *)
      destruct (runChain_inert (AuthService.api_step server chain inner) chain _ w1 Hin)
        as (e' & -> & _ & [-> | Habs]); [| discriminate].
      eexists _, w1, []. split; [reflexivity |]. split; [exact Hw1 |].
      split; [left; auto |].
      intros Hc _ _ Hst. injection Hst as ->.
      unfold AuthService.inert in Hin. simpl in Hin.
      unfold first in Hin. rewrite prepare_retry, Hc in Hin. discriminate.
    + destruct chain as [| i rest].
      * simpl. eexists _, w1, []. split; [reflexivity |]. split; [exact Hw1 |].
        split; [left; auto |]. intros _ Habs. contradiction.
      * unfold AuthService.inert in Hin. apply orb_false_elim in Hin as [H401 Hretry].
        apply negb_false_iff in H401. simpl in Hretry.
        destruct (onRejected_active inner server (i :: rest) i _ first w1
                    H401 eq_refl Hretry)
          as (r1 & w2 & extra & Hi & Hsent & Hshape & Hsucc).
        change (AuthService.prepare w1 AuthService.refreshConfig) with rc in *.
        simpl AuthService.runChain. rewrite Hi.
        rewrite Hw1 in Hsent. rewrite <- app_assoc in Hsent. simpl in Hsent.
        assert (Hk : length (AuthService.sent w1) = S k).
        { rewrite Hw1, length_app. simpl. unfold k. lia. }
        rewrite Hk in *.
        destruct Hshape as [[Hextra [-> | (e' & -> & He')]]
                           | (pre & again & -> & Hpre & Hurl & Hmark & ->)].
        -- rewrite runChain_pending. eexists _, w2, extra.
           split; [reflexivity |]. split; [exact Hsent |]. split.
           ++ destruct Hextra as [-> | ->]; [left | right; left];
                (split; [reflexivity |]); try right; intros resp; discriminate.
           ++ intros _ _ Hslot _ resp Hrs Htok.
              destruct (Hsucc Hslot resp Hrs Htok) as (again & ->).
              destruct Hextra; discriminate.
        -- destruct (runChain_inert (AuthService.api_step server (i :: rest) inner)
                       rest e' w2) as (e2 & He2 & _).
           { unfold AuthService.inert. rewrite He'. apply orb_true_r. }
           rewrite He2. eexists _, w2, extra.
           split; [reflexivity |]. split; [exact Hsent |]. split.
           ++ destruct Hextra as [-> | ->]; [left | right; left];
                (split; [reflexivity |]); try right; intros resp; discriminate.
           ++ intros _ _ Hslot _ resp Hrs Htok.
              destruct (Hsucc Hslot resp Hrs Htok) as (again & ->).
              destruct Hextra; discriminate.
        -- rewrite runChain_settle_marked by exact Hmark.
           eexists _, w2, (pre ++ [again]).
           split; [reflexivity |]. split; [exact Hsent |]. split.
           ++ right; right. exists pre, again. split; [reflexivity |].
              split; [exact Hpre |]. split; [| split; [exact Hmark | reflexivity]].
              rewrite Hurl. apply prepare_url.
           ++ intros _ _ Hslot _ resp Hrs Htok.
              destruct (Hsucc Hslot resp Hrs Htok) as (again' & Heq).
              destruct Hpre as [-> | ->]; [discriminate |].
              injection Heq as <-. exists again.
              split; [reflexivity |]. split; [rewrite Hurl; apply prepare_url |].
              split; [exact Hmark |].
              cbn [length]. replace (S k + 1) with (S (S k)) by lia. reflexivity.
Qed.

(** A renewal that is itself answered 401 does not fail, it hangs: the
    interceptor that handles the renewal's 401 calls [refreshToken], which
    awaits the stored promise, and that promise is the renewal's own. No
    second renewal is sent. *)
Lemma renewal_answered_401_never_settles :
  exists w',
    AuthService.api (fun _ _ => AuthService.Answer 401 "")
      [AuthService.ModuleLevel; AuthService.Setup] 2
      Sample.moodsConfig Sample.staleWorld
    = Some (AuthService.Pending, w')
    /\ AuthService.refreshTokenRequest w' = Some AuthService.Pending
    /\ map AuthService.url (AuthService.sent w') = ["/mood"; "/auth/refresh-token"].
Proof. eexists. split; [vm_compute; reflexivity |]. split; reflexivity. Qed.

(** A stale token: the request and its retry are answered 401, the
    renewal in between succeeds. *)
Lemma C6_at_most_one_renewal_and_retry_witness :
  exists r w' again,
    AuthService.api Sample.expiredServer
      [AuthService.ModuleLevel; AuthService.Setup] 2 Sample.moodsConfig Sample.staleWorld
    = Some (r, w')
    /\ AuthService.sent w'
       = [AuthService.prepare Sample.staleWorld Sample.moodsConfig;
          AuthService.prepare Sample.staleWorld AuthService.refreshConfig; again]
    /\ AuthService._retry again = true
    /\ r = AuthService.Rejected (AuthService.AxiosError (Some 401) again).
Proof.
  destruct (C6_at_most_one_renewal_and_retry Sample.expiredServer
              [AuthService.ModuleLevel; AuthService.Setup] 0 Sample.moodsConfig Sample.staleWorld)
    as (r & w' & extra & Hrun & Hsent & _ & Hretry).
  destruct (Hretry eq_refl ltac:(discriminate) eq_refl eq_refl _ eq_refl
              ltac:(simpl; discriminate))
    as (again & Hextra & _ & Hmark & Hr).
  exists r, w', again. split; [exact Hrun |].
  split; [rewrite Hsent, Hextra; reflexivity |].
  split; [exact Hmark | rewrite Hr; reflexivity].
Defined.

(** ** Timelines *)

Section Grouping.

Context {A : Type} (key : A -> Z).

Lemma groupOf_addToGroup (k k' : Z) (x : A) (gs : list (Z * list A)) :
  groupOf k (addToGroup k' x gs)
  = if Z.eqb k k' then groupOf k gs ++ [x] else groupOf k gs.
Proof.
  induction gs as [| [k0 xs] r IH]; simpl.
  - destruct (Z.eqb_spec k k'); reflexivity.
  - destruct (Z.eqb_spec k' k0) as [-> | Hne]; simpl.
    + destruct (Z.eqb_spec k k0); reflexivity.
    + destruct (Z.eqb_spec k k0) as [-> | Hne'].
      * destruct (Z.eqb_spec k0 k'); [congruence | reflexivity].
      * exact IH.
Qed.

Lemma keys_addToGroup (k : Z) (x : A) (gs : list (Z * list A)) :
  (addToGroup k x gs).*1 = if decide (k ∈ gs.*1) then gs.*1 else gs.*1 ++ [k].
Proof.
  induction gs as [| [k0 xs] r IH].
  - destruct (decide (k ∈ ([] : list (Z * list A)).*1)) as [Hin | _]; [| reflexivity].
    apply elem_of_nil in Hin. contradiction.
  - cbn [addToGroup]. destruct (Z.eqb_spec k k0) as [-> | Hne].
    + destruct (decide (k0 ∈ ((k0, xs) :: r).*1)) as [_ | Hnin]; [reflexivity |].
      exfalso. apply Hnin. apply list_elem_of_here.
    + change (((k0, xs) :: addToGroup k x r).*1) with (k0 :: (addToGroup k x r).*1).
      change (((k0, xs) :: r).*1) with (k0 :: r.*1).
      rewrite IH. destruct (decide (k ∈ r.*1)) as [Hin | Hnin].
      * destruct (decide (k ∈ k0 :: r.*1)) as [_ | Hn]; [reflexivity |].
        exfalso. apply Hn. apply list_elem_of_further. exact Hin.
      * destruct (decide (k ∈ k0 :: r.*1)) as [Hin | _]; [| reflexivity].
        apply elem_of_cons in Hin as [? | ?]; contradiction.
Qed.

Lemma groupOf_nonempty_addToGroup (k : Z) (x : A) (gs : list (Z * list A)) :
  Forall (fun g => g.2 <> []) gs -> Forall (fun g => g.2 <> []) (addToGroup k x gs).
Proof.
  induction gs as [| [k0 xs] r IH]; simpl; intros H.
  - repeat constructor. discriminate.
  - apply Forall_cons in H as [H0 Hr].
    destruct (Z.eqb k k0); constructor; simpl; auto.
    intros Habs. apply app_eq_nil in Habs as [_ ?]. discriminate.
Qed.

Lemma fold_groups (l : list A) (acc : list (Z * list A)) :
  let gs := fold_left (fun gs x => addToGroup (key x) x gs) l acc in
  (forall k, groupOf k gs = groupOf k acc ++ List.filter (onDay key k) l)
  /\ (NoDup acc.*1 -> NoDup gs.*1)
  /\ (forall k, k ∈ gs.*1 <-> k ∈ acc.*1 \/ exists x, x ∈ l /\ key x = k)
  /\ (Forall (fun g => g.2 <> []) acc -> Forall (fun g => g.2 <> []) gs).
Proof.
  revert acc. induction l as [| x l IH]; intros acc; simpl.
  - split; [intros; symmetry; apply app_nil_r |]. split; [auto |]. split; [| auto].
    intros k. split; [auto |]. intros [? | (x & Hx & _)]; [auto |].
    apply elem_of_nil in Hx. contradiction.
  - destruct (IH (addToGroup (key x) x acc)) as (Hg & Hnd & Hk & Hne).
    split; [| split; [| split]].
    + intros k. rewrite Hg, groupOf_addToGroup. unfold onDay at 2.
      rewrite (Z.eqb_sym (key x) k).
      destruct (Z.eqb k (key x)); [rewrite <- app_assoc |]; reflexivity.
    + intros Hacc. apply Hnd. rewrite keys_addToGroup.
      destruct (decide (key x ∈ acc.*1)); [exact Hacc |].
      apply NoDup_app. split; [exact Hacc |]. split; [| apply NoDup_singleton].
      intros y Hy ->%list_elem_of_singleton. contradiction.
    + intros k. rewrite Hk, keys_addToGroup. split.
      * intros [Hin | (y & Hy & Hky)].
        -- destruct (decide (key x ∈ acc.*1)); [left; exact Hin |].
           apply elem_of_app in Hin as [Hin | ->%list_elem_of_singleton];
             [left; exact Hin |].
           right. exists x. split; [apply list_elem_of_here | reflexivity].
        -- right. exists y. split; [apply list_elem_of_further; exact Hy | exact Hky].
      * intros [Hin | (y & Hy & Hky)].
        -- left. destruct (decide (key x ∈ acc.*1)); [exact Hin |].
           apply elem_of_app. left. exact Hin.
        -- apply elem_of_cons in Hy as [-> | Hy].
           ++ left. subst k. destruct (decide (key x ∈ acc.*1)) as [Hin | Hnin];
                [exact Hin |]. apply elem_of_app. right. apply list_elem_of_here.
           ++ right. exists y. auto.
    + intros Hacc. apply Hne, groupOf_nonempty_addToGroup, Hacc.
Qed.

Lemma groupOf_elem_of (k : Z) (xs : list A) (gs : list (Z * list A)) :
  NoDup gs.*1 -> (k, xs) ∈ gs -> groupOf k gs = xs.
Proof.
  induction gs as [| [k0 ys] r IH]; simpl; intros Hnd Hin.
  - apply elem_of_nil in Hin. contradiction.
  - apply NoDup_cons in Hnd as [Hk0 Hnd].
    apply elem_of_cons in Hin as [[= -> ->] | Hin].
    + rewrite Z.eqb_refl. reflexivity.
    + destruct (Z.eqb_spec k k0) as [-> | Hne]; [| auto].
      exfalso. apply Hk0. apply list_elem_of_fmap. exists (k0, xs). auto.
Qed.

(** What [$group] makes of a list: one group per key that occurs, holding
    the documents with that key, in their order. *)
Lemma groupBy_spec (l : list A) :
  NoDup (groupBy key l).*1
  /\ (forall k xs, (k, xs) ∈ groupBy key l ->
        xs = List.filter (onDay key k) l /\ xs <> [])
  /\ (forall x, x ∈ l -> exists xs, (key x, xs) ∈ groupBy key l).
Proof.
  unfold groupBy. destruct (fold_groups l []) as (Hg & Hnd & Hk & Hne).
  simpl in *. specialize (Hnd (NoDup_nil_2)). specialize (Hne (Forall_nil_2 _)).
  split; [exact Hnd |]. split.
  - intros k xs Hin. split.
    + rewrite <- (Hg k). symmetry. apply groupOf_elem_of; assumption.
    + rewrite Forall_forall in Hne. apply (Hne (k, xs) Hin).
  - intros x Hx.
    assert (Hkx : key x ∈ (fold_left (fun gs x => addToGroup (key x) x gs) l []).*1).
    { apply Hk. right. eauto. }
    apply list_elem_of_fmap in Hkx as ([k xs] & Heq & Hin). simpl in Heq. subst k.
    eauto.
Qed.

End Grouping.

#[local] Instance keyLe_trans {B : Type} : Transitive (@keyLe B).
Proof. intros x y z. unfold keyLe. lia. Qed.
#[local] Instance keyLe_total {B : Type} : Total (@keyLe B).
Proof. intros x y. unfold keyLe. lia. Qed.

Lemma StronglySorted_strict {B : Type} (l : list (Z * B)) :
  StronglySorted keyLe l -> NoDup l.*1 ->
  StronglySorted (fun g1 g2 => (g1.1 < g2.1)%Z) l.
Proof.
  induction l as [| g r IH]; intros Hs Hnd; [constructor |].
  apply StronglySorted_inv in Hs as [Hs Hall].
  change ((g :: r).*1) with (g.1 :: r.*1) in Hnd.
  apply NoDup_cons in Hnd as [Hg Hnd].
  constructor; [auto |].
  rewrite Forall_forall in Hall |- *. intros y Hy.
  specialize (Hall y Hy). unfold keyLe in Hall.
  assert (g.1 <> y.1).
  { intros Heq. apply Hg. rewrite Heq. apply list_elem_of_fmap. eauto. }
  lia.
Qed.

Lemma StronglySorted_map {B C : Type} (R : relation C) (f : B -> C) (l : list B) :
  StronglySorted (fun x y => R (f x) (f y)) l -> StronglySorted R (map f l).
Proof.
  induction l as [| x l IH]; intros Hs; simpl; [constructor |].
  apply StronglySorted_inv in Hs as [Hs Hall]. constructor; [auto |].
  apply Forall_fmap. exact Hall.
Qed.

(** [$group] then [$sort]: the days that occur, each once, in ascending
    order, each with its documents. *)
Lemma sorted_groups_spec {A : Type} (key : A -> Z) (l : list A) :
  let sg := sortByKey (groupBy key l) in
  StronglySorted (fun g1 g2 => (g1.1 < g2.1)%Z) sg
  /\ (forall g, g ∈ sg -> g.2 = List.filter (onDay key g.1) l /\ g.2 <> [])
  /\ (forall x, x ∈ l -> exists g, g ∈ sg /\ g.1 = key x).
Proof.
  intros sg. destruct (groupBy_spec key l) as (Hnd & Hin & Hall).
  assert (Hperm : sg ≡ₚ groupBy key l) by apply merge_sort_Permutation.
  split; [| split].
  - apply StronglySorted_strict.
    + apply StronglySorted_merge_sort; apply _.
    + rewrite Hperm. exact Hnd.
  - intros [k xs] Hg. rewrite Hperm in Hg. apply Hin. exact Hg.
  - intros x Hx. destruct (Hall x Hx) as (xs & Hg). exists (key x, xs).
    rewrite Hperm. auto.
Qed.

Lemma filter_filter_andb {A : Type} (f g : A -> bool) (l : list A) :
  List.filter g (List.filter f l) = List.filter (fun x => (f x && g x)%bool) l.
Proof.
  induction l as [| x l IH]; simpl; [reflexivity |].
  destruct (f x); simpl; [destruct (g x) |]; congruence.
Qed.


Lemma filter_nonempty_witness {A : Type} (f : A -> bool) (l : list A) :
  List.filter f l <> [] -> exists x, x ∈ l /\ f x = true.
Proof.
  destruct (List.filter f l) as [| x r] eqn:E; [congruence |]. intros _.
  exists x. apply elem_of_List_filter. rewrite E. apply list_elem_of_here.
Qed.



(** C8. The Journal timeline is not restricted to the last thirty days,
    and what its [$limit: 30] keeps are the earliest days, not the latest.
    An entry written a hundred days before the request has its day in the
    timeline. With one entry on each of the 31 days up to the request, all
    of them inside the thirty-day window of the Mood timeline, the Journal
    timeline holds the first 30 days and leaves out the day of the
    request; the Mood timeline of such entries holds all 31. *)
Theorem C8_journal_timeline_has_no_window :
  ((Journal.createdAt Sample.oldJournal < Sample.now - 30 * 86400000)%Z
   /\ map Journal.t_day (Journal.journalTimeline Sample.bob Sample.oldJournals)
      = [dayOf Sample.now - 100]%Z)
  /\ ((forall d, d ∈ scan Cases.dailyJournals ->
         Journal.user d = "bob"
         /\ (Sample.now - 30 * 86400000 <= Journal.createdAt d <= Sample.now)%Z)
      /\ Cases.dailyJournals !! "d0" = Some (Cases.dailyJournal 0)
      /\ Journal.createdAt (Cases.dailyJournal 0) = Sample.now
      /\ map Journal.t_day (Journal.journalTimeline Sample.bob Cases.dailyJournals)
         = map (fun k => (dayOf Sample.now - 30 + Z.of_nat k)%Z) (seq 0 30)
      /\ ~ dayOf Sample.now
           ∈ map Journal.t_day (Journal.journalTimeline Sample.bob Cases.dailyJournals)
      /\ map Mood.t_day (Mood.moodTimeline Sample.utc Sample.now Sample.bob Cases.dailyMoods)
         = map (fun k => (dayOf Sample.now - 30 + Z.of_nat k)%Z) (seq 0 31)).
Proof.
  split; [split; vm_compute; reflexivity |].
  split.
  { intros d Hd. apply elem_of_scan in Hd as [k Hk].
    unfold Cases.dailyJournals in Hk.
    apply elem_of_list_to_map_2 in Hk.
    apply list_elem_of_fmap in Hk as (n & [= -> ->] & Hn).
    apply elem_of_seq in Hn. split; [reflexivity |].
    unfold Cases.dailyJournal, msPerDay. simpl. lia. }
  split; [vm_compute; reflexivity |].
  split; [reflexivity |].
  split; [vm_compute; reflexivity |].
  split; [| vm_compute; reflexivity].
  intros Hin.
  assert (E : map Journal.t_day (Journal.journalTimeline Sample.bob Cases.dailyJournals)
              = map (fun k => (dayOf Sample.now - 30 + Z.of_nat k)%Z) (seq 0 30))
    by (vm_compute; reflexivity).
  rewrite E in Hin. apply list_elem_of_fmap in Hin as (k & Hk & Hseq).
  apply elem_of_seq in Hseq. lia.
Qed.

(** ** Insights *)

Lemma List_filter_nil {A : Type} (f : A -> bool) (l : list A) :
  (forall x, x ∈ l -> f x = false) -> List.filter f l = [].
Proof.
  induction l as [| x l IH]; intros H; simpl; [reflexivity |].
  rewrite (H x) by apply list_elem_of_here.
  apply IH. intros y Hy. apply H. apply list_elem_of_further. exact Hy.
Qed.

Lemma bump_nonempty k acc : bump k acc <> [].
Proof. destruct acc as [| [k' n] r]; simpl; [| destruct (String.eqb k k')]; discriminate. Qed.

Lemma countOccurrences_nonempty (l : list string) :
  l <> [] -> countOccurrences l <> [].
Proof.
  unfold countOccurrences. intros Hl.
  assert (H : forall l acc, acc <> [] ->
                fold_left (fun acc k => bump k acc) l acc <> []).
  { clear. induction l as [| k l IH]; intros acc Hacc; simpl; [exact Hacc |].
    apply IH, bump_nonempty. }
  destruct l as [| k l]; [congruence |]. simpl. apply H. discriminate.
Qed.

(** Past its guard, [getMoodInsights] works on a non-empty list, on which
    nothing it does throws. *)
Lemma report_on_entries (l : list Mood.doc) :
  l <> [] -> exists data, Mood.report l = inr data.
Proof.
  intros Hl. unfold Mood.report.
  destruct (mostCommon (countOccurrences (map Mood.mood l))) as [m |] eqn:Hm.
  - destruct l as [| newest l]; [congruence |].
    destruct (Mood.activityInsight (newest :: l)). eauto.
  - exfalso. unfold mostCommon in Hm.
    destruct (countOccurrences (map Mood.mood l)) eqn:Hc; [| discriminate].
    apply (countOccurrences_nonempty (map Mood.mood l)); [| exact Hc].
    destruct l; [congruence | discriminate].
Qed.

Lemma getMoodInsights_never_throws tz now u (s : gmap ObjectId Mood.doc) :
  exists data, Mood.getMoodInsights tz now u s = Mood.InsightsJson 200 true data.
Proof.
  unfold Mood.getMoodInsights.
  destruct (Nat.eqb_spec (length (Mood.recentMoodsOf tz now u s)) 0) as [_ | Hne];
    [eauto |].
  destruct (report_on_entries (Mood.recentMoodsOf tz now u s)) as (data & ->); [| eauto].
  intros Habs. rewrite Habs in Hne. contradiction.
Qed.

(** C9. When none of the user's mood entries was created in the last
    seven days, [getMoodInsights] replies 200 with the fixed no-data
    message and its one starter suggestion: it does not reach the
    averages, and does not throw. It gives that reply in no other case.
    The seven days are seven local calendar days: the window opens at the
    present local time of day of the local date seven days back. *)
Theorem C9_insights_on_empty_window :
  forall (tz : TimeZone) (now : Z) (u : AuthUser) (s : gmap ObjectId Mood.doc),
    let localNow := (now + offsetAtUTC tz now)%Z in
    let localThen := (localNow - 7 * 86400000)%Z in
    let sevenDaysAgo := (localThen - offsetAtLocal tz localThen)%Z in
    (forall d, d ∈ scan s -> Mood.user d = id u ->
               (Mood.createdAt d < sevenDaysAgo)%Z)
    <-> Mood.getMoodInsights tz now u s
        = Mood.InsightsJson 200 true
            (Mood.NoData "No mood entries found in the last 7 days"
               ["Start by adding your first mood entry to track your emotional well-being."]).
Proof.
  intros tz now u s localNow localThen sevenDaysAgo.
  assert (Hsince : daysAgo tz 7 now = sevenDaysAgo) by reflexivity.
  unfold Mood.getMoodInsights, Mood.recentMoodsOf. rewrite Hsince.
  set (found := List.filter (Mood.inWindow u sevenDaysAgo) (scan s)).
  pose proof (merge_sort_Permutation Mood.newestFirst found) as Hperm.
  split.
  - intros Hempty. subst found. rewrite List_filter_nil; [reflexivity |].
    intros d Hd. unfold Mood.inWindow.
    destruct (String.eqb_spec (Mood.user d) (id u)) as [Hu | _]; [| reflexivity].
    simpl. apply Z.leb_gt. apply Hempty; assumption.
  - intros Hreply d Hd Hu.
    destruct (Z.lt_ge_cases (Mood.createdAt d) sevenDaysAgo) as [Hlt | Hge];
      [exact Hlt | exfalso].
    assert (Hin : d ∈ found).
    { subst found. apply list_elem_of_In, filter_In. split.
      - apply list_elem_of_In. exact Hd.
      - unfold Mood.inWindow. rewrite Hu, String.eqb_refl. simpl.
        apply Z.leb_le. exact Hge. }
    rewrite <- Hperm in Hin.
    destruct (merge_sort Mood.newestFirst found) as [| m l] eqn:Hsorted.
    + apply elem_of_nil in Hin. exact Hin.
    + simpl in Hreply. unfold Mood.report in Hreply.
      repeat case_match; simplify_eq.
Qed.

(** Eight days after his one entry, Bob has nothing in the window. In New
    York, three days after the clocks went back, the window opens seven
    days and one hour before the present: an entry a millisecond older is
    out of it, and an entry seven days and half an hour old is in it. *)
Lemma C9_insights_on_empty_window_witness :
  Mood.getMoodInsights Sample.utc (Sample.now + 8 * msPerDay) Sample.bob Sample.moods
  = Mood.InsightsJson 200 true
      (Mood.NoData "No mood entries found in the last 7 days"
         ["Start by adding your first mood entry to track your emotional well-being."])
  /\ Mood.getMoodInsights Sample.newYork Cases.afterTheChange Sample.bob
       (Cases.agedMood (7 * msPerDay + 3600000 + 1))
     = Mood.InsightsJson 200 true
         (Mood.NoData "No mood entries found in the last 7 days"
            ["Start by adding your first mood entry to track your emotional well-being."])
  /\ Mood.getMoodInsights Sample.newYork Cases.afterTheChange Sample.bob
       (Cases.agedMood (7 * msPerDay + 1800000))
     <> Mood.InsightsJson 200 true
          (Mood.NoData "No mood entries found in the last 7 days"
             ["Start by adding your first mood entry to track your emotional well-being."]).
Proof.
  split; [| split].
  - apply C9_insights_on_empty_window.
    intros d Hd _. apply elem_of_scan in Hd as [k Hk].
    unfold Sample.moods in Hk. apply lookup_singleton_Some in Hk as [_ <-].
    vm_compute. reflexivity.
  - apply C9_insights_on_empty_window.
    intros d Hd _. apply elem_of_scan in Hd as [k Hk].
    unfold Cases.agedMood in Hk. apply lookup_singleton_Some in Hk as [_ <-].
    vm_compute. reflexivity.
  - intros Hreply.
    pose proof (proj2 (C9_insights_on_empty_window Sample.newYork Cases.afterTheChange
                         Sample.bob (Cases.agedMood (7 * msPerDay + 1800000))) Hreply)
      as Hempty.
    cbv zeta in Hempty.
    specialize (Hempty _ (proj2 (elem_of_scan _ _)
                            (ex_intro _ "m1" (lookup_singleton_eq _ _))) eq_refl).
    vm_compute in Hempty. discriminate Hempty.
Defined.

(** ** The sentiment score *)

Lemma falsyNumber_zero (q : Q) : (q == 0)%Q -> falsyNumber (Some q) = true.
Proof. intros H. simpl. apply Qeq_bool_iff. exact H. Qed.

Lemma falsyNumber_nonzero (q : Q) : ~ (q == 0)%Q -> falsyNumber (Some q) = false.
Proof.
  intros H. simpl. destruct (Qeq_bool q 0) eqn:E; [| reflexivity].
  apply Qeq_bool_iff in E. contradiction.
Qed.

(** The hook leaves a document with a nonzero score as it is, whether or
    not its content was modified. *)
Lemma preSave_keeps_nonzero_score (modified : bool) (d : Journal.doc) (q : Q) :
  Journal.sentimentScore d = Some q -> ~ (q == 0)%Q -> Journal.preSave modified d = d.
Proof.
  intros Hs Hq. unfold Journal.preSave.
  rewrite Hs, (falsyNumber_nonzero q Hq), andb_false_r. reflexivity.
Qed.

(** What [Journal.create] stores as the score. *)
Lemma journal_create_score oid now b s d s' :
  Journal.create oid now b s = inr (d, s') ->
  Journal.sentimentScore d
  = if falsyNumber (Journal.b_sentimentScore b)
    then Some (Journal.heuristicScore (Journal.content d))
    else Journal.b_sentimentScore b.
Proof.
  unfold Journal.create, Journal.preSave. intros H.
  repeat case_match; simplify_eq; simpl in *; try reflexivity; congruence.
Qed.

Lemma journal_update_score db now i b s d' s' :
  Journal.findByIdAndUpdate db now i (Journal.Object b []) s = inr (Some d', s') ->
  exists d, s !! i = Some d
            /\ s' !! i = Some d'
            /\ Journal.content d'
               = from_option trim (Journal.content d) (Journal.b_content b)
            /\ Journal.sentimentScore d'
               = match Journal.b_sentimentScore b with
                 | Some q => Some q
                 | None => Journal.sentimentScore d
                 end.
Proof.
  unfold Journal.findByIdAndUpdate. intros H.
  destruct (Journal.validateUpdate b); [discriminate |].
  destruct (s !! i) as [d |] eqn:Hd; [| discriminate].
  injection H as <- <-. exists d. split; [reflexivity |].
  split; [apply lookup_insert_eq |]. split; [reflexivity |].
  simpl. destruct (Journal.b_sentimentScore b); reflexivity.
Qed.

(** C7, as the code has it. An entry created without a score gets the
    keyword score of its content. After that the score is not computed
    again: the hook leaves a nonzero score alone even when the content was
    modified, and an update with a plain object of schema paths, which
    runs no save hook, stores the score the object carries or else keeps
    the stored one, whatever it does to the content. (An update document
    with operators is applied by the database; nothing is said of it
    here.) *)
Theorem C7_score_computed_at_creation_only :
  (forall oid now b s d s',
      Journal.create oid now b s = inr (d, s') ->
      Journal.b_sentimentScore b = None ->
      Journal.sentimentScore d = Some (Journal.heuristicScore (Journal.content d)))
  /\ (forall modified d q,
        Journal.sentimentScore d = Some q -> ~ (q == 0)%Q ->
        Journal.preSave modified d = d)
  /\ (forall db now i b s d' s',
        Journal.findByIdAndUpdate db now i (Journal.Object b []) s = inr (Some d', s') ->
        exists d, s !! i = Some d
                  /\ s' !! i = Some d'
                  /\ Journal.sentimentScore d'
                     = match Journal.b_sentimentScore b with
                       | Some q => Some q
                       | None => Journal.sentimentScore d
                       end).
Proof.
  split; [| split].
  - intros oid now b s d s' Hc Hb.
    rewrite (journal_create_score _ _ _ _ _ _ Hc), Hb. reflexivity.
  - intros modified d q. apply preSave_keeps_nonzero_score.
  - intros db now i b s d' s' Hu.
    destruct (journal_update_score _ _ _ _ _ _ _ Hu) as (d & H1 & H2 & _ & H4). eauto.
Qed.

(** Bob creates an entry without a score. *)
Lemma C7_score_computed_at_creation_only_witness :
  exists d s1,
    Journal.create "j1" Sample.now (Journal.setUser "bob" Sample.happyDay) ∅ = inr (d, s1)
    /\ Journal.sentimentScore d = Some (Journal.heuristicScore (Journal.content d))
    /\ Journal.sentimentScore d = Some (1 # 5).
Proof.
  do 2 eexists. split; [vm_compute; reflexivity |]. split; [| reflexivity].
  match goal with
  | |- Journal.sentimentScore ?d = _ =>
      refine (proj1 C7_score_computed_at_creation_only "j1" Sample.now
                (Journal.setUser "bob" Sample.happyDay)
                (∅ : gmap ObjectId Journal.doc) d _ _ eq_refl)
  end.
  vm_compute; reflexivity.
Defined.

(** C7 as stated fails on a content change: Bob's entry was created
    without a score and scored one fifth for its content; his update gives
    it a content that scores minus three fifths, and the stored score is
    still one fifth. *)
Lemma C7_update_leaves_stale_score :
  exists d s1 d' s2,
    Journal.createJournal (Sample.ids "j1") Sample.now
      (Sample.journalRequest Sample.bob "" Sample.happyDay) ∅
    = (Json 201 true (Journal.One d), s1)
    /\ Journal.sentimentScore d = Some (Journal.heuristicScore (Journal.content d))
    /\ Journal.updateJournal Cases.noJournalOperators Sample.now
         (Sample.journalRequest Sample.bob "j1" Sample.nowSad) s1
       = (Json 200 true (Some d'), s2)
    /\ s2 !! "j1" = Some d'
    /\ Journal.content d' = "sad, bad, awful"
    /\ Journal.sentimentScore d' = Some (1 # 5)
    /\ Journal.heuristicScore (Journal.content d') = (-3 # 5)%Q
    /\ Journal.sentimentScore d' <> Some (Journal.heuristicScore (Journal.content d')).
Proof.
  do 4 eexists.
  split; [vm_compute; reflexivity |].
  split; [vm_compute; reflexivity |].
  split; [vm_compute; reflexivity |].
  split; [vm_compute; reflexivity |].
  split; [vm_compute; reflexivity |].
  split; [vm_compute; reflexivity |].
  split; [vm_compute; reflexivity |].
  vm_compute. discriminate.
Qed.

Lemma Qle_bool_false (a b : Q) : Qle_bool a b = false <-> (b < a)%Q.
Proof.
  split.
  - intros H. apply Qnot_le_lt. intros Hle. apply Qle_bool_iff in Hle. congruence.
  - intros H. destruct (Qle_bool a b) eqn:E; [| reflexivity].
    apply Qle_bool_iff in E. lra.
Qed.

Lemma clamp_spec (x : Q) :
  let c := Math_max (-1) (Math_min 1 x) in
  (-1 <= c /\ c <= 1)%Q
  /\ ((x <= -1)%Q -> (c == -1)%Q)
  /\ ((1 <= x)%Q -> (c == 1)%Q)
  /\ ((-1 <= x /\ x <= 1)%Q -> (c == x)%Q).
Proof.
  unfold Math_max, Math_min.
  destruct (Qle_bool 1 x) eqn:E1.
  - apply Qle_bool_iff in E1.
    replace (Qle_bool (-1) 1) with true by reflexivity.
    repeat split; intros; lra.
  - apply Qle_bool_false in E1.
    destruct (Qle_bool (-1) x) eqn:E2.
    + apply Qle_bool_iff in E2. repeat split; intros; lra.
    + apply Qle_bool_false in E2. repeat split; intros; lra.
Qed.

(** The two loops of the hook, as counts of the words found. *)
Lemma keywordScore_counts (content : string) :
  Journal.keywordScore content
  = (Z.of_nat (length (List.filter (includes content) Journal.positiveWords))
     - Z.of_nat (length (List.filter (includes content) Journal.negativeWords)))%Z.
Proof.
  unfold Journal.keywordScore.
  assert (Up : forall words acc,
             fold_left (fun score word =>
                          if includes content word then (score + 1)%Z else score)
               words acc
             = (acc + Z.of_nat (length (List.filter (includes content) words)))%Z).
  { induction words as [| w r IH]; intros acc; simpl; [lia |].
    rewrite IH. destruct (includes content w); simpl; lia. }
  assert (Down : forall words acc,
             fold_left (fun score word =>
                          if includes content word then (score - 1)%Z else score)
               words acc
             = (acc - Z.of_nat (length (List.filter (includes content) words)))%Z).
  { induction words as [| w r IH]; intros acc; simpl; [lia |].
    rewrite IH. destruct (includes content w); simpl; lia. }
  rewrite Down, Up. lia.
Qed.

(** C10. In the pre-save hook a score of zero counts as no score: when
    the content is set or modified, it is replaced by the keyword score of
    the content. A nonzero score is kept as it is. So it is for the score
    a client sends with a new entry. The keyword score is a fifth of the
    number of positive words the lower-cased content includes less the
    number of negative ones, held between -1 and 1. *)
Theorem C10_zero_score_is_recomputed :
  (forall (d : Journal.doc) (q : Q),
      Journal.sentimentScore d = Some q ->
      ((q == 0)%Q ->
         Journal.preSave true d
         = Journal.setSentimentScore
             (Some (Journal.heuristicScore (Journal.content d))) d)
      /\ (~ (q == 0)%Q -> forall modified, Journal.preSave modified d = d))
  /\ (forall oid now b s d s' (q : Q),
        Journal.create oid now b s = inr (d, s') ->
        Journal.b_sentimentScore b = Some q ->
        ((q == 0)%Q ->
           Journal.sentimentScore d = Some (Journal.heuristicScore (Journal.content d)))
        /\ (~ (q == 0)%Q -> Journal.sentimentScore d = Some q))
  /\ (forall (text : string),
        let found := includes (toLowerCase text) in
        let net := (Z.of_nat (length (List.filter found Journal.positiveWords))
                    - Z.of_nat (length (List.filter found Journal.negativeWords)))%Z in
        ((-5 <= net <= 5)%Z -> (Journal.heuristicScore text == net # 5)%Q)
        /\ ((5 < net)%Z -> (Journal.heuristicScore text == 1)%Q)
        /\ ((net < -5)%Z -> (Journal.heuristicScore text == -1)%Q)).
Proof.
  split; [| split].
  - intros d q Hs. split.
    + intros Hq. unfold Journal.preSave.
      rewrite Hs, (falsyNumber_zero q Hq). reflexivity.
    + intros Hq modified. exact (preSave_keeps_nonzero_score modified d q Hs Hq).
  - intros oid now b s d s' q Hc Hb.
    rewrite (journal_create_score _ _ _ _ _ _ Hc), Hb. split; intros Hq.
    + rewrite (falsyNumber_zero q Hq). reflexivity.
    + rewrite (falsyNumber_nonzero q Hq). reflexivity.
  - intros text found net. unfold Journal.heuristicScore.
    rewrite keywordScore_counts. fold found. fold net.
    destruct (clamp_spec (Qred (inject_Z net / 5))) as (_ & Hlow & Hhigh & Hmid).
    cbv zeta in Hlow, Hhigh, Hmid.
    assert (Hq : (Qred (inject_Z net / 5) == net # 5)%Q).
    { rewrite Qred_correct. unfold Qeq, Qdiv, Qmult, Qinv, inject_Z. simpl. lia. }
    assert (Hle : forall a b : Z, (a <= b)%Z -> (a # 5 <= b # 5)%Q).
    { intros a b H. unfold Qle. simpl. lia. }
    split; [| split].
    + intros [H1 H2]. rewrite Hmid; [exact Hq |]. rewrite Hq.
      pose proof (Hle _ _ H1). pose proof (Hle _ _ H2).
      assert (E1 : (-5 # 5 == -1)%Q) by reflexivity.
      assert (E2 : (5 # 5 == 1)%Q) by reflexivity.
      split; lra.
    + intros H. apply Hhigh. rewrite Hq.
      assert (H5 : (5 <= net)%Z) by lia. pose proof (Hle _ _ H5).
      assert (E2 : (5 # 5 == 1)%Q) by reflexivity. lra.
    + intros H. apply Hlow. rewrite Hq.
      assert (H5 : (net <= -5)%Z) by lia. pose proof (Hle _ _ H5).
      assert (E1 : (-5 # 5 == -1)%Q) by reflexivity. lra.
Qed.

(** Bob's sample entry carries the score one fifth; a copy of it with the
    score zero is scored again. Three negative words score minus three
    fifths, six positive words score one, and seven negative words minus
    one. *)
Lemma C10_zero_score_is_recomputed_witness :
  Journal.preSave true Sample.bobsJournal = Sample.bobsJournal
  /\ Journal.sentimentScore
       (Journal.preSave true (Journal.setSentimentScore (Some 0%Q) Sample.bobsJournal))
     = Some (Journal.heuristicScore (Journal.content Sample.bobsJournal))
  /\ (Journal.heuristicScore (Journal.content Sample.bobsJournal) == 1 # 5)%Q
  /\ (Journal.heuristicScore "Sad, ANXIOUS, the worst" == -3 # 5)%Q
  /\ (Journal.heuristicScore "a bad day, but a good, great evening" == 1 # 5)%Q
  /\ (Journal.heuristicScore "happy joy excited good great amazing" == 1)%Q
  /\ (Journal.heuristicScore "sad angry anxious bad terrible awful worst" == -1)%Q.
Proof.
  destruct C10_zero_score_is_recomputed as (Hhook & _ & Hscore).
  split; [| split; [| split; [| split; [| split; [| split]]]]].
  - apply (proj2 (Hhook Sample.bobsJournal (1 # 5) eq_refl)).
    intros H. discriminate H.
  - rewrite (proj1 (Hhook (Journal.setSentimentScore (Some 0%Q) Sample.bobsJournal)
                      0%Q eq_refl)); reflexivity.
  - apply (proj1 (Hscore (Journal.content Sample.bobsJournal))). vm_compute.
    split; discriminate.
  - apply (proj1 (Hscore "Sad, ANXIOUS, the worst")). vm_compute.
    split; discriminate.
  - apply (proj1 (Hscore "a bad day, but a good, great evening")). vm_compute.
    split; discriminate.
  - apply (proj1 (proj2 (Hscore "happy joy excited good great amazing"))).
    vm_compute. reflexivity.
  - apply (proj2 (proj2 (Hscore "sad angry anxious bad terrible awful worst"))).
    vm_compute. reflexivity.
Defined.

(** * Further properties *)

(** ** Reading back, deleting, and what a handler leaves alone *)

Lemma mood_create_fields nts tz oid now b s d s' :
  Mood.create nts tz oid now b s = inr (d, s') ->
  Mood._id d = oid
  /\ Mood.createdAt d = default now (Mood.b_createdAt b)
  /\ Mood.updatedAt d = Mood.createdAt d
  /\ Mood.b_mood b = Some (Mood.mood d)
  /\ Mood.b_intensity b = Some (Mood.intensity d)
  /\ Mood.activities d = default [] (Mood.b_activities b)
  /\ moodInSchema d = true.
Proof.
  unfold Mood.create. intros H.
  repeat case_match; simplify_eq.
  unfold moodInSchema. simpl.
  repeat match goal with
         | H : negb _ = false |- _ => apply negb_false_iff in H; rewrite H
         end.
  repeat split; reflexivity.
Qed.

Lemma heuristicScore_in_range (text : string) :
  inRange (-1) 1 (Journal.heuristicScore text) = true.
Proof.
  unfold Journal.heuristicScore, inRange, Math_max, Math_min.
  set (q := Qred _). clearbody q.
  destruct (Qle_bool 1 q) eqn:E1.
  - reflexivity.
  - destruct (Qle_bool (-1) q) eqn:E2.
    + rewrite E2. simpl. apply Qle_bool_iff.
      destruct (Qlt_le_dec q 1) as [Hlt | Hge].
      * apply Qlt_le_weak. exact Hlt.
      * apply Qle_bool_iff in Hge. congruence.
    + reflexivity.
Qed.

Lemma journal_create_fields oid now b s d s' :
  Journal.create oid now b s = inr (d, s') ->
  Journal._id d = oid
  /\ Journal.createdAt d = default now (Journal.b_createdAt b)
  /\ Journal.updatedAt d = Journal.createdAt d
  /\ (trim <$> Journal.b_content b) = Some (Journal.content d)
  /\ Journal.b_mood b = Some (Journal.mood d)
  /\ Journal.emotion d = default "neutral" (Journal.b_emotion b)
  /\ journalInSchema d = true.
Proof.
  unfold Journal.create. intros H.
  repeat case_match; simplify_eq.
  all: unfold journalInSchema, Journal.preSave; simpl.
  all: repeat match goal with
         | H : negb _ = false |- _ => apply negb_false_iff in H
         end.
  all: repeat case_match; simpl.
  all: repeat match goal with
         | H : _ = true |- _ => rewrite H
         end.
  all: repeat split; try reflexivity.
  all: rewrite ?andb_true_r; try apply heuristicScore_in_range.
Qed.

(** What holds of a collection before a create and is kept by every
    single insertion holds after it, whatever the payload and the reply:
    an array is a run of single insertions. *)
Lemma mood_createEach_keeps nts tz newId now (P : gmap ObjectId Mood.doc -> Prop) :
  (forall n b s d s', Mood.create nts tz (newId n) now b s = inr (d, s') -> P s -> P s') ->
  forall items n s, P s -> P (Mood.createEach nts tz newId n now items s).2.
Proof.
  intros Hstep. induction items as [| b rest IH]; intros n s Hs; [exact Hs |].
  simpl. destruct (Mood.create _ _ _ _ _ _) as [e | [d s1]] eqn:E.
  - specialize (IH (S n) s Hs).
    destruct (Mood.createEach _ _ _ _ _ _ _) as [results s']. exact IH.
  - specialize (IH (S n) s1 (Hstep _ _ _ _ _ E Hs)).
    destruct (Mood.createEach _ _ _ _ _ _ _) as [results s']. exact IH.
Qed.

Lemma mood_createMood_keeps nts tz newId now req (P : gmap ObjectId Mood.doc -> Prop) :
  (forall n b s d s', Mood.create nts tz (newId n) now b s = inr (d, s') -> P s -> P s') ->
  forall s, P s -> P (Mood.createMood nts tz newId now req s).2.
Proof.
  intros Hstep s Hs. unfold Mood.createMood.
  destruct (Mood.stamp _ _) as [b operators | items].
  - destruct (Mood.create _ _ _ _ _ _) as [e | [d s']] eqn:E; [exact Hs |].
    exact (Hstep _ _ _ _ _ E Hs).
  - pose proof (mood_createEach_keeps nts tz newId now P Hstep items 0 s Hs) as H.
    destruct (Mood.createEach _ _ _ _ _ _ _) as [results s'].
    destruct (firstError results); exact H.
Qed.

Lemma journal_createEach_keeps newId now (P : gmap ObjectId Journal.doc -> Prop) :
  (forall n b s d s', Journal.create (newId n) now b s = inr (d, s') -> P s -> P s') ->
  forall items n s, P s -> P (Journal.createEach newId n now items s).2.
Proof.
  intros Hstep. induction items as [| b rest IH]; intros n s Hs; [exact Hs |].
  simpl. destruct (Journal.create _ _ _ _) as [e | [d s1]] eqn:E.
  - specialize (IH (S n) s Hs).
    destruct (Journal.createEach _ _ _ _ _) as [results s']. exact IH.
  - specialize (IH (S n) s1 (Hstep _ _ _ _ _ E Hs)).
    destruct (Journal.createEach _ _ _ _ _) as [results s']. exact IH.
Qed.

Lemma journal_createJournal_keeps newId now req (P : gmap ObjectId Journal.doc -> Prop) :
  (forall n b s d s', Journal.create (newId n) now b s = inr (d, s') -> P s -> P s') ->
  forall s, P s -> P (Journal.createJournal newId now req s).2.
Proof.
  intros Hstep s Hs. unfold Journal.createJournal.
  destruct (Journal.stamp _ _) as [b operators | items].
  - destruct (Journal.create _ _ _ _) as [e | [d s']] eqn:E; [exact Hs |].
    exact (Hstep _ _ _ _ _ E Hs).
  - pose proof (journal_createEach_keeps newId now P Hstep items 0 s Hs) as H.
    destruct (Journal.createEach _ _ _ _ _) as [results s'].
    destruct (firstError results); exact H.
Qed.

Lemma head_partition_None {A : Type} (f : A -> bool) (l : list A) :
  head (List.filter f l ++ List.filter (fun x => negb (f x)) l) = None -> l = [].
Proof.
  destruct l as [| x r]; [reflexivity |]. simpl.
  destruct (f x); simpl; [discriminate |].
  destruct (List.filter f r); simpl; discriminate.
Qed.

(** With no error among the results, every item was saved. *)
Lemma firstError_None {A : Type} (results : list (Err + A)) :
  firstError results = None -> results = map inr (savedOf results).
Proof.
  unfold firstError. intros H. apply head_partition_None in H.
  unfold errorsOf, savedOf in *.
  induction results as [| [e | d] rest IH]; [reflexivity | discriminate |].
  cbn. f_equal. apply IH. exact H.
Qed.

(** The documents an array create saved are in the collection, each under
    its own id. *)
Lemma mood_createEach_saved nts tz newId now items n s :
  let r := Mood.createEach nts tz newId n now items s in
  forall d, d ∈ savedOf r.1 -> r.2 !! Mood._id d = Some d.
Proof.
  revert n s. induction items as [| b rest IH]; intros n s; simpl.
  - intros d Hd. apply elem_of_nil in Hd. contradiction.
  - destruct (Mood.create _ _ _ _ _ _) as [e | [d0 s1]] eqn:E.
    + specialize (IH (S n) s).
      destruct (Mood.createEach _ _ _ _ _ _ _) as [results s']. exact IH.
    + pose proof (mood_createEach_keeps nts tz newId now
                    (fun s' => s' !! Mood._id d0 = Some d0)) as Hkeep.
      specialize (Hkeep ltac:(
        intros m b' s2 d2 s2' E2 H2;
        apply mood_create_inv in E2 as (_ & Hfree & ->);
        rewrite lookup_insert_ne; [exact H2 | congruence]) rest (S n) s1).
      destruct (mood_create_fields _ _ _ _ _ _ _ _ E) as (Hid & _).
      apply mood_create_inv in E as (_ & _ & ->).
      specialize (Hkeep ltac:(rewrite Hid; apply lookup_insert_eq)).
      specialize (IH (S n) (<[newId n := d0]> s)).
      destruct (Mood.createEach _ _ _ _ _ _ _) as [results s']. simpl in *.
      intros d Hd. unfold savedOf in Hd. cbn [omap] in Hd.
      apply elem_of_cons in Hd as [-> | Hd]; [exact Hkeep | exact (IH d Hd)].
Qed.

Lemma journal_createEach_saved newId now items n s :
  let r := Journal.createEach newId n now items s in
  forall d, d ∈ savedOf r.1 -> r.2 !! Journal._id d = Some d.
Proof.
  revert n s. induction items as [| b rest IH]; intros n s; simpl.
  - intros d Hd. apply elem_of_nil in Hd. contradiction.
  - destruct (Journal.create _ _ _ _) as [e | [d0 s1]] eqn:E.
    + specialize (IH (S n) s).
      destruct (Journal.createEach _ _ _ _ _) as [results s']. exact IH.
    + pose proof (journal_createEach_keeps newId now
                    (fun s' => s' !! Journal._id d0 = Some d0)) as Hkeep.
      specialize (Hkeep ltac:(
        intros m b' s2 d2 s2' E2 H2;
        apply journal_create_inv in E2 as (_ & Hfree & ->);
        rewrite lookup_insert_ne; [exact H2 | congruence]) rest (S n) s1).
      destruct (journal_create_fields _ _ _ _ _ _ E) as (Hid & _).
      apply journal_create_inv in E as (_ & _ & ->).
      specialize (Hkeep ltac:(rewrite Hid; apply lookup_insert_eq)).
      specialize (IH (S n) (<[newId n := d0]> s)).
      destruct (Journal.createEach _ _ _ _ _) as [results s']. simpl in *.
      intros d Hd. unfold savedOf in Hd. cbn [omap] in Hd.
      apply elem_of_cons in Hd as [-> | Hd]; [exact Hkeep | exact (IH d Hd)].
Qed.

(** Every document an array create saved has the owner its item names. *)
Lemma mood_createEach_owners nts tz newId now items n s :
  Forall (fun d => exists b, b ∈ items /\ Mood.b_user b = Some (Mood.user d))
    (savedOf (Mood.createEach nts tz newId n now items s).1).
Proof.
  revert n s. induction items as [| b rest IH]; intros n s; simpl; [constructor |].
  destruct (Mood.create _ _ _ _ _ _) as [e | [d0 s1]] eqn:E.
  - specialize (IH (S n) s).
    destruct (Mood.createEach _ _ _ _ _ _ _) as [results s']. simpl in *.
    eapply Forall_impl; [exact IH |]. intros d (b' & Hb' & Hu).
    exists b'. split; [apply list_elem_of_further; exact Hb' | exact Hu].
  - specialize (IH (S n) s1).
    apply mood_create_inv in E as (Hu0 & _).
    destruct (Mood.createEach _ _ _ _ _ _ _) as [results s']. simpl in *.
    constructor.
    + exists b. split; [apply list_elem_of_here | exact Hu0].
    + eapply Forall_impl; [exact IH |]. intros d (b' & Hb' & Hu).
      exists b'. split; [apply list_elem_of_further; exact Hb' | exact Hu].
Qed.

Lemma journal_createEach_owners newId now items n s :
  Forall (fun d => exists b, b ∈ items /\ Journal.b_user b = Some (Journal.user d))
    (savedOf (Journal.createEach newId n now items s).1).
Proof.
  revert n s. induction items as [| b rest IH]; intros n s; simpl; [constructor |].
  destruct (Journal.create _ _ _ _) as [e | [d0 s1]] eqn:E.
  - specialize (IH (S n) s).
    destruct (Journal.createEach _ _ _ _ _) as [results s']. simpl in *.
    eapply Forall_impl; [exact IH |]. intros d (b' & Hb' & Hu).
    exists b'. split; [apply list_elem_of_further; exact Hb' | exact Hu].
  - specialize (IH (S n) s1).
    apply journal_create_inv in E as (Hu0 & _).
    destruct (Journal.createEach _ _ _ _ _) as [results s']. simpl in *.
    constructor.
    + exists b. split; [apply list_elem_of_here | exact Hu0].
    + eapply Forall_impl; [exact IH |]. intros d (b' & Hb' & Hu).
      exists b'. split; [apply list_elem_of_further; exact Hb' | exact Hu].
Qed.

(** The sample collections hold each entry under its own id, within the
    schema. *)
Lemma threeMoods_keyed : moodsKeyed Sample.threeMoods.
Proof.
  intros k d H. unfold Sample.threeMoods, Sample.moods in H.
  apply lookup_insert_Some in H as [[<- <-] | [_ H]]; [reflexivity |].
  apply lookup_insert_Some in H as [[<- <-] | [_ H]]; [reflexivity |].
  apply lookup_singleton_Some in H as [<- <-]. reflexivity.
Qed.

Lemma threeMoods_in_schema :
  map_Forall (fun _ d => moodInSchema d = true) Sample.threeMoods.
Proof.
  intros k d H. unfold Sample.threeMoods, Sample.moods in H.
  apply lookup_insert_Some in H as [[<- <-] | [_ H]]; [vm_compute; reflexivity |].
  apply lookup_insert_Some in H as [[<- <-] | [_ H]]; [vm_compute; reflexivity |].
  apply lookup_singleton_Some in H as [<- <-]. vm_compute. reflexivity.
Qed.

Lemma journals_in_schema :
  map_Forall (fun _ d => journalInSchema d = true) Sample.journals.
Proof.
  intros k d H. unfold Sample.journals in H.
  apply lookup_singleton_Some in H as [<- <-]. vm_compute. reflexivity.
Qed.

(** A created entry can be read back. When [createMood] or
    [createJournal] replies 201 with one entry, the body was an object,
    the caller's get on the new id replies 200 with that very entry, and
    the entry carries the new id, the body's [createdAt] or else the
    clock, and the body's values of the paths the schema requires. When
    the reply is 201 with an array, the body was an array, and every
    entry of the reply is stored under its id and is what a get by its
    owner on that id replies. *)
Theorem created_entry_reads_back :
  (forall nts tz newId now (req : Mood.Request) ms data ms',
      Mood.createMood nts tz newId now req ms = (Json 201 true data, ms') ->
      match data with
      | Mood.One d =>
          exists b operators,
            Mood.req_body req = Mood.Object b operators
            /\ (forall p, Mood.getMood
                            {| Mood.req_user := Mood.req_user req;
                               Mood.params_id := newId 0; Mood.req_body := p |} ms'
                          = Json 200 true d)
            /\ Mood._id d = newId 0
            /\ Mood.createdAt d = default now (Mood.b_createdAt b)
            /\ Mood.b_mood b = Some (Mood.mood d)
            /\ Mood.b_intensity b = Some (Mood.intensity d)
      | Mood.Many ds =>
          exists items,
            Mood.req_body req = Mood.Array items
            /\ forall d, d ∈ ds ->
                 ms' !! Mood._id d = Some d
                 /\ forall u p, id u = Mood.user d ->
                      Mood.getMood {| Mood.req_user := u; Mood.params_id := Mood._id d;
                                      Mood.req_body := p |} ms'
                      = Json 200 true d
      end)
  /\ (forall newId now (req : Journal.Request) js data js',
        Journal.createJournal newId now req js = (Json 201 true data, js') ->
        match data with
        | Journal.One d =>
            exists b operators,
              Journal.req_body req = Journal.Object b operators
              /\ (forall p, Journal.getJournal
                              {| Journal.req_user := Journal.req_user req;
                                 Journal.params_id := newId 0;
                                 Journal.req_body := p |} js'
                            = Json 200 true d)
              /\ Journal._id d = newId 0
              /\ Journal.createdAt d = default now (Journal.b_createdAt b)
              /\ (trim <$> Journal.b_content b) = Some (Journal.content d)
              /\ Journal.b_mood b = Some (Journal.mood d)
        | Journal.Many ds =>
            exists items,
              Journal.req_body req = Journal.Array items
              /\ forall d, d ∈ ds ->
                   js' !! Journal._id d = Some d
                   /\ forall u p, id u = Journal.user d ->
                        Journal.getJournal
                          {| Journal.req_user := u; Journal.params_id := Journal._id d;
                             Journal.req_body := p |} js'
                        = Json 200 true d
        end).
Proof.
  split.
  - intros nts tz newId now req ms data ms' H. unfold Mood.createMood in H.
    destruct (Mood.req_body req) as [b operators | items] eqn:Hb; simpl in H.
    + destruct (Mood.create _ _ _ _ _ _) as [e | [d0 s0]] eqn:E; [discriminate |].
      injection H as <- <-. exists b, operators. split; [reflexivity |].
      destruct (mood_create_fields _ _ _ _ _ _ _ _ E) as (Hid & Hc & _ & Hm & Hi & _).
      apply mood_create_inv in E as (Hu & _ & ->). simpl in Hu, Hm, Hi, Hc.
      split; [| auto].
      intros p. unfold Mood.getMood. simpl. rewrite lookup_insert_eq.
      rewrite notOwnerNorAdmin_false; [reflexivity | left; congruence].
    + pose proof (mood_createEach_saved nts tz newId now items 0 ms) as Hsaved.
      destruct (Mood.createEach _ _ _ _ _ _ _) as [results s'].
      destruct (firstError results); [discriminate |].
      injection H as <- <-. exists items. split; [reflexivity |].
      intros d Hd. simpl in Hsaved. specialize (Hsaved d Hd).
      split; [exact Hsaved |].
      intros u p Hu. unfold Mood.getMood. simpl. rewrite Hsaved.
      rewrite notOwnerNorAdmin_false; [reflexivity | left; exact Hu].
  - intros newId now req js data js' H. unfold Journal.createJournal in H.
    destruct (Journal.req_body req) as [b operators | items] eqn:Hb; simpl in H.
    + destruct (Journal.create _ _ _ _) as [e | [d0 s0]] eqn:E; [discriminate |].
      injection H as <- <-. exists b, operators. split; [reflexivity |].
      destruct (journal_create_fields _ _ _ _ _ _ E) as (Hid & Hc & _ & Hm & Hi & _).
      apply journal_create_inv in E as (Hu & _ & ->). simpl in Hu, Hm, Hi, Hc.
      split; [| auto].
      intros p. unfold Journal.getJournal. simpl. rewrite lookup_insert_eq.
      rewrite notOwnerNorAdmin_false; [reflexivity | left; congruence].
    + pose proof (journal_createEach_saved newId now items 0 js) as Hsaved.
      destruct (Journal.createEach _ _ _ _ _) as [results s'].
      destruct (firstError results); [discriminate |].
      injection H as <- <-. exists items. split; [reflexivity |].
      intros d Hd. simpl in Hsaved. specialize (Hsaved d Hd).
      split; [exact Hsaved |].
      intros u p Hu. unfold Journal.getJournal. simpl. rewrite Hsaved.
      rewrite notOwnerNorAdmin_false; [reflexivity | left; exact Hu].
Qed.

(** Alice creates an entry dated a day back and reads it back; Bob
    creates a journal entry and reads it back. *)
Lemma created_entry_reads_back_witness :
  (exists d ms',
      Mood.createMood Sample.showInteger Sample.utc (Sample.ids "m9") Sample.now
        (Sample.moodRequest Sample.alice "" Cases.backdatedMood) Sample.moods
      = (Json 201 true (Mood.One d), ms')
      /\ Mood.getMood (Sample.moodRequest Sample.alice "m9" Mood.emptyBody) ms'
         = Json 200 true d
      /\ Mood.createdAt d = (Sample.now - msPerDay)%Z)
  /\ (exists d js',
        Journal.createJournal (Sample.ids "j9") Sample.now
          (Sample.journalRequest Sample.bob "" Sample.happyDay) Sample.journals
        = (Json 201 true (Journal.One d), js')
        /\ Journal.getJournal (Sample.journalRequest Sample.bob "j9" Journal.emptyBody) js'
           = Json 200 true d
        /\ Journal.createdAt d = Sample.now).
Proof.
  split.
  - do 2 eexists. split; [vm_compute; reflexivity |].
    match goal with
    | |- Mood.getMood _ ?ms' = Json 200 true ?d /\ _ =>
        assert (E : Mood.createMood Sample.showInteger Sample.utc (Sample.ids "m9")
                      Sample.now
                      (Sample.moodRequest Sample.alice "" Cases.backdatedMood)
                      Sample.moods
                    = (Json 201 true (Mood.One d), ms'))
          by (vm_compute; reflexivity)
    end.
    destruct (proj1 created_entry_reads_back _ _ _ _ _ _ _ _ E)
      as (b & operators & Hb & Hget & _ & Hc & _).
    injection Hb as <- _.
    split; [exact (Hget (Mood.Object Mood.emptyBody [])) | exact Hc].
  - do 2 eexists. split; [vm_compute; reflexivity |].
    match goal with
    | |- Journal.getJournal _ ?js' = Json 200 true ?d /\ _ =>
        assert (E : Journal.createJournal (Sample.ids "j9") Sample.now
                      (Sample.journalRequest Sample.bob "" Sample.happyDay)
                      Sample.journals
                    = (Json 201 true (Journal.One d), js'))
          by (vm_compute; reflexivity)
    end.
    destruct (proj2 created_entry_reads_back _ _ _ _ _ _ E)
      as (b & operators & Hb & Hget & _ & Hc & _).
    injection Hb as <- _.
    split; [exact (Hget (Journal.Object Journal.emptyBody [])) | exact Hc].
Defined.

(** The collections stay keyed by [_id] under every handler. *)
Lemma moodsKeyed_create nts tz newId now req ms :
  moodsKeyed ms -> moodsKeyed (Mood.createMood nts tz newId now req ms).2.
Proof.
  apply mood_createMood_keeps.
  intros n b s d s' E Hk.
  destruct (mood_create_fields _ _ _ _ _ _ _ _ E) as (Hid & _).
  apply mood_create_inv in E as (_ & _ & ->).
  intros k d' Hl. destruct (decide (newId n = k)) as [<- | Hne].
  - rewrite lookup_insert_eq in Hl. congruence.
  - rewrite lookup_insert_ne in Hl by exact Hne. eauto.
Qed.

Lemma moodsKeyed_update db t req ms :
  moodsKeyed ms -> moodsKeyed (Mood.updateMood db t req ms).2.
Proof.
  intros Hk. unfold Mood.updateMood, Mood.findByIdAndUpdate.
  repeat case_match; simplify_eq; simpl; try exact Hk.
  all: intros k d' Hl; destruct (decide (Mood.params_id req = k)) as [<- | Hne];
    [| rewrite lookup_insert_ne in Hl by exact Hne; eauto].
  all: rewrite lookup_insert_eq in Hl; injection Hl as <-.
  all: try (simpl; eauto).
  all: match goal with
       | H : String.eqb _ _ = true |- _ => apply String.eqb_eq in H; rewrite H; eauto
       end.
Qed.

Lemma moodsKeyed_delete req ms :
  moodsKeyed ms -> moodsKeyed (Mood.deleteMood req ms).2.
Proof.
  intros Hk. unfold Mood.deleteMood.
  repeat case_match; simpl; try exact Hk.
  intros k d' Hl. apply lookup_delete_Some in Hl as [_ Hl]. eauto.
Qed.

Lemma journalsKeyed_create newId now req js :
  journalsKeyed js -> journalsKeyed (Journal.createJournal newId now req js).2.
Proof.
  apply journal_createJournal_keeps.
  intros n b s d s' E Hk.
  destruct (journal_create_fields _ _ _ _ _ _ E) as (Hid & _).
  apply journal_create_inv in E as (_ & _ & ->).
  intros k d' Hl. destruct (decide (newId n = k)) as [<- | Hne].
  - rewrite lookup_insert_eq in Hl. congruence.
  - rewrite lookup_insert_ne in Hl by exact Hne. eauto.
Qed.

Lemma journalsKeyed_update db t req js :
  journalsKeyed js -> journalsKeyed (Journal.updateJournal db t req js).2.
Proof.
  intros Hk. unfold Journal.updateJournal, Journal.findByIdAndUpdate.
  repeat case_match; simplify_eq; simpl; try exact Hk.
  all: intros k d' Hl; destruct (decide (Journal.params_id req = k)) as [<- | Hne];
    [| rewrite lookup_insert_ne in Hl by exact Hne; eauto].
  all: rewrite lookup_insert_eq in Hl; injection Hl as <-.
  all: try (simpl; eauto).
  all: match goal with
       | H : String.eqb _ _ = true |- _ => apply String.eqb_eq in H; rewrite H; eauto
       end.
Qed.

Lemma journalsKeyed_delete req js :
  journalsKeyed js -> journalsKeyed (Journal.deleteJournal req js).2.
Proof.
  intros Hk. unfold Journal.deleteJournal.
  repeat case_match; simpl; try exact Hk.
  intros k d' Hl. apply lookup_delete_Some in Hl as [_ Hl]. eauto.
Qed.

(** Deleting is final, and a second delete is a 404. Once the owner or
    an admin has deleted an entry, the id is gone from the collection,
    every other entry is where it was, and get, update and delete on that
    id all end in the not-found error, whoever asks. *)
Theorem deleted_entry_is_not_found :
  (forall (req : Mood.Request) ms m,
      moodsKeyed ms ->
      ms !! Mood.params_id req = Some m ->
      (id (Mood.req_user req) = Mood.user m \/ role (Mood.req_user req) = "admin") ->
      exists ms',
        Mood.deleteMood req ms = (Json 200 true tt, ms')
        /\ ms' !! Mood.params_id req = None
        /\ (forall k, k <> Mood.params_id req -> ms' !! k = ms !! k)
        /\ (forall db t (again : Mood.Request),
              Mood.params_id again = Mood.params_id req ->
              Mood.getMood again ms' = Next (Mood.notFound (Mood.params_id req))
              /\ Mood.updateMood db t again ms'
                 = (Next (Mood.notFound (Mood.params_id req)), ms')
              /\ Mood.deleteMood again ms'
                 = (Next (Mood.notFound (Mood.params_id req)), ms')))
  /\ (forall (req : Journal.Request) js j,
        journalsKeyed js ->
        js !! Journal.params_id req = Some j ->
        (id (Journal.req_user req) = Journal.user j
         \/ role (Journal.req_user req) = "admin") ->
        exists js',
          Journal.deleteJournal req js = (Json 200 true tt, js')
          /\ js' !! Journal.params_id req = None
          /\ (forall k, k <> Journal.params_id req -> js' !! k = js !! k)
          /\ (forall db t (again : Journal.Request),
                Journal.params_id again = Journal.params_id req ->
                Journal.getJournal again js'
                = Next (Journal.notFound (Journal.params_id req))
                /\ Journal.updateJournal db t again js'
                   = (Next (Journal.notFound (Journal.params_id req)), js')
                /\ Journal.deleteJournal again js'
                   = (Next (Journal.notFound (Journal.params_id req)), js'))).
Proof.
  split.
  - intros req ms m Hk Hm Hauth.
    exists (delete (Mood.params_id req) ms).
    assert (Hgone : delete (Mood.params_id req) ms !! Mood.params_id req = None)
      by apply lookup_delete_eq.
    split; [| split; [exact Hgone | split]].
    + unfold Mood.deleteMood. rewrite Hm, (notOwnerNorAdmin_false _ _ Hauth).
      rewrite (Hk _ _ Hm). reflexivity.
    + intros k Hne. apply lookup_delete_ne. congruence.
    + intros db t again Heq.
      unfold Mood.getMood, Mood.updateMood, Mood.deleteMood.
      rewrite Heq, Hgone. auto.
  - intros req js j Hk Hj Hauth.
    exists (delete (Journal.params_id req) js).
    assert (Hgone : delete (Journal.params_id req) js !! Journal.params_id req = None)
      by apply lookup_delete_eq.
    split; [| split; [exact Hgone | split]].
    + unfold Journal.deleteJournal. rewrite Hj, (notOwnerNorAdmin_false _ _ Hauth).
      rewrite (Hk _ _ Hj). reflexivity.
    + intros k Hne. apply lookup_delete_ne. congruence.
    + intros db t again Heq.
      unfold Journal.getJournal, Journal.updateJournal, Journal.deleteJournal.
      rewrite Heq, Hgone. auto.
Qed.

(** Bob deletes his first entry: it is gone, his second is still there. *)
Lemma deleted_entry_is_not_found_witness :
  exists ms',
    Mood.deleteMood (Sample.moodRequest Sample.bob "m1" Mood.emptyBody)
      Sample.threeMoods
    = (Json 200 true tt, ms')
    /\ ms' !! "m1" = None
    /\ ms' !! "m2" = Some Sample.bobsLaterMood
    /\ Mood.getMood (Sample.moodRequest Sample.bob "m1" Mood.emptyBody) ms'
       = Next (Mood.notFound "m1").
Proof.
  destruct (proj1 deleted_entry_is_not_found
              (Sample.moodRequest Sample.bob "m1" Mood.emptyBody)
              Sample.threeMoods Sample.bobsMood threeMoods_keyed)
    as (ms' & Hdel & Hgone & Hothers & Hagain).
  - vm_compute. reflexivity.
  - left. reflexivity.
  - exists ms'. split; [exact Hdel |]. split; [exact Hgone |]. split.
    + transitivity (Sample.threeMoods !! "m2");
        [apply (Hothers "m2"); discriminate | vm_compute; reflexivity].
    + exact (proj1 (Hagain Cases.noOperators Sample.now
                      (Sample.moodRequest Sample.bob "m1" Mood.emptyBody) eq_refl)).
Defined.

(** A request touches at most the entries it names. In a collection
    keyed by [_id], whatever a create, update or delete request carries
    and however it ends: a create leaves every entry that was stored as
    it was, and changes nothing under an id that is not one of the new
    ones (for an object body: the one new id); an update and a delete
    leave every entry under another id than the request's as it was,
    whatever the database does with an update document; and the
    collection is still keyed by [_id]. *)
Theorem handlers_leave_other_entries_alone :
  (forall nts tz newId db now t (req : Mood.Request) ms,
      moodsKeyed ms ->
      (forall k, (forall n, k <> newId n) ->
                 (Mood.createMood nts tz newId now req ms).2 !! k = ms !! k)
      /\ (forall k d, ms !! k = Some d ->
                      (Mood.createMood nts tz newId now req ms).2 !! k = Some d)
      /\ ((exists b operators, Mood.req_body req = Mood.Object b operators) ->
          forall k, k <> newId 0 ->
                    (Mood.createMood nts tz newId now req ms).2 !! k = ms !! k)
      /\ (forall k, k <> Mood.params_id req ->
                    (Mood.updateMood db t req ms).2 !! k = ms !! k
                    /\ (Mood.deleteMood req ms).2 !! k = ms !! k)
      /\ moodsKeyed (Mood.createMood nts tz newId now req ms).2
      /\ moodsKeyed (Mood.updateMood db t req ms).2
      /\ moodsKeyed (Mood.deleteMood req ms).2)
  /\ (forall newId db now t (req : Journal.Request) js,
        journalsKeyed js ->
        (forall k, (forall n, k <> newId n) ->
                   (Journal.createJournal newId now req js).2 !! k = js !! k)
        /\ (forall k d, js !! k = Some d ->
                        (Journal.createJournal newId now req js).2 !! k = Some d)
        /\ ((exists b operators, Journal.req_body req = Journal.Object b operators) ->
            forall k, k <> newId 0 ->
                      (Journal.createJournal newId now req js).2 !! k = js !! k)
        /\ (forall k, k <> Journal.params_id req ->
                      (Journal.updateJournal db t req js).2 !! k = js !! k
                      /\ (Journal.deleteJournal req js).2 !! k = js !! k)
        /\ journalsKeyed (Journal.createJournal newId now req js).2
        /\ journalsKeyed (Journal.updateJournal db t req js).2
        /\ journalsKeyed (Journal.deleteJournal req js).2).
Proof.
  split.
  - intros nts tz newId db now t req ms Hk.
    split; [| split; [| split; [| split; [| split; [| split]]]]].
    + intros k Hne.
      apply (mood_createMood_keeps nts tz newId now req (fun s => s !! k = ms !! k));
        [| reflexivity].
      intros n b s d s' E Hs. apply mood_create_inv in E as (_ & _ & ->).
      rewrite lookup_insert_ne; [exact Hs | apply not_eq_sym, Hne].
    + intros k d Hd.
      apply (mood_createMood_keeps nts tz newId now req (fun s => s !! k = Some d));
        [| exact Hd].
      intros n b s d' s' E Hs. apply mood_create_inv in E as (_ & Hfree & ->).
      rewrite lookup_insert_ne; [exact Hs | congruence].
    + intros (b & operators & Hb) k Hne. unfold Mood.createMood. rewrite Hb. simpl.
      destruct (Mood.create _ _ _ _ _ _) as [e | [d s']] eqn:E; [reflexivity |].
      apply mood_create_inv in E as (_ & _ & ->). simpl.
      apply lookup_insert_ne. congruence.
    + intros k Hne. split.
      * unfold Mood.updateMood, Mood.findByIdAndUpdate.
        repeat case_match; simplify_eq; simpl; try reflexivity.
        all: apply lookup_insert_ne; congruence.
      * unfold Mood.deleteMood.
        destruct (ms !! Mood.params_id req) as [m |] eqn:Hm; [| reflexivity].
        destruct (notOwnerNorAdmin _ _); [reflexivity |]. simpl.
        rewrite (Hk _ _ Hm). apply lookup_delete_ne. congruence.
    + apply moodsKeyed_create, Hk.
    + apply moodsKeyed_update, Hk.
    + apply moodsKeyed_delete, Hk.
  - intros newId db now t req js Hk.
    split; [| split; [| split; [| split; [| split; [| split]]]]].
    + intros k Hne.
      apply (journal_createJournal_keeps newId now req (fun s => s !! k = js !! k));
        [| reflexivity].
      intros n b s d s' E Hs. apply journal_create_inv in E as (_ & _ & ->).
      rewrite lookup_insert_ne; [exact Hs | apply not_eq_sym, Hne].
    + intros k d Hd.
      apply (journal_createJournal_keeps newId now req (fun s => s !! k = Some d));
        [| exact Hd].
      intros n b s d' s' E Hs. apply journal_create_inv in E as (_ & Hfree & ->).
      rewrite lookup_insert_ne; [exact Hs | congruence].
    + intros (b & operators & Hb) k Hne. unfold Journal.createJournal. rewrite Hb. simpl.
      destruct (Journal.create _ _ _ _) as [e | [d s']] eqn:E; [reflexivity |].
      apply journal_create_inv in E as (_ & _ & ->). simpl.
      apply lookup_insert_ne. congruence.
    + intros k Hne. split.
      * unfold Journal.updateJournal, Journal.findByIdAndUpdate.
        repeat case_match; simplify_eq; simpl; try reflexivity.
        all: apply lookup_insert_ne; congruence.
      * unfold Journal.deleteJournal.
        destruct (js !! Journal.params_id req) as [j |] eqn:Hj; [| reflexivity].
        destruct (notOwnerNorAdmin _ _); [reflexivity |]. simpl.
        rewrite (Hk _ _ Hj). apply lookup_delete_ne. congruence.
    + apply journalsKeyed_create, Hk.
    + apply journalsKeyed_update, Hk.
    + apply journalsKeyed_delete, Hk.
Qed.

(** Bob updates his first entry, with an object and with an operator:
    Alice's entry is as it was. Alice posts an array: Bob's entries are
    as they were. *)
Lemma handlers_leave_other_entries_alone_witness :
  (Mood.updateMood Cases.incrementing Sample.now
     (Sample.moodRequest Sample.bob "m1" Sample.forgedMood) Sample.threeMoods).2
  !! "m3"
  = Some Sample.alicesMood
  /\ (Mood.updateMood Cases.incrementing Sample.now Cases.raiseIntensity
        Sample.threeMoods).2 !! "m3"
     = Some Sample.alicesMood
  /\ (Mood.createMood Sample.showInteger Sample.utc (Sample.ids "m9") Sample.now
        (Sample.moodsRequest Sample.alice [Sample.forgedMood; Sample.forgedMood])
        Sample.threeMoods).2 !! "m1"
     = Some Sample.bobsMood.
Proof.
  destruct (proj1 handlers_leave_other_entries_alone Sample.showInteger Sample.utc
              (Sample.ids "m9") Cases.incrementing Sample.now Sample.now
              (Sample.moodRequest Sample.bob "m1" Sample.forgedMood)
              Sample.threeMoods threeMoods_keyed) as (_ & _ & _ & Hother & _).
  destruct (proj1 handlers_leave_other_entries_alone Sample.showInteger Sample.utc
              (Sample.ids "m9") Cases.incrementing Sample.now Sample.now
              Cases.raiseIntensity
              Sample.threeMoods threeMoods_keyed) as (_ & _ & _ & Hop & _).
  destruct (proj1 handlers_leave_other_entries_alone Sample.showInteger Sample.utc
              (Sample.ids "m9") Cases.incrementing Sample.now Sample.now
              (Sample.moodsRequest Sample.alice [Sample.forgedMood; Sample.forgedMood])
              Sample.threeMoods threeMoods_keyed) as (_ & Hstored & _).
  split; [| split].
  - transitivity (Sample.threeMoods !! "m3");
      [apply (Hother "m3"); discriminate | vm_compute; reflexivity].
  - transitivity (Sample.threeMoods !! "m3");
      [apply (Hop "m3"); discriminate | vm_compute; reflexivity].
  - apply (Hstored "m1"). vm_compute. reflexivity.
Defined.

Lemma mood_update_in_schema t b d :
  Mood.validateUpdate b = None -> moodInSchema d = true ->
  moodInSchema (Mood.applyUpdate t b d) = true.
Proof.
  unfold Mood.validateUpdate, moodInSchema, Mood.applyUpdate. simpl.
  intros Hv Hd.
  rewrite !andb_true_iff in Hd. destruct Hd as (((? & ?) & ?) & ?).
  destruct b as [bu bm bi bn ba bs bw bl bt bsh bai bca bua]. simpl in *.
  repeat match type of Hv with
         | (if negb ?c then _ else _) = None =>
             destruct c eqn:?; simpl in Hv; [| discriminate]
         end.
  destruct bm, bi, ba, bs; simpl in *;
    rewrite !andb_true_iff; repeat split; assumption.
Qed.

Lemma journal_update_in_schema t b d :
  Journal.validateUpdate b = None -> journalInSchema d = true ->
  journalInSchema (Journal.applyUpdate t b d) = true.
Proof.
  unfold Journal.validateUpdate, journalInSchema, Journal.applyUpdate. simpl.
  intros Hv Hd.
  rewrite !andb_true_iff in Hd.
  destruct Hd as ((((((? & ?) & ?) & ?) & ?) & ?) & ?).
  destruct b as [bu bt bc be bs btg bp bm ba bl bw bh bai bca bua]. simpl in *.
  repeat match type of Hv with
         | (if negb ?c then _ else _) = None =>
             destruct c eqn:?; simpl in Hv; [| discriminate]
         end.
  destruct bt, bc, be, bs, bm, ba, bh; simpl in *;
    rewrite !andb_true_iff; repeat split; assumption.
Qed.

(** The schema's ranges and enumerations hold of everything stored by a
    create, by an update with a plain object of schema paths, and by a
    delete. If every entry of a collection satisfies its schema's
    validators (mood and emotion in their enumerations, intensity in
    1..10, journal mood in 1..5, sentiment score in -1..1, content not
    empty, ...), so does every entry after a create, whatever its payload,
    after an update whose body is an object without operators, and after
    a delete: a value that would break a validator is refused, and the
    score the pre-save hook computes is itself in range. (An update
    document with operators is the database's to apply, and [$inc] and
    its like run no validator.) *)
Theorem stored_entries_stay_in_schema :
  (forall nts tz newId db now t (req : Mood.Request) ms,
      map_Forall (fun _ d => moodInSchema d = true) ms ->
      map_Forall (fun _ d => moodInSchema d = true)
        (Mood.createMood nts tz newId now req ms).2
      /\ ((exists b, Mood.req_body req = Mood.Object b []) ->
          map_Forall (fun _ d => moodInSchema d = true)
            (Mood.updateMood db t req ms).2)
      /\ map_Forall (fun _ d => moodInSchema d = true) (Mood.deleteMood req ms).2)
  /\ (forall newId db now t (req : Journal.Request) js,
        map_Forall (fun _ d => journalInSchema d = true) js ->
        map_Forall (fun _ d => journalInSchema d = true)
          (Journal.createJournal newId now req js).2
        /\ ((exists b, Journal.req_body req = Journal.Object b []) ->
            map_Forall (fun _ d => journalInSchema d = true)
              (Journal.updateJournal db t req js).2)
        /\ map_Forall (fun _ d => journalInSchema d = true)
             (Journal.deleteJournal req js).2).
Proof.
  split.
  - intros nts tz newId db now t req ms Hall. split; [| split].
    + apply mood_createMood_keeps; [| exact Hall].
      intros n b s d s' E Hs.
      destruct (mood_create_fields _ _ _ _ _ _ _ _ E) as (_ & _ & _ & _ & _ & _ & Hd).
      apply mood_create_inv in E as (_ & _ & ->).
      apply map_Forall_insert_2; assumption.
    + intros (b & Hb). unfold Mood.updateMood, Mood.findByIdAndUpdate. rewrite Hb.
      repeat case_match; simplify_eq; simpl; try exact Hall.
      apply map_Forall_insert_2; [| exact Hall].
      apply mood_update_in_schema; [assumption |]. eapply Hall; eassumption.
    + unfold Mood.deleteMood. repeat case_match; simpl; try exact Hall.
      apply map_Forall_delete. exact Hall.
  - intros newId db now t req js Hall. split; [| split].
    + apply journal_createJournal_keeps; [| exact Hall].
      intros n b s d s' E Hs.
      destruct (journal_create_fields _ _ _ _ _ _ E) as (_ & _ & _ & _ & _ & _ & Hd).
      apply journal_create_inv in E as (_ & _ & ->).
      apply map_Forall_insert_2; assumption.
    + intros (b & Hb). unfold Journal.updateJournal, Journal.findByIdAndUpdate.
      rewrite Hb.
      repeat case_match; simplify_eq; simpl; try exact Hall.
      apply map_Forall_insert_2; [| exact Hall].
      apply journal_update_in_schema; [assumption |]. eapply Hall; eassumption.
    + unfold Journal.deleteJournal. repeat case_match; simpl; try exact Hall.
      apply map_Forall_delete. exact Hall.
Qed.

(** The sample collection stays in the schema when Alice adds an array of
    entries and when Bob updates his entry with an object. With a
    database that applies [$inc], Bob's [$inc] of 100 on the intensity is
    stored as 108, outside the schema's range. *)
Lemma stored_entries_stay_in_schema_witness :
  map_Forall (fun _ d => moodInSchema d = true)
    (Mood.createMood Sample.showInteger Sample.utc (Sample.ids "m9") Sample.now
       (Sample.moodsRequest Sample.alice [Sample.forgedMood; Mood.emptyBody])
       Sample.threeMoods).2
  /\ map_Forall (fun _ d => moodInSchema d = true)
       (Mood.updateMood Cases.incrementing Sample.now
          (Sample.moodRequest Sample.bob "m1" Sample.forgedMood) Sample.threeMoods).2
  /\ (exists d,
        (Mood.updateMood Cases.incrementing Sample.now Cases.raiseIntensity
           Sample.threeMoods).2 !! "m1" = Some d
        /\ Mood.intensity d = 108%Q
        /\ moodInSchema d = false).
Proof.
  split; [| split].
  - exact (proj1 (proj1 stored_entries_stay_in_schema Sample.showInteger Sample.utc
                    (Sample.ids "m9") Cases.incrementing Sample.now Sample.now
                    (Sample.moodsRequest Sample.alice [Sample.forgedMood; Mood.emptyBody])
                    Sample.threeMoods threeMoods_in_schema)).
  - apply (proj1 (proj2 (proj1 stored_entries_stay_in_schema Sample.showInteger
                           Sample.utc (Sample.ids "m9") Cases.incrementing Sample.now
                           Sample.now
                           (Sample.moodRequest Sample.bob "m1" Sample.forgedMood)
                           Sample.threeMoods threeMoods_in_schema))).
    eexists. reflexivity.
  - eexists. split; [vm_compute; reflexivity |]. split; vm_compute; reflexivity.
Defined.

(** ** Distributions and breakdowns *)

Section Buckets.

Context {K A : Type} `{EqDecision K} (key : A -> K).

Lemma bucketOf_addToBucket (k k' : K) (x : A) (gs : list (K * list A)) :
  bucketOf k (addToBucket k' x gs)
  = if decide (k = k') then bucketOf k gs ++ [x] else bucketOf k gs.
Proof.
  induction gs as [| [k0 xs] r IH]; simpl.
  - destruct (decide (k = k')); reflexivity.
  - destruct (decide (k' = k0)) as [-> | Hne]; simpl.
    + destruct (decide (k = k0)); reflexivity.
    + destruct (decide (k = k0)) as [-> | Hne'].
      * destruct (decide (k0 = k')); [congruence | reflexivity].
      * exact IH.
Qed.

Lemma keys_addToBucket (k : K) (x : A) (gs : list (K * list A)) :
  (addToBucket k x gs).*1 = if decide (k ∈ gs.*1) then gs.*1 else gs.*1 ++ [k].
Proof.
  induction gs as [| [k0 xs] r IH].
  - destruct (decide (k ∈ ([] : list (K * list A)).*1)) as [Hin | _]; [| reflexivity].
    apply elem_of_nil in Hin. contradiction.
  - cbn [addToBucket]. destruct (decide (k = k0)) as [-> | Hne].
    + destruct (decide (k0 ∈ ((k0, xs) :: r).*1)) as [_ | Hnin]; [reflexivity |].
      exfalso. apply Hnin. apply list_elem_of_here.
    + change (((k0, xs) :: addToBucket k x r).*1) with (k0 :: (addToBucket k x r).*1).
      change (((k0, xs) :: r).*1) with (k0 :: r.*1).
      rewrite IH. destruct (decide (k ∈ r.*1)) as [Hin | Hnin].
      * destruct (decide (k ∈ k0 :: r.*1)) as [_ | Hn]; [reflexivity |].
        exfalso. apply Hn. apply list_elem_of_further. exact Hin.
      * destruct (decide (k ∈ k0 :: r.*1)) as [Hin | _]; [| reflexivity].
        apply elem_of_cons in Hin as [? | ?]; contradiction.
Qed.

Lemma nonempty_addToBucket (k : K) (x : A) (gs : list (K * list A)) :
  Forall (fun g => g.2 <> []) gs -> Forall (fun g => g.2 <> []) (addToBucket k x gs).
Proof.
  induction gs as [| [k0 xs] r IH]; simpl; intros Hall.
  - repeat constructor. discriminate.
  - apply Forall_cons in Hall as [H0 Hr].
    destruct (decide (k = k0)); constructor; simpl; auto.
    intros Habs. apply app_eq_nil in Habs as [_ ?]. discriminate.
Qed.

Lemma totalCount_addToBucket (k : K) (x : A) (gs : list (K * list A)) :
  totalCount (addToBucket k x gs) = S (totalCount gs).
Proof.
  induction gs as [| [k0 xs] r IH]; simpl; [reflexivity |].
  destruct (decide (k = k0)); simpl.
  - rewrite length_app. simpl. lia.
  - rewrite IH. lia.
Qed.

Lemma fold_buckets (l : list A) (acc : list (K * list A)) :
  let gs := fold_left (fun gs x => addToBucket (key x) x gs) l acc in
  (forall k, bucketOf k gs = bucketOf k acc ++ List.filter (inBucket key k) l)
  /\ (NoDup acc.*1 -> NoDup gs.*1)
  /\ (forall k, k ∈ gs.*1 <-> k ∈ acc.*1 \/ exists x, x ∈ l /\ key x = k)
  /\ (Forall (fun g => g.2 <> []) acc -> Forall (fun g => g.2 <> []) gs)
  /\ totalCount gs = totalCount acc + length l.
Proof.
  revert acc. induction l as [| x l IH]; intros acc; simpl.
  - split; [intros; symmetry; apply app_nil_r |]. split; [auto |].
    split; [| split; [auto | lia]].
    intros k. split; [auto |]. intros [? | (x & Hx & _)]; [auto |].
    apply elem_of_nil in Hx. contradiction.
  - destruct (IH (addToBucket (key x) x acc)) as (Hg & Hnd & Hk & Hne & Htot).
    split; [| split; [| split; [| split]]].
    + intros k. rewrite Hg, bucketOf_addToBucket. unfold inBucket at 2.
      destruct (decide (k = key x)) as [-> | Hne'].
      * rewrite bool_decide_eq_true_2 by reflexivity.
        rewrite <- app_assoc. reflexivity.
      * rewrite bool_decide_eq_false_2 by congruence. reflexivity.
    + intros Hacc. apply Hnd. rewrite keys_addToBucket.
      destruct (decide (key x ∈ acc.*1)); [exact Hacc |].
      apply NoDup_app. split; [exact Hacc |]. split; [| apply NoDup_singleton].
      intros y Hy ->%list_elem_of_singleton. contradiction.
    + intros k. rewrite Hk, keys_addToBucket. split.
      * intros [Hin | (y & Hy & Hky)].
        -- destruct (decide (key x ∈ acc.*1)); [left; exact Hin |].
           apply elem_of_app in Hin as [Hin | ->%list_elem_of_singleton];
             [left; exact Hin |].
           right. exists x. split; [apply list_elem_of_here | reflexivity].
        -- right. exists y. split; [apply list_elem_of_further; exact Hy | exact Hky].
      * intros [Hin | (y & Hy & Hky)].
        -- left. destruct (decide (key x ∈ acc.*1)); [exact Hin |].
           apply elem_of_app. left. exact Hin.
        -- apply elem_of_cons in Hy as [-> | Hy].
           ++ left. subst k. destruct (decide (key x ∈ acc.*1)) as [Hin | Hnin];
                [exact Hin |]. apply elem_of_app. right. apply list_elem_of_here.
           ++ right. exists y. auto.
    + intros Hacc. apply Hne, nonempty_addToBucket, Hacc.
    + rewrite Htot, totalCount_addToBucket. lia.
Qed.

Lemma bucketOf_elem_of (k : K) (xs : list A) (gs : list (K * list A)) :
  NoDup gs.*1 -> (k, xs) ∈ gs -> bucketOf k gs = xs.
Proof.
  induction gs as [| [k0 ys] r IH]; simpl; intros Hnd Hin.
  - apply elem_of_nil in Hin. contradiction.
  - apply NoDup_cons in Hnd as [Hk0 Hnd].
    apply elem_of_cons in Hin as [[= -> ->] | Hin].
    + rewrite decide_True by reflexivity. reflexivity.
    + destruct (decide (k = k0)) as [-> | Hne]; [| auto].
      exfalso. apply Hk0. apply list_elem_of_fmap. exists (k0, xs). auto.
Qed.

(** What [$group] makes of a list, for any key: one bucket per key that
    occurs, holding the documents with that key, and as many documents in
    all as the list has. *)
Lemma bucketBy_spec (l : list A) :
  NoDup (bucketBy key l).*1
  /\ (forall k xs, (k, xs) ∈ bucketBy key l ->
        xs = List.filter (inBucket key k) l /\ xs <> [])
  /\ (forall x, x ∈ l -> exists xs, (key x, xs) ∈ bucketBy key l)
  /\ totalCount (bucketBy key l) = length l.
Proof.
  unfold bucketBy. destruct (fold_buckets l []) as (Hg & Hnd & Hk & Hne & Htot).
  simpl in *. specialize (Hnd (NoDup_nil_2)). specialize (Hne (Forall_nil_2 _)).
  split; [exact Hnd |]. split; [| split; [| exact Htot]].
  - intros k xs Hin. split.
    + rewrite <- (Hg k). symmetry. apply bucketOf_elem_of; assumption.
    + rewrite Forall_forall in Hne. apply (Hne (k, xs) Hin).
  - intros x Hx.
    assert (Hkx : key x ∈ (fold_left (fun gs x => addToBucket (key x) x gs) l []).*1).
    { apply Hk. right. eauto. }
    apply list_elem_of_fmap in Hkx as ([k xs] & Heq & Hin). simpl in Heq. subst k.
    eauto.
Qed.

End Buckets.

Lemma totalCount_Permutation {K A : Type} (gs gs' : list (K * list A)) :
  gs ≡ₚ gs' -> totalCount gs = totalCount gs'.
Proof.
  induction 1; simpl; try lia.
Qed.

Lemma totalCount_counts {K A B : Type} (f : K * list A -> B) (count : B -> nat)
    (gs : list (K * list A)) :
  (forall g, count (f g) = length g.2) ->
  foldr (fun e n => count e + n) 0 (map f gs) = totalCount gs.
Proof.
  intros Hc. induction gs as [| g r IH]; simpl; [reflexivity |].
  rewrite Hc, IH. reflexivity.
Qed.

#[local] Instance countGe_trans {K A : Type} : Transitive (@countGe K A).
Proof. intros x y z. unfold countGe. lia. Qed.
#[local] Instance countGe_total {K A : Type} : Total (@countGe K A).
Proof. intros x y. unfold countGe. lia. Qed.

(** [$group] then [$sort] by count: the labels that occur, each once, by
    descending count, each with its documents. *)
Lemma sorted_buckets_spec {K A : Type} `{EqDecision K} (key : A -> K) (l : list A) :
  let sg := sortByCount (bucketBy key l) in
  StronglySorted (fun g1 g2 => length g2.2 <= length g1.2) sg
  /\ NoDup sg.*1
  /\ (forall g, g ∈ sg -> g.2 = List.filter (inBucket key g.1) l /\ g.2 <> [])
  /\ (forall x, x ∈ l -> exists g, g ∈ sg /\ g.1 = key x)
  /\ totalCount sg = length l.
Proof.
  intros sg. destruct (bucketBy_spec key l) as (Hnd & Hin & Hall & Htot).
  assert (Hperm : sg ≡ₚ bucketBy key l) by apply merge_sort_Permutation.
  split; [| split; [| split; [| split]]].
  - apply (StronglySorted_merge_sort countGe).
  - rewrite Hperm. exact Hnd.
  - intros [k xs] Hg. rewrite Hperm in Hg. apply Hin. exact Hg.
  - intros x Hx. destruct (Hall x Hx) as (xs & Hg). exists (key x, xs).
    rewrite Hperm. auto.
  - rewrite (totalCount_Permutation _ _ Hperm). exact Htot.
Qed.

Lemma sumQ_bounds (lo hi : Q) (l : list Q) (acc : Q) :
  Forall (fun x => lo <= x /\ x <= hi)%Q l ->
  (acc + inject_Z (Z.of_nat (length l)) * lo <= fold_left Qplus l acc
   /\ fold_left Qplus l acc <= acc + inject_Z (Z.of_nat (length l)) * hi)%Q.
Proof.
  revert acc. induction l as [| x l IH]; intros acc Hall.
  - simpl. split; ring_simplify; apply Qle_refl.
  - apply Forall_cons in Hall as [[Hlo Hhi] Hall].
    destruct (IH (acc + x)%Q Hall) as [IH1 IH2].
    cbn [fold_left length]. rewrite Nat2Z.inj_succ, <- Z.add_1_r, inject_Z_plus.
    split.
    + eapply Qle_trans; [| exact IH1].
      assert (E : (acc + (inject_Z (Z.of_nat (length l)) + inject_Z 1) * lo
                   == acc + lo + inject_Z (Z.of_nat (length l)) * lo)%Q) by ring.
      rewrite E.
      apply Qplus_le_compat; [| apply Qle_refl].
      apply Qplus_le_compat; [apply Qle_refl | exact Hlo].
    + eapply Qle_trans; [exact IH2 |].
      assert (E : (acc + (inject_Z (Z.of_nat (length l)) + inject_Z 1) * hi
                   == acc + hi + inject_Z (Z.of_nat (length l)) * hi)%Q) by ring.
      rewrite E.
      apply Qplus_le_compat; [| apply Qle_refl].
      apply Qplus_le_compat; [apply Qle_refl | exact Hhi].
Qed.

(** The average of a non-empty group is a number, and lies between any
    bounds that hold of the group's values. *)
Lemma avg_of_nonempty (lo hi : Q) (l : list Q) :
  l <> [] -> Forall (fun x => lo <= x /\ x <= hi)%Q l ->
  exists a, avg l = Some a /\ (lo <= a /\ a <= hi)%Q.
Proof.
  intros Hne Hall. unfold avg, jsDiv.
  set (n := inject_Z (Z.of_nat (length l))).
  assert (Hpos : (0 < n)%Q).
  { unfold n. rewrite <- (Zlt_Qlt 0). destruct l; [congruence | simpl; lia]. }
  destruct (Qeq_bool n 0) eqn:E.
  - apply Qeq_bool_iff in E. rewrite E in Hpos. exfalso. apply (Qlt_irrefl 0 Hpos).
  - eexists. split; [reflexivity |].
    destruct (sumQ_bounds lo hi l 0 Hall) as [H1 H2]. fold n in H1, H2.
    rewrite Qred_correct. unfold sumQ. split.
    + apply Qle_shift_div_l; [exact Hpos |].
      eapply Qle_trans; [| exact H1]. ring_simplify. apply Qle_refl.
    + apply Qle_shift_div_r; [exact Hpos |].
      eapply Qle_trans; [exact H2 |]. ring_simplify. apply Qle_refl.
Qed.

Lemma avg_is_Some (l : list Q) : l <> [] -> is_Some (avg l).
Proof.
  intros Hne. unfold avg, jsDiv.
  destruct (Qeq_bool _ 0) eqn:E; [| eauto].
  apply Qeq_bool_iff in E. exfalso.
  assert (H0 : (0 < inject_Z (Z.of_nat (length l)))%Q).
  { rewrite <- (Zlt_Qlt 0). destruct l; [congruence | simpl; lia]. }
  rewrite E in H0. apply (Qlt_irrefl 0 H0).
Qed.

Lemma totalCount_addToGroup {A : Type} (k : Z) (x : A) (gs : list (Z * list A)) :
  totalCount (addToGroup k x gs) = S (totalCount gs).
Proof.
  induction gs as [| [k0 xs] r IH]; simpl; [reflexivity |].
  destruct (Z.eqb k k0); simpl.
  - rewrite length_app. simpl. lia.
  - rewrite IH. lia.
Qed.

Lemma totalCount_groupBy {A : Type} (key : A -> Z) (l : list A) :
  totalCount (groupBy key l) = length l.
Proof.
  unfold groupBy.
  assert (H : forall acc,
             totalCount (fold_left (fun gs x => addToGroup (key x) x gs) l acc)
             = totalCount acc + length l).
  { induction l as [| x l IH]; intros acc; simpl; [lia |].
    rewrite IH, totalCount_addToGroup. lia. }
  apply H.
Qed.

Lemma totalCount_sortByKey {A : Type} (key : A -> Z) (l : list A) :
  totalCount (sortByKey (groupBy key l)) = length l.
Proof.
  unfold sortByKey.
  rewrite (totalCount_Permutation _ _ (merge_sort_Permutation keyLe (groupBy key l))).
  apply totalCount_groupBy.
Qed.

Lemma dayOfWeek_range (t : Z) : (1 <= dayOfWeek t <= 7)%Z.
Proof.
  unfold dayOfWeek. pose proof (Z.mod_pos_bound (dayOf t + 4) 7). lia.
Qed.

Lemma hourOf_range (t : Z) : (0 <= hourOf t <= 23)%Z.
Proof.
  unfold hourOf, msPerDay.
  pose proof (Z.mod_pos_bound t 86400000 ltac:(lia)) as [H0 H1].
  split.
  - apply Z.div_pos; lia.
  - assert (t mod 86400000 / 3600000 < 24)%Z; [| lia].
    apply Z.div_lt_upper_bound; lia.
Qed.

(** The mood and emotion distributions. [moodDistribution] and the
    journal's [moodStats] hold one entry per label that occurs among the
    user's entries, each label once, by descending count; the count of a
    label is the number of the user's entries that carry it, never zero,
    and the counts add up to the number of the user's entries; the average
    intensity of a mood is always a number. *)
Theorem distributions_count_every_entry_once :
  forall (u : AuthUser) (ms : gmap ObjectId Mood.doc) (js : gmap ObjectId Journal.doc),
    let dist := MoodStats.moodDistribution u ms in
    let stats := JournalStats.moodStats u js in
    (NoDup (map MoodStats.d_mood dist)
     /\ StronglySorted (fun a b => MoodStats.d_count b <= MoodStats.d_count a) dist
     /\ (forall e, e ∈ dist ->
           MoodStats.d_count e
           = length (List.filter
                       (fun d => (MoodStats.ownedBy u d
                                  && inBucket Mood.mood (MoodStats.d_mood e) d)%bool)
                       (scan ms))
           /\ 1 <= MoodStats.d_count e
           /\ is_Some (MoodStats.d_avgIntensity e))
     /\ (forall d, d ∈ scan ms -> Mood.user d = id u ->
           exists e, e ∈ dist /\ MoodStats.d_mood e = Mood.mood d)
     /\ foldr (fun e n => MoodStats.d_count e + n) 0 dist
        = length (List.filter (MoodStats.ownedBy u) (scan ms)))
    /\
    (NoDup (map JournalStats.e_label stats)
     /\ StronglySorted
          (fun a b => JournalStats.e_count b <= JournalStats.e_count a) stats
     /\ (forall e, e ∈ stats ->
           JournalStats.e_count e
           = length (List.filter
                       (fun d => (Journal.ownedBy u d
                                  && inBucket Journal.emotion
                                       (JournalStats.e_label e) d)%bool)
                       (scan js))
           /\ 1 <= JournalStats.e_count e)
     /\ (forall d, d ∈ scan js -> Journal.user d = id u ->
           exists e, e ∈ stats /\ JournalStats.e_label e = Journal.emotion d)
     /\ foldr (fun e n => JournalStats.e_count e + n) 0 stats
        = length (List.filter (Journal.ownedBy u) (scan js))).
Proof.
  intros u ms js dist stats. split.
  - subst dist. unfold MoodStats.moodDistribution.
    set (mine := List.filter (MoodStats.ownedBy u) (scan ms)).
    destruct (sorted_buckets_spec Mood.mood mine) as (Hs & Hnd & Hg & Hall & Htot).
    set (sg := sortByCount (bucketBy Mood.mood mine)) in *.
    split; [| split; [| split; [| split]]].
    + rewrite map_map. exact Hnd.
    + apply StronglySorted_map. exact Hs.
    + intros e He. apply list_elem_of_fmap in He as (g & -> & Hin).
      destruct (Hg g Hin) as [Hmem Hne]. simpl.
      split; [| split].
      * rewrite Hmem at 1. subst mine. rewrite filter_filter_andb. reflexivity.
      * destruct (g.2); [congruence | simpl; lia].
      * apply avg_is_Some. destruct (g.2); [congruence | discriminate].
    + intros d Hd Hu.
      assert (Hm : d ∈ mine).
      { apply elem_of_List_filter. split; [exact Hd |].
        unfold MoodStats.ownedBy. apply String.eqb_eq. exact Hu. }
      destruct (Hall d Hm) as (g & Hin & Hk).
      exists (MoodStats.distributionEntry g). split; [| exact Hk].
      apply list_elem_of_fmap. eauto.
    + rewrite (totalCount_counts MoodStats.distributionEntry MoodStats.d_count)
        by reflexivity.
      exact Htot.
  - subst stats. unfold JournalStats.moodStats.
    set (mine := List.filter (Journal.ownedBy u) (scan js)).
    destruct (sorted_buckets_spec Journal.emotion mine) as (Hs & Hnd & Hg & Hall & Htot).
    set (sg := sortByCount (bucketBy Journal.emotion mine)) in *.
    split; [| split; [| split; [| split]]].
    + rewrite map_map. exact Hnd.
    + apply StronglySorted_map. exact Hs.
    + intros e He. apply list_elem_of_fmap in He as (g & -> & Hin).
      destruct (Hg g Hin) as [Hmem Hne]. simpl.
      split.
      * rewrite Hmem at 1. subst mine. rewrite filter_filter_andb. reflexivity.
      * destruct (g.2); [congruence | simpl; lia].
    + intros d Hd Hu.
      assert (Hm : d ∈ mine).
      { apply elem_of_List_filter. split; [exact Hd |].
        unfold Journal.ownedBy. apply String.eqb_eq. exact Hu. }
      destruct (Hall d Hm) as (g & Hin & Hk).
      exists (JournalStats.countEntry g). split; [| exact Hk].
      apply list_elem_of_fmap. eauto.
    + rewrite (totalCount_counts JournalStats.countEntry JournalStats.e_count)
        by reflexivity.
      exact Htot.
Qed.

(** Bob's two entries are counted, Alice's is not. *)
Lemma distributions_count_every_entry_once_witness :
  foldr (fun e n => MoodStats.d_count e + n) 0
    (MoodStats.moodDistribution Sample.bob Sample.threeMoods) = 2.
Proof.
  destruct (distributions_count_every_entry_once Sample.bob Sample.threeMoods
              Sample.journals) as ((_ & _ & _ & _ & H) & _).
  etransitivity; [exact H | vm_compute; reflexivity].
Defined.

(** The breakdowns by day of the week and by hour. [moodByDay] has keys
    between 1 and 7 and [moodByHour] keys between 0 and 23, in strictly
    ascending order; an entry's count is the number of the user's mood
    entries that fall on its key, never zero, and in each breakdown the
    counts add up to the number of the user's entries. *)
Theorem breakdowns_partition_the_entries :
  forall (u : AuthUser) (ms : gmap ObjectId Mood.doc),
    let byDay := MoodStats.moodByDay u ms in
    let byHour := MoodStats.moodByHour u ms in
    let total := length (List.filter (MoodStats.ownedBy u) (scan ms)) in
    (StronglySorted (fun a b => (MoodStats.k_key a < MoodStats.k_key b)%Z) byDay
     /\ (forall e, e ∈ byDay ->
           (1 <= MoodStats.k_key e <= 7)%Z
           /\ 1 <= MoodStats.k_count e
           /\ MoodStats.k_count e
              = length (List.filter
                          (fun d => (MoodStats.ownedBy u d
                                     && onDay (fun d => dayOfWeek (Mood.createdAt d))
                                          (MoodStats.k_key e) d)%bool)
                          (scan ms)))
     /\ foldr (fun e n => MoodStats.k_count e + n) 0 byDay = total)
    /\
    (StronglySorted (fun a b => (MoodStats.k_key a < MoodStats.k_key b)%Z) byHour
     /\ (forall e, e ∈ byHour ->
           (0 <= MoodStats.k_key e <= 23)%Z
           /\ 1 <= MoodStats.k_count e
           /\ MoodStats.k_count e
              = length (List.filter
                          (fun d => (MoodStats.ownedBy u d
                                     && onDay (fun d => hourOf (Mood.createdAt d))
                                          (MoodStats.k_key e) d)%bool)
                          (scan ms)))
     /\ foldr (fun e n => MoodStats.k_count e + n) 0 byHour = total).
Proof.
  intros u ms byDay byHour total.
  assert (Hgen : forall key : Mood.doc -> Z,
    let l := map MoodStats.breakdownEntry
               (sortByKey (groupBy key (List.filter (MoodStats.ownedBy u) (scan ms)))) in
    StronglySorted (fun a b => (MoodStats.k_key a < MoodStats.k_key b)%Z) l
    /\ (forall e, e ∈ l ->
          (exists d, MoodStats.k_key e = key d)
          /\ 1 <= MoodStats.k_count e
          /\ MoodStats.k_count e
             = length (List.filter
                         (fun d => (MoodStats.ownedBy u d
                                    && onDay key (MoodStats.k_key e) d)%bool)
                         (scan ms)))
    /\ foldr (fun e n => MoodStats.k_count e + n) 0 l = total).
  { intros key l. subst l.
    set (mine := List.filter (MoodStats.ownedBy u) (scan ms)).
    destruct (sorted_groups_spec key mine) as (Hs & Hg & _).
    split; [| split].
    - apply StronglySorted_map. exact Hs.
    - intros e He. apply list_elem_of_fmap in He as (g & -> & Hin).
      destruct (Hg g Hin) as [Hmem Hne]. simpl.
      split; [| split].
      + destruct (filter_nonempty_witness (onDay key g.1) mine) as (d & _ & Hd).
        { rewrite <- Hmem. exact Hne. }
        exists d. unfold onDay in Hd. apply Z.eqb_eq in Hd. congruence.
      + destruct (g.2); [congruence | simpl; lia].
      + rewrite Hmem at 1. subst mine. rewrite filter_filter_andb. reflexivity.
    - rewrite (totalCount_counts MoodStats.breakdownEntry MoodStats.k_count)
        by reflexivity.
      apply totalCount_sortByKey. }
  split.
  - destruct (Hgen (fun d => dayOfWeek (Mood.createdAt d))) as (H1 & H2 & H3).
    split; [exact H1 |]. split; [| exact H3].
    intros e He. destruct (H2 e He) as ((d & Hk) & Hc & Hn).
    split; [rewrite Hk; apply dayOfWeek_range | auto].
  - destruct (Hgen (fun d => hourOf (Mood.createdAt d))) as (H1 & H2 & H3).
    split; [exact H1 |]. split; [| exact H3].
    intros e He. destruct (H2 e He) as ((d & Hk) & Hc & Hn).
    split; [rewrite Hk; apply hourOf_range | auto].
Qed.

(** Bob's entries fall on a Tuesday and a Wednesday, both in hour 22. *)
Lemma breakdowns_partition_the_entries_witness :
  map MoodStats.k_key (MoodStats.moodByDay Sample.bob Sample.threeMoods) = [3; 4]%Z
  /\ foldr (fun e n => MoodStats.k_count e + n) 0
       (MoodStats.moodByHour Sample.bob Sample.threeMoods) = 2.
Proof.
  destruct (breakdowns_partition_the_entries Sample.bob Sample.threeMoods)
    as (_ & _ & _ & H).
  split; [vm_compute; reflexivity |].
  etransitivity; [exact H | vm_compute; reflexivity].
Defined.

Section Unwinding.

Context {D : Type} (arr : D -> list string).

Local Abbreviation unwound l := (flat_map (fun d => map (fun a => (a, d)) (arr d)) l).

Lemma unwound_labels (l : list D) : map fst (unwound l) = concat (map arr l).
Proof.
  induction l as [| d l IH]; simpl; [reflexivity |].
  rewrite map_app, IH, map_map. simpl. rewrite map_id. reflexivity.
Qed.

Lemma unwound_skips_empty (keep : D -> bool) (l : list D) :
  unwound (List.filter (fun d => (keep d && negb (Nat.eqb (length (arr d)) 0))%bool) l)
  = unwound (List.filter keep l).
Proof.
  induction l as [| d l IH]; simpl; [reflexivity |].
  destruct (keep d); simpl; [| exact IH].
  destruct (arr d) as [| a r] eqn:Harr; simpl.
  - rewrite ?Harr. simpl. exact IH.
  - rewrite ?Harr. simpl. rewrite IH. reflexivity.
Qed.

Lemma occurrences_of_label (k : string) (pairs : list (string * D)) :
  length (List.filter (inBucket (fun p : string * D => p.1) k) pairs)
  = length (List.filter (inBucket (fun a : string => a) k) (map fst pairs)).
Proof.
  induction pairs as [| [a d] r IH]; [reflexivity |].
  cbn [List.filter map fst].
  change (inBucket (fun p : string * D => p.1) k (a, d)) with (bool_decide (a = k)).
  change (inBucket (fun a : string => a) k a) with (bool_decide (a = k)).
  destruct (bool_decide (a = k)); cbn [length]; rewrite IH; reflexivity.
Qed.

(** Unwind, group by the element, sort by count: one group per string
    that occurs in the arrays, by descending count, each as large as the
    number of times the string occurs. *)
Lemma unwound_buckets_spec (l : list D) :
  let all := concat (map arr l) in
  let sg := sortByCount (bucketBy (fun p : string * D => p.1) (unwound l)) in
  StronglySorted (fun g1 g2 => length g2.2 <= length g1.2) sg
  /\ NoDup sg.*1
  /\ (forall g, g ∈ sg ->
        length g.2 = length (List.filter (inBucket (fun a : string => a) g.1) all)
        /\ 1 <= length g.2)
  /\ (forall a, a ∈ all -> exists g, g ∈ sg /\ g.1 = a)
  /\ totalCount sg = length all.
Proof.
  intros all sg.
  destruct (sorted_buckets_spec (fun p : string * D => p.1)
              (flat_map (fun d => map (fun a => (a, d)) (arr d)) l))
    as (Hs & Hnd & Hg & Hall & Htot).
  fold sg in Hs, Hnd, Hg, Hall, Htot.
  split; [exact Hs |]. split; [exact Hnd |]. split; [| split].
  - intros g Hin. destruct (Hg g Hin) as [Hmem Hne]. split.
    + rewrite Hmem at 1. rewrite occurrences_of_label, unwound_labels. reflexivity.
    + destruct (g.2); [congruence | simpl; lia].
  - intros a Ha. subst all. rewrite <- unwound_labels in Ha.
    apply list_elem_of_fmap in Ha as (p & -> & Hp). apply Hall. exact Hp.
  - rewrite Htot. subst all. rewrite <- unwound_labels, length_map. reflexivity.
Qed.

End Unwinding.

(** The statistics over arrays. [activitiesCorrelation] and [tagStats]
    count occurrences: an entry's count is the number of times its
    activity, or tag, occurs in the arrays of the user's entries (an entry
    with an empty array adds nothing, a string repeated in one array
    counts each time), labels are distinct and ordered by descending
    count. Every activity that occurs has an entry and the counts add up
    to the number of occurrences. Of the tags at most ten are kept, and a
    tag that is left out occurs no more often than any tag that is kept. *)
Theorem array_statistics_count_occurrences :
  forall (u : AuthUser) (ms : gmap ObjectId Mood.doc) (js : gmap ObjectId Journal.doc),
    let corr := MoodStats.activitiesCorrelation u ms in
    let acts := concat (map Mood.activities (List.filter (MoodStats.ownedBy u) (scan ms))) in
    let top := JournalStats.tagStats u js in
    let tags := concat (map Journal.tags (List.filter (Journal.ownedBy u) (scan js))) in
    let occurrences := fun (k : string) (l : list string) =>
                         length (List.filter (inBucket (fun a : string => a) k) l) in
    (NoDup (map MoodStats.c_activity corr)
     /\ StronglySorted (fun a b => MoodStats.c_count b <= MoodStats.c_count a) corr
     /\ (forall e, e ∈ corr ->
           MoodStats.c_count e = occurrences (MoodStats.c_activity e) acts
           /\ 1 <= MoodStats.c_count e)
     /\ (forall a, a ∈ acts -> exists e, e ∈ corr /\ MoodStats.c_activity e = a)
     /\ foldr (fun e n => MoodStats.c_count e + n) 0 corr = length acts)
    /\
    (length top <= 10
     /\ NoDup (map JournalStats.e_label top)
     /\ StronglySorted (fun a b => JournalStats.e_count b <= JournalStats.e_count a) top
     /\ (forall e, e ∈ top ->
           JournalStats.e_count e = occurrences (JournalStats.e_label e) tags
           /\ 1 <= JournalStats.e_count e)
     /\ (forall t, t ∈ tags ->
           (exists e, e ∈ top /\ JournalStats.e_label e = t)
           \/ (length top = 10
               /\ forall e, e ∈ top -> occurrences t tags <= JournalStats.e_count e))).
Proof.
  intros u ms js corr acts top tags occurrences. split.
  - subst corr. unfold MoodStats.activitiesCorrelation, MoodStats.unwindActivities,
      MoodStats.hasActivities.
    rewrite (unwound_skips_empty Mood.activities (MoodStats.ownedBy u)).
    destruct (unwound_buckets_spec Mood.activities
                (List.filter (MoodStats.ownedBy u) (scan ms)))
      as (Hs & Hnd & Hg & Hall & Htot).
    fold acts in Hg, Hall, Htot.
    split; [| split; [| split; [| split]]].
    + rewrite map_map. exact Hnd.
    + apply StronglySorted_map. exact Hs.
    + intros e He. apply list_elem_of_fmap in He as (g & -> & Hin).
      exact (Hg g Hin).
    + intros a Ha. destruct (Hall a Ha) as (g & Hin & Hk).
      exists (MoodStats.correlationEntry g). split; [| exact Hk].
      apply list_elem_of_fmap. eauto.
    + rewrite (totalCount_counts MoodStats.correlationEntry MoodStats.c_count)
        by reflexivity.
      exact Htot.
  - subst top. unfold JournalStats.tagStats, JournalStats.unwindTags,
      JournalStats.hasTags.
    rewrite (unwound_skips_empty Journal.tags (Journal.ownedBy u)).
    destruct (unwound_buckets_spec Journal.tags
                (List.filter (Journal.ownedBy u) (scan js)))
      as (Hs & Hnd & Hg & Hall & _).
    fold tags in Hg, Hall.
    set (sg := sortByCount _) in *.
    split; [| split; [| split; [| split]]].
    + rewrite length_map, length_take. lia.
    + rewrite map_map.
      eapply sublist_NoDup; [exact Hnd |].
      apply (fmap_sublist fst (take 10 sg) sg). apply sublist_take.
    + apply StronglySorted_map.
      eapply StronglySorted_sublist; [apply sublist_take | exact Hs].
    + intros e He. apply list_elem_of_fmap in He as (g & -> & Hin).
      apply (sublist_subseteq _ _ (sublist_take sg 10)) in Hin.
      exact (Hg g Hin).
    + intros t Ht. destruct (Hall t Ht) as (g & Hin & Hk).
      rewrite <- (take_drop 10 sg) in Hin, Hs.
      apply elem_of_app in Hin as [Hin | Hin].
      * left. exists (JournalStats.countEntry g). split; [| exact Hk].
        apply list_elem_of_fmap. eauto.
      * right. split.
        -- rewrite length_map, length_take.
           assert (10 < length sg); [| lia].
           destruct (decide (10 < length sg)) as [? | Hn]; [assumption |].
           rewrite drop_ge in Hin by lia. apply elem_of_nil in Hin. contradiction.
        -- intros e He. apply list_elem_of_fmap in He as (g' & -> & Hin').
           simpl.
           pose proof (StronglySorted_app_1_elem_of _ _ _ _ _ Hs Hin' Hin) as Hle.
           simpl in Hle.
           assert (Hgin : g ∈ sg).
           { rewrite <- (take_drop 10 sg). apply elem_of_app. right. exact Hin. }
           destruct (Hg g Hgin) as [Hcount _]. rewrite Hk in Hcount.
           unfold occurrences. rewrite <- Hcount. exact Hle.
Qed.

(** Bob named one activity, once. *)
Lemma array_statistics_count_occurrences_witness :
  foldr (fun e n => MoodStats.c_count e + n) 0
    (MoodStats.activitiesCorrelation Sample.bob Sample.threeMoods) = 1
  /\ length (JournalStats.tagStats Sample.bob Sample.journals) <= 10.
Proof.
  destruct (array_statistics_count_occurrences Sample.bob Sample.threeMoods
              Sample.journals) as ((_ & _ & _ & _ & H) & (Hten & _)).
  split; [etransitivity; [exact H | vm_compute; reflexivity] | exact Hten].
Defined.

Lemma avg_of_group {D : Type} (f : D -> Q) (lo hi : Q) (xs : list D) :
  xs <> [] -> (forall x, x ∈ xs -> (lo <= f x /\ f x <= hi)%Q) ->
  exists a, avg (map f xs) = Some a /\ (lo <= a /\ a <= hi)%Q.
Proof.
  intros Hne Hall. apply avg_of_nonempty.
  - destruct xs; [congruence | discriminate].
  - apply Forall_fmap, Forall_forall. exact Hall.
Qed.

Lemma mood_intensity_on_scale (d : Mood.doc) :
  moodInSchema d = true -> (1 <= Mood.intensity d /\ Mood.intensity d <= 10)%Q.
Proof.
  unfold moodInSchema, Mood.checkIntensity, inRange. rewrite !andb_true_iff.
  intros (((_ & H1 & H2) & _) & _). split; apply Qle_bool_iff; assumption.
Qed.

Lemma journal_mood_on_scale (d : Journal.doc) :
  journalInSchema d = true -> (1 <= Journal.mood d /\ Journal.mood d <= 5)%Q.
Proof.
  unfold journalInSchema, Journal.checkMood, inRange. rewrite !andb_true_iff.
  intros (((_ & H1 & H2) & _) & _). split; apply Qle_bool_iff; assumption.
Qed.

Lemma in_schema_of_scan {A : Type} (P : A -> bool) (s : gmap ObjectId A) (d : A) :
  map_Forall (fun _ d => P d = true) s -> d ∈ scan s -> P d = true.
Proof. intros Hall [k Hk]%elem_of_scan. exact (Hall k d Hk). Qed.

(** Averages stay on the scale. In a collection whose entries satisfy the
    schema, every average the statistics report is a number on the scale
    of what it averages: between 1 and 10 for the average intensity of a
    mood, of a day, of a day of the week, of an hour and of an activity,
    and between 1 and 5 for a journal day's average mood. *)
Theorem averages_stay_on_the_scale :
  forall (tz : TimeZone) (now : Z) (u : AuthUser)
         (ms : gmap ObjectId Mood.doc) (js : gmap ObjectId Journal.doc),
    map_Forall (fun _ d => moodInSchema d = true) ms ->
    map_Forall (fun _ d => journalInSchema d = true) js ->
    (forall e, e ∈ MoodStats.moodDistribution u ms ->
       exists a, MoodStats.d_avgIntensity e = Some a /\ (1 <= a /\ a <= 10)%Q)
    /\ (forall e, e ∈ Mood.moodTimeline tz now u ms ->
          exists a, Mood.t_avgIntensity e = Some a /\ (1 <= a /\ a <= 10)%Q)
    /\ (forall e, e ∈ MoodStats.moodByDay u ms ->
          exists a, MoodStats.k_avgIntensity e = Some a /\ (1 <= a /\ a <= 10)%Q)
    /\ (forall e, e ∈ MoodStats.moodByHour u ms ->
          exists a, MoodStats.k_avgIntensity e = Some a /\ (1 <= a /\ a <= 10)%Q)
    /\ (forall e, e ∈ MoodStats.activitiesCorrelation u ms ->
          exists a, MoodStats.c_avgIntensity e = Some a /\ (1 <= a /\ a <= 10)%Q)
    /\ (forall e, e ∈ Journal.journalTimeline u js ->
          exists a, Journal.t_avgMood e = Some a /\ (1 <= a /\ a <= 5)%Q).
Proof.
  intros tz now u ms js Hms Hjs.
  assert (Hmood : forall (f : Mood.doc -> bool) (xs : list Mood.doc),
             xs = List.filter f (scan ms) -> xs <> [] ->
             exists a, avg (map Mood.intensity xs) = Some a /\ (1 <= a /\ a <= 10)%Q).
  { intros f xs -> Hne. apply avg_of_group; [exact Hne |].
    intros d Hd. apply elem_of_List_filter in Hd as [Hd _].
    apply mood_intensity_on_scale. exact (in_schema_of_scan _ _ _ Hms Hd). }
  split; [| split; [| split; [| split; [| split]]]].
  - intros e He. unfold MoodStats.moodDistribution in He.
    apply list_elem_of_fmap in He as (g & -> & Hin).
    destruct (sorted_buckets_spec Mood.mood
                (List.filter (MoodStats.ownedBy u) (scan ms))) as (_ & _ & Hg & _).
    destruct (Hg g Hin) as [Hmem Hne]. simpl.
    rewrite filter_filter_andb in Hmem. eapply Hmood; eassumption.
  - intros e He. unfold Mood.moodTimeline in He.
    apply list_elem_of_fmap in He as (g & -> & Hin).
    destruct (sorted_groups_spec (fun d => dayOf (Mood.createdAt d))
                (List.filter (Mood.inWindow u (daysAgo tz 30 now)) (scan ms)))
      as (_ & Hg & _).
    destruct (Hg g Hin) as [Hmem Hne]. simpl.
    rewrite filter_filter_andb in Hmem. eapply Hmood; eassumption.
  - intros e He. unfold MoodStats.moodByDay in He.
    apply list_elem_of_fmap in He as (g & -> & Hin).
    destruct (sorted_groups_spec (fun d => dayOfWeek (Mood.createdAt d))
                (List.filter (MoodStats.ownedBy u) (scan ms))) as (_ & Hg & _).
    destruct (Hg g Hin) as [Hmem Hne]. simpl.
    rewrite filter_filter_andb in Hmem. eapply Hmood; eassumption.
  - intros e He. unfold MoodStats.moodByHour in He.
    apply list_elem_of_fmap in He as (g & -> & Hin).
    destruct (sorted_groups_spec (fun d => hourOf (Mood.createdAt d))
                (List.filter (MoodStats.ownedBy u) (scan ms))) as (_ & Hg & _).
    destruct (Hg g Hin) as [Hmem Hne]. simpl.
    rewrite filter_filter_andb in Hmem. eapply Hmood; eassumption.
  - intros e He. unfold MoodStats.activitiesCorrelation in He.
    apply list_elem_of_fmap in He as (g & -> & Hin).
    destruct (sorted_buckets_spec (fun p : string * Mood.doc => p.1)
                (MoodStats.unwindActivities
                   (List.filter (MoodStats.hasActivities u) (scan ms))))
      as (_ & _ & Hg & _).
    destruct (Hg g Hin) as [Hmem Hne]. simpl.
    apply (avg_of_group (fun p : string * Mood.doc => Mood.intensity p.2));
      [exact Hne |].
    intros [a d] Hp. rewrite Hmem in Hp. apply elem_of_List_filter in Hp as [Hp _].
    unfold MoodStats.unwindActivities in Hp.
    apply list_elem_of_In, in_flat_map in Hp as (d0 & Hd0 & Hp).
    apply in_map_iff in Hp as (a0 & [= <- <-] & _).
    apply list_elem_of_In, elem_of_List_filter in Hd0 as [Hd0 _].
    apply mood_intensity_on_scale. exact (in_schema_of_scan _ _ _ Hms Hd0).
  - intros e He. unfold Journal.journalTimeline in He.
    apply list_elem_of_fmap in He as (g & -> & Hin).
    apply (sublist_subseteq _ _ (sublist_take _ 30)) in Hin.
    destruct (sorted_groups_spec (fun d => dayOf (Journal.createdAt d))
                (List.filter (Journal.ownedBy u) (scan js))) as (_ & Hg & _).
    destruct (Hg g Hin) as [Hmem Hne]. simpl.
    apply avg_of_group; [exact Hne |].
    intros d Hd. rewrite Hmem in Hd.
    apply elem_of_List_filter in Hd as [Hd _].
    apply elem_of_List_filter in Hd as [Hd _].
    apply journal_mood_on_scale. exact (in_schema_of_scan _ _ _ Hjs Hd).
Qed.

(** The averages of the sample collections. *)
Lemma averages_stay_on_the_scale_witness :
  (forall e, e ∈ MoodStats.moodDistribution Sample.bob Sample.threeMoods ->
     exists a, MoodStats.d_avgIntensity e = Some a /\ (1 <= a /\ a <= 10)%Q)
  /\ (forall e, e ∈ Journal.journalTimeline Sample.bob Sample.journals ->
        exists a, Journal.t_avgMood e = Some a /\ (1 <= a /\ a <= 5)%Q).
Proof.
  destruct (averages_stay_on_the_scale Sample.utc Sample.now Sample.bob Sample.threeMoods
              Sample.journals threeMoods_in_schema journals_in_schema)
    as (Hd & _ & _ & _ & _ & Hj).
  split; [exact Hd | exact Hj].
Defined.




(** ** What the insights report *)







#[local] Instance mood_newestFirst_trans : Transitive Mood.newestFirst.
Proof. intros x y z. unfold Mood.newestFirst. lia. Qed.
#[local] Instance mood_newestFirst_total : Total Mood.newestFirst.
Proof. intros x y. unfold Mood.newestFirst. lia. Qed.




(** ** The defaults of a new mood entry *)

Lemma getDay_lt_7 tz t : Mood.getDay tz t < 7.
Proof.
  unfold Mood.getDay.
  pose proof (Z.mod_pos_bound (dayOf (LocalTime tz t) + 4) 7 ltac:(lia)). lia.
Qed.

Lemma weekday_is_named tz t : nth (Mood.getDay tz t) Mood.days "" ∈ Mood.days.
Proof.
  apply list_elem_of_In, nth_In. exact (getDay_lt_7 tz t).
Qed.

Lemma timeOfDay_is_named tz d :
  Mood.timeOfDay tz d ∈ ["morning"; "afternoon"; "evening"; "night"].
Proof.
  unfold Mood.timeOfDay. repeat case_match; set_solver.
Qed.

Lemma mood_preSave_defaults nts tz (d : Mood.doc) :
  let d' := Mood.preSave nts tz d in
  (exists n, Mood.note d' = Some n /\ n <> "")
  /\ Mood.tags d' <> []
  /\ (Mood.noteAbsent (Mood.note d) = true ->
      Mood.note d'
      = Some ("Feeling " +:+ Mood.mood d +:+ " with intensity "
              +:+ nts (Mood.intensity d) +:+ "/10"))
  /\ (Mood.noteAbsent (Mood.note d) = false -> Mood.note d' = Mood.note d)
  /\ (Mood.tags d = [] ->
      Mood.tags d' = [nth (Mood.getDay tz (Mood.createdAt d)) Mood.days "";
                      Mood.timeOfDay tz d])
  /\ (Mood.tags d <> [] -> Mood.tags d' = Mood.tags d).
Proof.
  unfold Mood.preSave. cbn [Mood.note Mood.tags].
  split; [| split; [| split; [| split; [| split]]]].
  - destruct (Mood.noteAbsent (Mood.note d)) eqn:E.
    + eexists. split; [reflexivity | discriminate].
    + unfold Mood.noteAbsent in E. destruct (Mood.note d) as [n |]; [| discriminate].
      exists n. split; [reflexivity |]. apply String.eqb_neq. exact E.
  - destruct (Mood.tags d); discriminate.
  - intros ->. reflexivity.
  - intros ->. reflexivity.
  - intros ->. reflexivity.
  - intros H. destruct (Mood.tags d); [congruence | reflexivity].
Qed.

(** A new mood entry never lacks a note or tags. Whatever the body of a
    successful create, the stored entry has a note that is not empty and
    at least one tag: a missing or blank note becomes the sentence that
    names the mood and the intensity, and missing tags become the day of
    the week of the creation and its time of day, the first always one of
    the seven day names and the second one of morning, afternoon, evening
    and night. A note and tags that were sent are stored trimmed. *)
Theorem new_mood_has_note_and_tags :
  forall nts tz oid now (b : Mood.body) (s : gmap ObjectId Mood.doc) d s',
    Mood.create nts tz oid now b s = inr (d, s') ->
    let sentNote := trim <$> Mood.b_note b in
    let sentTags := map trim (default [] (Mood.b_tags b)) in
    (exists n, Mood.note d = Some n /\ n <> "")
    /\ Mood.tags d <> []
    /\ (Mood.noteAbsent sentNote = true ->
        Mood.note d
        = Some ("Feeling " +:+ Mood.mood d +:+ " with intensity "
                +:+ nts (Mood.intensity d) +:+ "/10"))
    /\ (Mood.noteAbsent sentNote = false -> Mood.note d = sentNote)
    /\ (sentTags = [] ->
        exists day tod,
          Mood.tags d = [day; tod]
          /\ day ∈ ["sunday"; "monday"; "tuesday"; "wednesday"; "thursday";
                    "friday"; "saturday"]
          /\ tod ∈ ["morning"; "afternoon"; "evening"; "night"])
    /\ (sentTags <> [] -> Mood.tags d = sentTags).
Proof.
  intros nts tz oid now b s d s' H sentNote sentTags.
  unfold Mood.create in H.
  repeat case_match; simplify_eq.
  match goal with
  | |- context [Mood.preSave nts tz ?d0] =>
      destruct (mood_preSave_defaults nts tz d0) as (P1 & P2 & P3 & P4 & P5 & P6)
  end.
  cbn [Mood.note Mood.tags Mood.mood Mood.intensity Mood.createdAt] in P3, P4, P5, P6.
  split; [exact P1 |]. split; [exact P2 |].
  split; [exact P3 |]. split; [exact P4 |]. split; [| exact P6].
  intros Hnone. eexists _, _. split; [apply P5; exact Hnone |].
  split; [apply weekday_is_named | apply timeOfDay_is_named].
Qed.

(** Alice's entry without a note and without tags, on a Tuesday night.
    A note of Unicode spaces alone counts as no note; a note and tags
    between spaces are stored without them. *)
Lemma new_mood_has_note_and_tags_witness :
  (exists d s',
    Mood.create Sample.showInteger Sample.utc "m9" Sample.now
      (Mood.setUser "alice" Sample.forgedMood) Sample.moods = inr (d, s')
    /\ Mood.note d = Some "Feeling calm with intensity 3/10"
    /\ Mood.tags d = ["tuesday"; "night"])
  /\ (exists d s',
    Mood.create Sample.showInteger Sample.utc "m9" Sample.now
      (Cases.notedMood (Some Cases.blankNote) (Some [" run "; "park"])) Sample.moods
    = inr (d, s')
    /\ Mood.note d = Some "Feeling calm with intensity 3/10"
    /\ Mood.tags d = ["run"; "park"])
  /\ (exists d s',
    Mood.create Sample.showInteger Sample.utc "m9" Sample.now
      (Cases.notedMood (Some Cases.paddedNote) None) Sample.moods
    = inr (d, s')
    /\ Mood.note d = Some "morning run"
    /\ Mood.tags d <> []).
Proof.
  split; [| split].
  - do 2 eexists. split; [vm_compute; reflexivity |].
    edestruct (new_mood_has_note_and_tags Sample.showInteger Sample.utc "m9" Sample.now
                 (Mood.setUser "alice" Sample.forgedMood) Sample.moods)
      as (_ & _ & Hnote & _); [vm_compute; reflexivity |].
    split; [| vm_compute; reflexivity].
    etransitivity; [apply Hnote; vm_compute; reflexivity | vm_compute; reflexivity].
  - do 2 eexists. split; [vm_compute; reflexivity |].
    edestruct (new_mood_has_note_and_tags Sample.showInteger Sample.utc "m9" Sample.now
                 (Cases.notedMood (Some Cases.blankNote) (Some [" run "; "park"]))
                 Sample.moods)
      as (_ & _ & Hnote & _ & _ & Htags); [vm_compute; reflexivity |].
    split.
    + etransitivity; [apply Hnote; vm_compute; reflexivity | vm_compute; reflexivity].
    + etransitivity; [apply Htags; vm_compute; discriminate | vm_compute; reflexivity].
  - do 2 eexists. split; [vm_compute; reflexivity |].
    edestruct (new_mood_has_note_and_tags Sample.showInteger Sample.utc "m9" Sample.now
                 (Cases.notedMood (Some Cases.paddedNote) None) Sample.moods)
      as (_ & Hne & _ & Hnote & _); [vm_compute; reflexivity |].
    split; [| exact Hne].
    etransitivity; [apply Hnote; vm_compute; reflexivity | vm_compute; reflexivity].
Defined.

(** ** The chat controller *)

(** The two loops of the fallback, as a count of the words found. *)
Lemma fifths_fold (found : string -> bool) (step : Q) (words : list string) (acc : Q) :
  (fold_left (fun score word => if found word then Qred (score + step) else score)
     words acc
   == acc + inject_Z (Z.of_nat (length (List.filter found words))) * step)%Q.
Proof.
  revert acc. induction words as [| w r IH]; intros acc; simpl.
  - ring.
  - rewrite IH. destruct (found w); simpl.
    + rewrite Qred_correct, Nat2Z.inj_succ, <- Z.add_1_r, inject_Z_plus. ring.
    + reflexivity.
Qed.

Lemma fallbackScore_raw (text : string) :
  let pos := length (List.filter (includes (toLowerCase text)) Chat.positiveWords) in
  let neg := length (List.filter (includes (toLowerCase text)) Chat.negativeWords) in
  exists raw,
    Chat.fallbackScore text = Math_max (-1) (Math_min 1 raw)
    /\ (raw == inject_Z (Z.of_nat pos - Z.of_nat neg) * (1 # 5))%Q.
Proof.
  intros pos neg. unfold Chat.fallbackScore.
  eexists. split; [reflexivity |].
  pose proof (fifths_fold (includes (toLowerCase text)) (- (1 # 5))
                Chat.negativeWords) as Hneg.
  unfold Qminus. rewrite Hneg.
  rewrite (fifths_fold (includes (toLowerCase text)) (1 # 5) Chat.positiveWords).
  fold pos neg. unfold Zminus. rewrite inject_Z_plus, inject_Z_opp. ring.
Qed.

Lemma labelOf_cases (score : Q) :
  (Chat.labelOf score = "positive" <-> (1 # 10 < score)%Q)
  /\ (Chat.labelOf score = "negative" <-> (score < - (1 # 10))%Q)
  /\ (Chat.labelOf score = "neutral" <-> (- (1 # 10) <= score /\ score <= 1 # 10)%Q).
Proof.
  unfold Chat.labelOf.
  destruct (Qle_bool score (1 # 10)) eqn:E1; simpl.
  - apply Qle_bool_iff in E1.
    destruct (Qle_bool (- (1 # 10)) score) eqn:E2; simpl.
    + apply Qle_bool_iff in E2.
      repeat split; try discriminate; intros; try lra.
    + apply Qle_bool_false in E2.
      repeat split; try discriminate; intros; try lra.
  - apply Qle_bool_false in E1.
    repeat split; try discriminate; intros; try lra.
Qed.

(** The keyword fallback of [analyzeSentiment]. Its score lies between -1
    and 1, and its label says which kind of word the text has more of:
    positive when it includes more of the positive words than of the
    negative ones, negative when fewer, neutral when as many. *)
Theorem fallback_label_follows_the_words :
  forall (text : string),
    let pos := length (List.filter (includes (toLowerCase text)) Chat.positiveWords) in
    let neg := length (List.filter (includes (toLowerCase text)) Chat.negativeWords) in
    let s := Chat.fallback text in
    (-1 <= Chat.score s /\ Chat.score s <= 1)%Q
    /\ (Chat.sentiment s = "positive" <-> neg < pos)
    /\ (Chat.sentiment s = "negative" <-> pos < neg)
    /\ (Chat.sentiment s = "neutral" <-> pos = neg).
Proof.
  intros text pos neg s. subst s. unfold Chat.fallback.
  cbn [Chat.score Chat.sentiment].
  destruct (fallbackScore_raw text) as (raw & -> & Hraw). fold pos neg in Hraw.
  destruct (clamp_spec raw) as (Hrange & Hlow & Hhigh & Hmid).
  destruct (labelOf_cases (Math_max (-1) (Math_min 1 raw))) as (Lp & Ln & Lz).
  set (c := Math_max (-1) (Math_min 1 raw)) in *.
  set (net := (Z.of_nat pos - Z.of_nat neg)%Z) in *.
  assert (Hnet : (net < 0 \/ net = 0 \/ 0 < net)%Z) by lia.
  assert (Hq : forall z : Z, (z <= net)%Z -> (inject_Z z * (1 # 5) <= raw)%Q).
  { intros z Hz. rewrite Hraw. apply Qmult_le_compat_r; [| lra].
    rewrite <- Zle_Qle. exact Hz. }
  assert (Hq' : forall z : Z, (net <= z)%Z -> (raw <= inject_Z z * (1 # 5))%Q).
  { intros z Hz. rewrite Hraw. apply Qmult_le_compat_r; [| lra].
    rewrite <- Zle_Qle. exact Hz. }
  assert (E1 : (inject_Z 1 * (1 # 5) == 1 # 5)%Q) by reflexivity.
  assert (E2 : (inject_Z (-1) * (1 # 5) == - (1 # 5))%Q) by reflexivity.
  assert (E0 : (inject_Z 0 * (1 # 5) == 0)%Q) by reflexivity.
  split; [exact Hrange |].
  assert (Hc : (0 < net)%Z -> (1 # 10 < c)%Q).
  { intros H. specialize (Hq 1%Z ltac:(lia)).
    destruct (Qlt_le_dec raw 1); [rewrite Hmid; lra | rewrite Hhigh; lra]. }
  assert (Hc' : (net < 0)%Z -> (c < - (1 # 10))%Q).
  { intros H. specialize (Hq' (-1)%Z ltac:(lia)).
    destruct (Qlt_le_dec (-1) raw); [rewrite Hmid; lra | rewrite Hlow; lra]. }
  assert (Hc0 : net = 0%Z -> (c == 0)%Q).
  { intros H. specialize (Hq 0%Z ltac:(lia)). specialize (Hq' 0%Z ltac:(lia)).
    rewrite Hmid; lra. }
  rewrite Lp, Ln, Lz. subst net.
  split; [| split].
  - split; [| intros; apply Hc; lia].
    intros H. destruct Hnet as [Hn | [Hn | Hn]]; [| | lia].
    + specialize (Hc' Hn). lra.
    + specialize (Hc0 Hn). lra.
  - split; [| intros; apply Hc'; lia].
    intros H. destruct Hnet as [Hn | [Hn | Hn]]; [lia | |].
    + specialize (Hc0 Hn). lra.
    + specialize (Hc Hn). lra.
  - split.
    + intros H. destruct Hnet as [Hn | [Hn | Hn]]; [| lia |].
      * specialize (Hc' Hn). lra.
      * specialize (Hc Hn). lra.
    + intros H. rewrite Hc0 by lia. lra.
Qed.

(** Three negative words, no positive one. *)
Lemma fallback_label_follows_the_words_witness :
  Chat.sentiment (Chat.fallback "sad, anxious, the worst") = "negative"
  /\ (-1 <= Chat.score (Chat.fallback "Sad, ANXIOUS, the worst"))%Q.
Proof.
  destruct (fallback_label_follows_the_words "sad, anxious, the worst")
    as (_ & _ & Hneg & _).
  destruct (fallback_label_follows_the_words "Sad, ANXIOUS, the worst")
    as ((Hlow & _) & _).
  split; [apply Hneg; vm_compute; lia | exact Hlow].
Defined.

Lemma truthy_false (v : JsonValue) :
  Chat.truthy v = false
  <-> v = JNull \/ v = JBool false
      \/ (exists q, v = JNumber q /\ (q == 0)%Q) \/ v = JString "".
Proof.
  destruct v as [| [|] | q | str | items | fields]; simpl.
  - split; [auto | reflexivity].
  - split; [discriminate |].
    intros [H | [H | [(q & H & _) | H]]]; discriminate.
  - split; [auto | reflexivity].
  - rewrite negb_false_iff. split.
    + intros H. apply Qeq_bool_iff in H. right. right. left. eauto.
    + intros [H | [H | [(q' & [= <-] & Hq) | H]]]; try discriminate.
      apply Qeq_bool_iff. exact Hq.
  - rewrite negb_false_iff, String.eqb_eq. split.
    + intros ->. auto.
    + intros [H | [H | [(q & H & _) | H]]]; try discriminate. congruence.
  - split; [discriminate |].
    intros [H | [H | [(q & H & _) | H]]]; discriminate.
  - split; [discriminate |].
    intros [H | [H | [(q & H & _) | H]]]; discriminate.
Qed.

(** The replies of [chat]. Without a message, or with a falsy one
    ([null], [false], [0], the empty string), it answers 400 whatever the
    services do. With any other message it answers 500 when the context
    cannot be spread, when the completion fails, and when the message is
    not a string and the classification fails too (the keyword fallback
    then throws on [toLowerCase]); otherwise it answers 200 with the
    completion, the sentiment of the message, and support resources
    exactly when the score is below -1/2. The resources then start with
    the crisis line and the breathing exercise, the meditation is added
    for the label [negative] only, and when the sentiment came from the
    keyword fallback all three are given. *)
Theorem chat_offers_resources_below_minus_half :
  forall (complete : list JsonValue -> option string)
         (classify : JsonValue -> option Chat.Classified)
         (numberToString : Q -> string)
         (req : Chat.Request) (s : gmap ObjectId Mood.doc),
    let falsy := fun v : JsonValue =>
      v = JNull \/ v = JBool false
      \/ (exists q, v = JNumber q /\ (q == 0)%Q) \/ v = JString "" in
    let reply := Chat.chat complete classify numberToString req s in
    let failed := Next (ErrorResponse "Error processing your request" 500) in
    ((Chat.message req = None \/ exists v, Chat.message req = Some v /\ falsy v) ->
     reply = Next (ErrorResponse "Please provide a message" 400))
    /\ forall text,
        Chat.message req = Some text -> ~ falsy text ->
        (Chat.spread (Chat.context req) = None -> reply = failed)
        /\ forall history,
            Chat.spread (Chat.context req) = Some history ->
            let messages := Chat.messagesFor numberToString req text history s in
            (complete messages = None -> reply = failed)
            /\ forall ai,
                complete messages = Some ai ->
                (classify text = None -> (forall str, text <> JString str) ->
                 reply = failed)
                /\ forall sent,
                    ((exists c, classify text = Some c /\ sent = Chat.fromClassified c)
                     \/ (exists str, classify text = None /\ text = JString str
                                     /\ sent = Chat.fallback str)) ->
                    exists data,
                      reply = Json 200 true data
                      /\ Chat.response data = ai
                      /\ Chat.c_sentiment data = sent
                      /\ (Chat.resources data = [] <-> (- (1 # 2) <= Chat.score sent)%Q)
                      /\ ((Chat.score sent < - (1 # 2))%Q ->
                          take 2 (Chat.resources data) = [Chat.crisis; Chat.breathing]
                          /\ (Chat.meditation ∈ Chat.resources data
                              <-> Chat.sentiment sent = "negative")
                          /\ (classify text = None ->
                              Chat.resources data
                              = [Chat.crisis; Chat.breathing; Chat.meditation])).
Proof.
  intros complete classify nts req s falsy reply failed. subst reply failed.
  split.
  - intros [H | (v & H & Hv)]; unfold Chat.chat; rewrite H; [reflexivity |].
    apply truthy_false in Hv. rewrite Hv. reflexivity.
  - intros text Hmsg Hne. unfold Chat.chat. rewrite Hmsg.
    destruct (Chat.truthy text) eqn:Ht;
      [| exfalso; apply Hne, truthy_false; exact Ht].
    cbn [negb].
    split; [intros ->; reflexivity |].
    intros history ->. cbv zeta.
    split; [intros ->; reflexivity |].
    intros ai ->. split.
    { intros Hc Hstr. unfold Chat.analyzeSentiment. rewrite Hc.
      destruct text; try reflexivity. destruct (Hstr s0 eq_refl). }
    intros sent Hsent.
    assert (Ha : Chat.analyzeSentiment classify text = Some sent).
    { unfold Chat.analyzeSentiment.
      destruct Hsent as [(c & -> & ->) | (str & -> & -> & ->)]; reflexivity. }
    rewrite Ha. eexists. split; [reflexivity |].
    cbn [Chat.response Chat.c_sentiment Chat.resources].
    split; [reflexivity |]. split; [reflexivity |].
    destruct (Qle_bool (- (1 # 2)) (Chat.score sent)) eqn:E; cbn [negb].
    + apply Qle_bool_iff in E. split; [tauto |]. intros Hlt. lra.
    + apply Qle_bool_false in E. split.
      * split; [discriminate | intros; lra].
      * intros _. unfold Chat.getSupportResources.
        split; [reflexivity |]. split.
        { destruct (String.eqb_spec (Chat.sentiment sent) "negative") as [Hs | Hs].
          - split; [intros _; exact Hs |]. intros _. simpl.
            do 2 apply list_elem_of_further. apply list_elem_of_here.
          - split; [| intros; contradiction]. simpl. intros Hin.
            apply elem_of_cons in Hin as [Hin | Hin]; [discriminate |].
            apply elem_of_cons in Hin as [Hin | Hin]; [discriminate |].
            apply elem_of_nil in Hin. contradiction. }
        intros Hnone.
        destruct Hsent as [(c & Hc & _) | (str & _ & _ & ->)]; [congruence |].
        destruct (labelOf_cases (Chat.fallbackScore str)) as (_ & Ln & _).
        unfold Chat.fallback in *. cbn [Chat.score Chat.sentiment] in *.
        replace (Chat.labelOf (Chat.fallbackScore str)) with "negative"
          by (symmetry; apply Ln; lra).
        reflexivity.
Qed.

(** A bad day with the sentiment service down: all three resources. The
    same with a message that is an array: the reply is 500, although the
    completion succeeded. An empty message and the number 0: 400. *)
Lemma chat_offers_resources_below_minus_half_witness :
  (exists data,
      Chat.chat Cases.canned Cases.offline Sample.showInteger Cases.badDay Sample.moods
      = Json 200 true data
      /\ Chat.response data = "I hear you."
      /\ Chat.resources data = [Chat.crisis; Chat.breathing; Chat.meditation])
  /\ Chat.chat Cases.canned Cases.offline Sample.showInteger Cases.listMessage
       Sample.moods
     = Next (ErrorResponse "Error processing your request" 500)
  /\ Chat.chat Cases.canned Cases.offline Sample.showInteger
       {| Chat.req_user := Sample.bob; Chat.username := "bob";
          Chat.message := Some (JNumber 0); Chat.context := None |} Sample.moods
     = Next (ErrorResponse "Please provide a message" 400).
Proof.
  destruct (chat_offers_resources_below_minus_half Cases.canned Cases.offline
              Sample.showInteger Cases.badDay Sample.moods) as (_ & H).
  destruct (H (JString "sad, anxious, the worst") eq_refl) as (_ & Hh).
  { intros [Hf | [Hf | [(q & Hf & _) | Hf]]]; discriminate. }
  destruct (Hh [] eq_refl) as (_ & Hok).
  destruct (Hok "I hear you." eq_refl) as (_ & Hsent).
  destruct (Hsent (Chat.fallback "sad, anxious, the worst"))
    as (data & Hchat & Hresp & _ & _ & Hres).
  { right. exists "sad, anxious, the worst". repeat split. }
  destruct (chat_offers_resources_below_minus_half Cases.canned Cases.offline
              Sample.showInteger Cases.listMessage Sample.moods) as (_ & Hl).
  destruct (Hl (JArray [JString "sad"]) eq_refl) as (_ & Hlh).
  { intros [Hf | [Hf | [(q & Hf & _) | Hf]]]; discriminate. }
  destruct (Hlh [] eq_refl) as (_ & Hlok).
  destruct (Hlok "I hear you." eq_refl) as (Hthrows & _).
  split; [| split].
  - exists data. split; [exact Hchat |]. split; [exact Hresp |].
    apply Hres; [vm_compute; reflexivity | reflexivity].
  - apply Hthrows; [reflexivity | discriminate].
  - apply (proj1 (chat_offers_resources_below_minus_half Cases.canned Cases.offline
                    Sample.showInteger _ Sample.moods)).
    right. exists (JNumber 0). split; [reflexivity |].
    right. right. left. exists 0%Q. split; reflexivity.
Defined.

(** The mood the system message speaks of. [chat] looks at no more than
    five entries, all of the caller; it finds none exactly when the caller
    has no entry; and the one it names is the caller's newest: no entry of
    the caller was created later. *)
Theorem chat_names_the_latest_mood :
  forall (u : AuthUser) (s : gmap ObjectId Mood.doc),
    length (Chat.recentMoods u s) <= 5
    /\ (forall d, d ∈ Chat.recentMoods u s -> d ∈ scan s /\ Mood.user d = id u)
    /\ (Chat.recentMoods u s = []
        <-> forall d, d ∈ scan s -> Mood.user d <> id u)
    /\ forall m rest,
        Chat.recentMoods u s = m :: rest ->
        forall d, d ∈ scan s -> Mood.user d = id u ->
                  (Mood.createdAt d <= Mood.createdAt m)%Z.
Proof.
  intros u s. unfold Chat.recentMoods.
  set (mine := List.filter (MoodStats.ownedBy u) (scan s)).
  set (sorted := merge_sort Mood.newestFirst mine).
  assert (Hsorted : StronglySorted Mood.newestFirst sorted)
    by (apply StronglySorted_merge_sort; apply _).
  assert (Hmem : forall d, d ∈ sorted <-> d ∈ scan s /\ Mood.user d = id u).
  { intros d. unfold sorted. rewrite merge_sort_Permutation.
    unfold mine. rewrite elem_of_List_filter. unfold MoodStats.ownedBy.
    rewrite String.eqb_eq. reflexivity. }
  split; [rewrite length_take; lia |].
  split; [intros d Hd; apply Hmem; apply elem_of_take in Hd as (i & Hi & _);
          eapply list_elem_of_lookup_2; exact Hi |].
  split.
  - split.
    + intros Hnil d Hd Hu.
      assert (Hin : d ∈ sorted) by (apply Hmem; auto).
      destruct sorted as [| x r]; [apply elem_of_nil in Hin; exact Hin |].
      discriminate.
    + intros Hnone. destruct sorted as [| x r] eqn:E; [reflexivity |].
      assert (Hin : x ∈ x :: r) by apply list_elem_of_here.
      apply Hmem in Hin as [Hx Hu]. destruct (Hnone x Hx Hu).
  - intros m rest Hm d Hd Hu.
    assert (Hin : d ∈ sorted) by (apply Hmem; auto).
    destruct sorted as [| x r]; [discriminate |].
    simpl in Hm. injection Hm as -> _.
    apply elem_of_cons in Hin as [-> | Hin]; [lia |].
    apply StronglySorted_inv in Hsorted as [_ Hall].
    rewrite Forall_forall in Hall. exact (Hall d Hin).
Qed.

(** Bob's later entry is the one the system message names. *)
Lemma chat_names_the_latest_mood_witness :
  Chat.recentMoods Sample.bob Sample.threeMoods
  = [Sample.bobsLaterMood; Sample.bobsMood]
  /\ forall d, d ∈ scan Sample.threeMoods -> Mood.user d = "bob" ->
               (Mood.createdAt d <= Sample.now + msPerDay)%Z.
Proof.
  split; [vm_compute; reflexivity |].
  intros d Hd Hu.
  refine (proj2 (proj2 (proj2 (chat_names_the_latest_mood Sample.bob Sample.threeMoods)))
            Sample.bobsLaterMood [Sample.bobsMood] _ d Hd Hu).
  vm_compute. reflexivity.
Defined.

(** ** Outcomes of a renewal *)

Lemma settle_answer_401 (body : string) (c : AuthService.Config) :
  AuthService.settle (AuthService.Answer 401 body) c
  = AuthService.Rejected (AuthService.AxiosError (Some 401) c).
Proof. reflexivity. Qed.

(** While the stored promise is awaited up the stack, an unmarked request
    answered 401 never settles: the first interceptor awaits that
    promise. *)
Lemma api_step_401_while_awaited
    (api_rec : AuthService.Config -> AuthService.World ->
               option (AuthService.Settled AuthService.Response * AuthService.World))
    (server : nat -> AuthService.Config -> AuthService.Wire)
    (chain : list AuthService.Interceptor)
    (c : AuthService.Config) (w : AuthService.World) (body : string) :
  AuthService.refreshTokenRequest w = Some AuthService.Pending ->
  chain <> [] ->
  AuthService._retry c = false ->
  server (length (AuthService.sent w)) (AuthService.prepare w c)
  = AuthService.Answer 401 body ->
  AuthService.api_step server chain api_rec c w
  = Some (AuthService.Pending, AuthService.pushSent (AuthService.prepare w c) w).
Proof.
  intros Hslot Hchain Hc Hans. unfold AuthService.api_step.
  rewrite Hans, settle_answer_401.
  destruct chain as [| i rest]; [contradiction |].
  assert (Hi : AuthService.onRejected api_rec i
                 (AuthService.AxiosError (Some 401) (AuthService.prepare w c))
                 (AuthService.pushSent (AuthService.prepare w c) w)
               = Some (AuthService.Pending,
                       AuthService.pushSent (AuthService.prepare w c) w)).
  { destruct i; simpl;
      unfold AuthService.moduleInterceptor, AuthService.setupInterceptor,
        AuthService.refreshTokenHandler, AuthService.refreshToken;
      simpl; rewrite prepare_retry, Hc, Hslot; reflexivity. }
  simpl AuthService.runChain. rewrite Hi. apply runChain_pending.
Qed.

(** A renewal that is itself answered 401 hangs the client. When a
    request that is not marked is answered 401 while no renewal is in
    flight, and the renewal request is answered 401 as well, the call
    never settles: the interceptor that handles the renewal's 401 awaits
    the stored promise, which is the renewal's own. Two requests were
    sent, the stored promise stays in place, the token is not removed and
    the page is not sent to the login. From then on every unmarked request
    answered 401 is sent, never settles, and starts no renewal. *)
Theorem renewal_answered_401_hangs :
  forall (server : nat -> AuthService.Config -> AuthService.Wire)
         (chain : list AuthService.Interceptor) (n : nat)
         (c : AuthService.Config) (w : AuthService.World) (body1 body2 : string),
    let first := AuthService.prepare w c in
    let k := length (AuthService.sent w) in
    let rc := AuthService.prepare w AuthService.refreshConfig in
    AuthService._retry c = false ->
    chain <> [] ->
    AuthService.refreshTokenRequest w = None ->
    server k first = AuthService.Answer 401 body1 ->
    server (S k) rc = AuthService.Answer 401 body2 ->
    exists w',
      AuthService.api server chain (S (S n)) c w = Some (AuthService.Pending, w')
      /\ AuthService.sent w' = AuthService.sent w ++ [first; rc]
      /\ AuthService.refreshTokenRequest w' = Some AuthService.Pending
      /\ AuthService.localToken w' = AuthService.localToken w
      /\ AuthService.location w' = AuthService.location w
      /\ forall (m : nat) (c2 : AuthService.Config) (body : string),
          AuthService._retry c2 = false ->
          server (length (AuthService.sent w')) (AuthService.prepare w' c2)
          = AuthService.Answer 401 body ->
          AuthService.api server chain (S m) c2 w'
          = Some (AuthService.Pending,
                  AuthService.pushSent (AuthService.prepare w' c2) w').
Proof.
  intros server chain n c w body1 body2 first k rc Hc Hchain Hslot Hfirst Hrenew.
  set (w1 := AuthService.pushSent first w).
  set (w2 := AuthService.setRefreshTokenRequest (Some AuthService.Pending) w1).
  set (w' := AuthService.pushSent rc w2).
  assert (Hinner : AuthService.api server chain (S n) AuthService.refreshConfig w2
                   = Some (AuthService.Pending, w')).
  { change (AuthService.api server chain (S n) AuthService.refreshConfig w2)
      with (AuthService.api_step server chain (AuthService.api server chain n)
              AuthService.refreshConfig w2).
    apply (api_step_401_while_awaited _ server chain AuthService.refreshConfig w2 body2);
      [reflexivity | exact Hchain | reflexivity |].
    change (AuthService.prepare w2 AuthService.refreshConfig) with rc.
    replace (length (AuthService.sent w2)) with (S k); [exact Hrenew |].
    subst w2 w1 k. simpl. rewrite length_app. simpl. lia. }
  exists w'. split.
  - change (AuthService.api server chain (S (S n)) c w)
      with (AuthService.api_step server chain (AuthService.api server chain (S n)) c w).
    unfold AuthService.api_step. fold first. fold k. fold w1.
    rewrite Hfirst, settle_answer_401.
    destruct chain as [| i rest]; [contradiction |].
    assert (Hi : AuthService.onRejected (AuthService.api server (i :: rest) (S n)) i
                   (AuthService.AxiosError (Some 401) first) w1
                 = Some (AuthService.Pending, w')).
    { destruct i; cbn [AuthService.onRejected];
        unfold AuthService.moduleInterceptor, AuthService.setupInterceptor,
          AuthService.refreshTokenHandler, AuthService.refreshToken;
        cbn [AuthService.is401 AuthService.statusOf AuthService.configOf Nat.eqb negb];
        unfold first at 1; rewrite prepare_retry, Hc;
        change (AuthService.refreshTokenRequest w1)
          with (AuthService.refreshTokenRequest w);
        rewrite Hslot; fold w2; rewrite Hinner; reflexivity. }
    cbn [AuthService.runChain]. rewrite Hi. apply runChain_pending.
  - split; [subst w' w2 w1; simpl; rewrite <- app_assoc; reflexivity |].
    split; [reflexivity |]. split; [reflexivity |]. split; [reflexivity |].
    intros m c2 body Hc2 Hans.
    change (AuthService.api server chain (S m) c2 w')
      with (AuthService.api_step server chain (AuthService.api server chain m) c2 w').
    apply (api_step_401_while_awaited _ server chain c2 w' body);
      [reflexivity | exact Hchain | exact Hc2 | exact Hans].
Qed.

(** Everything is answered 401: the call hangs after two requests. *)
Lemma renewal_answered_401_hangs_witness :
  exists w',
    AuthService.api Cases.lockedServer Cases.bothInterceptors 2
      Sample.moodsConfig Sample.staleWorld
    = Some (AuthService.Pending, w')
    /\ map AuthService.url (AuthService.sent w') = ["/mood"; "/auth/refresh-token"]
    /\ AuthService.localToken w' = Some "stale".
Proof.
  destruct (renewal_answered_401_hangs Cases.lockedServer Cases.bothInterceptors 0
              Sample.moodsConfig Sample.staleWorld "" ""
              eq_refl ltac:(discriminate) eq_refl eq_refl eq_refl)
    as (w' & Hrun & Hsent & _ & Htok & _).
  exists w'. split; [exact Hrun |]. split; [rewrite Hsent; reflexivity | exact Htok].
Defined.

Section Renewal.

Import AuthService.

Variable server : nat -> Config -> Wire.
Variable chain : list Interceptor.
Variable inner : Config -> World -> option (Settled Response * World).

(** An error that is not a 401 leaves the chain as it entered. *)
Lemma runChain_not_401 handlers e w :
  is401 e = false ->
  runChain inner handlers (Rejected e) w = Some (Rejected e, w).
Proof.
  intros He. induction handlers as [| i rest IH]; [reflexivity |].
  simpl. destruct i; simpl; unfold moduleInterceptor, setupInterceptor;
    rewrite He; simpl; exact IH.
Qed.

(** [refreshToken] with nothing in flight: the renewal request is sent,
    and when it is answered in the 2xx range its data is returned. *)
Lemma refreshToken_fresh_fulfilled w resp :
  let rc := prepare w refreshConfig in
  refreshTokenRequest w = None ->
  settle (server (length (sent w)) rc) rc = Fulfilled resp ->
  refreshToken (api_step server chain inner) w
  = Some (Fulfilled (data resp),
          setRefreshTokenRequest None
            (pushSent rc (setRefreshTokenRequest (Some Pending) w))).
Proof.
  intros rc Hslot Hs. unfold refreshToken. rewrite Hslot.
  unfold api_step.
  change (prepare (setRefreshTokenRequest (Some Pending) w) refreshConfig) with rc.
  change (sent (setRefreshTokenRequest (Some Pending) w)) with (sent w).
  rewrite Hs, runChain_fulfilled. reflexivity.
Qed.

(** When the renewal fails with anything but a 401, [refreshToken] throws
    the error [handleApiError] makes of it. *)
Lemma refreshToken_fresh_rejected w st :
  let rc := prepare w refreshConfig in
  refreshTokenRequest w = None ->
  settle (server (length (sent w)) rc) rc = Rejected (AxiosError st rc) ->
  st <> Some 401 ->
  refreshToken (api_step server chain inner) w
  = Some (Rejected (ApiError st),
          setRefreshTokenRequest None
            (pushSent rc (setRefreshTokenRequest (Some Pending) w))).
Proof.
  intros rc Hslot Hs Hst. unfold refreshToken. rewrite Hslot.
  unfold api_step.
  change (prepare (setRefreshTokenRequest (Some Pending) w) refreshConfig) with rc.
  change (sent (setRefreshTokenRequest (Some Pending) w)) with (sent w).
  rewrite Hs, runChain_not_401; [reflexivity |].
  unfold is401. simpl. destruct st as [code |]; [| reflexivity].
  destruct (Nat.eqb_spec code 401) as [-> | _]; [contradiction | reflexivity].
Qed.

(** [refreshToken] changes nothing of the world but the stored promise
    and the requests sent. *)
Lemma refreshToken_frame w :
  exists r w',
    refreshToken (api_step server chain inner) w = Some (r, w')
    /\ localToken w' = localToken w /\ location w' = location w
    /\ defaultAuthorization w' = defaultAuthorization w
    /\ isAuthenticated w' = isAuthenticated w
    /\ (forall e, r = Rejected e -> configOf e = None).
Proof.
  unfold refreshToken.
  destruct (refreshTokenRequest w) as [[resp | e |] |] eqn:Hslot.
  - eexists _, _. split; [reflexivity |]. repeat split; discriminate.
  - eexists _, _. split; [reflexivity |]. repeat split.
    intros e' [= <-]. apply handleApiError_no_config.
  - eexists _, _. split; [reflexivity |]. repeat split; discriminate.
  - destruct (api_step_while_awaited inner server chain refreshConfig
                (setRefreshTokenRequest (Some Pending) w) eq_refl)
      as (r0 & -> & _).
    destruct r0 as [resp | e |]; eexists _, _; (split; [reflexivity |]);
      repeat split; try discriminate.
    intros e' [= <-]. apply handleApiError_no_config.
Qed.

(** What the module-level interceptor returns is final for every
    interceptor behind it, and it leaves the auth context's state as it
    was. *)
Lemma moduleInterceptor_frame e w :
  exists r w',
    moduleInterceptor (api_step server chain inner) e w = Some (r, w')
    /\ defaultAuthorization w' = defaultAuthorization w
    /\ isAuthenticated w' = isAuthenticated w
    /\ (forall e', r = Rejected e' -> inert e' = true).
Proof.
  unfold moduleInterceptor.
  destruct (is401 e) eqn:H401; simpl.
  2: { eexists _, _. split; [reflexivity |]. repeat split.
       intros e' [= <-]. unfold inert. rewrite H401. reflexivity. }
  destruct (configOf e) as [c1 |] eqn:Hc.
  2: { eexists _, _. split; [reflexivity |]. repeat split.
       intros e' [= <-]. reflexivity. }
  destruct (_retry c1) eqn:Hretry.
  { eexists _, _. split; [reflexivity |]. repeat split.
    intros e' [= <-]. unfold inert. rewrite Hc, Hretry. apply orb_true_r. }
  destruct (refreshToken_frame w) as (r0 & w0 & -> & _ & _ & Hd & Ha & Hrej).
  destruct r0 as [d | e0 |].
  - rewrite api_step_marked by reflexivity.
    set (again := prepare _ _).
    eexists _, _. split; [reflexivity |].
    split; [exact Hd |]. split; [exact Ha |].
    intros e' He'.
    destruct (settle_cases (server (length (sent (setLocalToken (Some (token d)) w0))) again)
                again) as [[resp Hs] | [st Hs]]; rewrite Hs in He'; [discriminate |].
    injection He' as <-. unfold inert. simpl.
    subst again. rewrite prepare_retry. apply orb_true_r.
  - eexists _, _. split; [reflexivity |].
    split; [exact Hd |]. split; [exact Ha |].
    intros e' [= <-]. unfold inert. rewrite (Hrej e0 eq_refl). apply orb_true_r.
  - eexists _, _. split; [reflexivity |].
    split; [exact Hd |]. split; [exact Ha |]. discriminate.
Qed.

End Renewal.

(** The module-level interceptor stores the renewed token and retries
    with it. When it is the first of the chain, the request is not marked
    and is answered 401, no renewal is in flight and the renewal request
    is answered in the 2xx range, the call sends three requests (the
    request, the renewal, the retry) and ends with the answer to the
    retry. The retry goes to the same url, is marked, and carries the new
    token as its bearer; the new token is in local storage, the stored
    promise is cleared, and the page stays where it was. *)
Theorem renewed_token_is_stored_and_sent :
  forall (server : nat -> AuthService.Config -> AuthService.Wire)
         (rest : list AuthService.Interceptor) (n : nat)
         (c : AuthService.Config) (w : AuthService.World)
         (body : string) (resp : AuthService.Response),
    let chain := AuthService.ModuleLevel :: rest in
    let first := AuthService.prepare w c in
    let k := length (AuthService.sent w) in
    let rc := AuthService.prepare w AuthService.refreshConfig in
    let newToken := AuthService.token (AuthService.data resp) in
    AuthService._retry c = false ->
    AuthService.refreshTokenRequest w = None ->
    server k first = AuthService.Answer 401 body ->
    AuthService.settle (server (S k) rc) rc = AuthService.Fulfilled resp ->
    exists again w',
      AuthService.api server chain (S (S n)) c w
      = Some (AuthService.settle (server (S (S k)) again) again, w')
      /\ AuthService.sent w' = AuthService.sent w ++ [first; rc; again]
      /\ AuthService.url again = AuthService.url c
      /\ AuthService._retry again = true
      /\ AuthService.authorization again = Some (AuthService.bearer newToken)
      /\ AuthService.localToken w' = Some newToken
      /\ AuthService.refreshTokenRequest w' = None
      /\ AuthService.location w' = AuthService.location w.
Proof.
  intros server rest n c w body resp chain first k rc newToken Hc Hslot Hfirst Hrenew.
  set (w1 := AuthService.pushSent first w).
  assert (Hk : length (AuthService.sent w1) = S k).
  { subst w1 k. simpl. rewrite length_app. simpl. lia. }
  set (w3 := AuthService.setLocalToken (Some newToken)
               (AuthService.setRefreshTokenRequest None
                  (AuthService.pushSent rc
                     (AuthService.setRefreshTokenRequest (Some AuthService.Pending) w1)))).
  set (again := AuthService.prepare w3
                  (AuthService.withAuthorization (Some (AuthService.bearer newToken))
                     (AuthService.markRetry first))).
  assert (Hk3 : length (AuthService.sent w3) = S (S k)).
  { subst w3 w1 k. simpl. rewrite !length_app. simpl. lia. }
  exists again, (AuthService.pushSent again w3).
  split.
  - change (AuthService.api server chain (S (S n)) c w)
      with (AuthService.api_step server chain
              (AuthService.api_step server chain (AuthService.api server chain n)) c w).
    unfold AuthService.api_step at 1. fold first. fold k. fold w1.
    rewrite Hfirst, settle_answer_401.
    subst chain. cbn [AuthService.runChain AuthService.onRejected].
    unfold AuthService.moduleInterceptor.
    cbn [AuthService.is401 AuthService.statusOf AuthService.configOf Nat.eqb negb].
    unfold first at 1. rewrite prepare_retry, Hc. fold first.
    rewrite (refreshToken_fresh_fulfilled server _ _ w1 resp Hslot)
      by (rewrite Hk; exact Hrenew).
    change (AuthService.prepare w1 AuthService.refreshConfig) with rc.
    fold newToken. fold w3.
    rewrite api_step_marked by reflexivity. fold again. rewrite Hk3.
    apply runChain_settle_marked.
    subst again. rewrite prepare_retry. reflexivity.
  - split.
    { subst w3 w1. simpl. rewrite <- !app_assoc. reflexivity. }
    split; [subst again; rewrite prepare_url; unfold first; simpl; apply prepare_url |].
    split; [subst again; rewrite prepare_retry; reflexivity |].
    split.
    { subst again. unfold AuthService.prepare at 1.
      cbn [AuthService.authorization AuthService.withAuthorization].
      change (AuthService.localToken w3) with (Some newToken).
      cbv beta iota. destruct (String.eqb newToken ""); reflexivity. }
    repeat split; reflexivity.
Qed.

(** A stale token is renewed: the retry carries the fresh one. *)
Lemma renewed_token_is_stored_and_sent_witness :
  exists again w',
    AuthService.api Sample.expiredServer Cases.bothInterceptors 2
      Sample.moodsConfig Sample.staleWorld
    = Some (AuthService.Rejected (AuthService.AxiosError (Some 401) again), w')
    /\ AuthService.authorization again = Some "Bearer fresh"
    /\ AuthService.localToken w' = Some "fresh".
Proof.
  destruct (renewed_token_is_stored_and_sent Sample.expiredServer [AuthService.Setup] 0
              Sample.moodsConfig Sample.staleWorld ""
              {| AuthService.status := 200;
                 AuthService.data := {| AuthService.token := "fresh" |};
                 AuthService.config :=
                   AuthService.prepare Sample.staleWorld AuthService.refreshConfig |}
              eq_refl eq_refl eq_refl eq_refl)
    as (again & w' & Hrun & _ & _ & _ & Hauth & Htok & _).
  exists again, w'. split; [exact Hrun |]. split; [exact Hauth | exact Htok].
Defined.

(** A renewal that fails with anything but a 401 ends the session on the
    client. When the request is not marked and is answered 401, no renewal
    is in flight and the renewal request fails (no answer, or a status
    outside the 2xx range other than 401), the call sends the two requests
    and no retry, the stored promise is cleared and the page is sent to
    the login. The module-level interceptor removes the token from local
    storage and rejects with the ApiError of the renewal; the interceptor
    of the auth context leaves local storage alone, clears the default
    header and the authenticated flag, and rejects with the TypeError of
    its call to the missing [logout]. *)
Theorem failed_renewal_sends_to_login :
  forall (server : nat -> AuthService.Config -> AuthService.Wire)
         (i : AuthService.Interceptor) (rest : list AuthService.Interceptor) (n : nat)
         (c : AuthService.Config) (w : AuthService.World)
         (body : string) (st : option nat),
    let chain := i :: rest in
    let first := AuthService.prepare w c in
    let k := length (AuthService.sent w) in
    let rc := AuthService.prepare w AuthService.refreshConfig in
    AuthService._retry c = false ->
    AuthService.refreshTokenRequest w = None ->
    server k first = AuthService.Answer 401 body ->
    AuthService.settle (server (S k) rc) rc
    = AuthService.Rejected (AuthService.AxiosError st rc) ->
    st <> Some 401 ->
    exists w',
      AuthService.api server chain (S (S n)) c w
      = Some (AuthService.Rejected
                match i with
                | AuthService.ModuleLevel => AuthService.ApiError st
                | AuthService.Setup => AuthService.JsTypeError
                end, w')
      /\ AuthService.sent w' = AuthService.sent w ++ [first; rc]
      /\ AuthService.refreshTokenRequest w' = None
      /\ AuthService.location w' = Some "/login"
      /\ match i with
         | AuthService.ModuleLevel =>
             AuthService.localToken w' = None
             /\ AuthService.defaultAuthorization w' = AuthService.defaultAuthorization w
             /\ AuthService.isAuthenticated w' = AuthService.isAuthenticated w
         | AuthService.Setup =>
             AuthService.localToken w' = AuthService.localToken w
             /\ AuthService.defaultAuthorization w' = None
             /\ AuthService.isAuthenticated w' = false
         end.
Proof.
  intros server i rest n c w body st chain first k rc Hc Hslot Hfirst Hrenew Hst.
  set (w1 := AuthService.pushSent first w).
  assert (Hk : length (AuthService.sent w1) = S k).
  { subst w1 k. simpl. rewrite length_app. simpl. lia. }
  set (w2 := AuthService.setRefreshTokenRequest None
               (AuthService.pushSent rc
                  (AuthService.setRefreshTokenRequest (Some AuthService.Pending) w1))).
  assert (Hsent : AuthService.sent w2 = AuthService.sent w ++ [first; rc]).
  { subst w2 w1. simpl. rewrite <- app_assoc. reflexivity. }
  assert (Hstep : forall handler,
             handler = AuthService.onRejected
                         (AuthService.api_step server chain (AuthService.api server chain n)) i ->
             AuthService.api server chain (S (S n)) c w
             = match handler (AuthService.AxiosError (Some 401) first) w1 with
               | Some (r', w') =>
                   AuthService.runChain
                     (AuthService.api_step server chain (AuthService.api server chain n))
                     rest r' w'
               | None => None
               end).
  { intros handler ->.
    change (AuthService.api server chain (S (S n)) c w)
      with (AuthService.api_step server chain
              (AuthService.api_step server chain (AuthService.api server chain n)) c w).
    unfold AuthService.api_step at 1. fold first. fold k. fold w1.
    rewrite Hfirst, settle_answer_401. reflexivity. }
  rewrite (Hstep _ eq_refl).
  destruct i; cbn [AuthService.onRejected];
    unfold AuthService.moduleInterceptor, AuthService.setupInterceptor,
      AuthService.refreshTokenHandler;
    cbn [AuthService.is401 AuthService.statusOf AuthService.configOf Nat.eqb negb];
    unfold first at 1; rewrite prepare_retry, Hc; fold first;
    rewrite (refreshToken_fresh_rejected server _ _ w1 st Hslot)
      by (try rewrite Hk; assumption);
    change (AuthService.prepare w1 AuthService.refreshConfig) with rc;
    fold w2.
  - rewrite runChain_not_401.
    + eexists. split; [reflexivity |]. split; [exact Hsent |]. repeat split.
    + unfold AuthService.is401. simpl. destruct st as [code |]; [| reflexivity].
      destruct (Nat.eqb_spec code 401) as [-> | _]; [contradiction | reflexivity].
  - rewrite runChain_not_401 by reflexivity.
    eexists. split; [reflexivity |]. split; [exact Hsent |]. repeat split.
Qed.

(** The renewal fails with a 500: the token is removed, the page goes to
    the login. *)
Lemma failed_renewal_sends_to_login_witness :
  exists w',
    AuthService.api Cases.brokenServer Cases.bothInterceptors 2
      Sample.moodsConfig Sample.staleWorld
    = Some (AuthService.Rejected (AuthService.ApiError (Some 500)), w')
    /\ AuthService.localToken w' = None
    /\ AuthService.location w' = Some "/login".
Proof.
  destruct (failed_renewal_sends_to_login Cases.brokenServer AuthService.ModuleLevel
              [AuthService.Setup] 0 Sample.moodsConfig Sample.staleWorld "" (Some 500)
              eq_refl eq_refl eq_refl eq_refl ltac:(discriminate))
    as (w' & Hrun & _ & _ & Hloc & Htok & _).
  exists w'. split; [exact Hrun |]. split; [exact Htok | exact Hloc].
Defined.

(** Behind the module-level interceptor, the interceptor of the auth
    context never renews. With the module-level interceptor first in the
    chain, a call of the instance always comes back, and whatever the
    server answers it leaves the default authorization header and the
    authenticated flag as they were: the callbacks of the auth context,
    [refreshTokenHandler] and [handleUnauthenticated], are not run. *)
Theorem context_callbacks_are_shadowed :
  forall (server : nat -> AuthService.Config -> AuthService.Wire)
         (rest : list AuthService.Interceptor) (n : nat)
         (c : AuthService.Config) (w : AuthService.World),
    exists r w',
      AuthService.api server (AuthService.ModuleLevel :: rest) (S (S n)) c w
      = Some (r, w')
      /\ AuthService.defaultAuthorization w' = AuthService.defaultAuthorization w
      /\ AuthService.isAuthenticated w' = AuthService.isAuthenticated w.
Proof.
  intros server rest n c w.
  set (chain := AuthService.ModuleLevel :: rest).
  change (AuthService.api server chain (S (S n)) c w)
    with (AuthService.api_step server chain
            (AuthService.api_step server chain (AuthService.api server chain n)) c w).
  set (inner := AuthService.api server chain n).
  unfold AuthService.api_step at 1.
  set (first := AuthService.prepare w c).
  set (w1 := AuthService.pushSent first w).
  destruct (settle_cases (server (length (AuthService.sent w)) first) first)
    as [[resp ->] | [st ->]].
  - rewrite runChain_fulfilled. eexists _, _. split; [reflexivity |].
    split; reflexivity.
  - subst chain. cbn [AuthService.runChain AuthService.onRejected].
    destruct (moduleInterceptor_frame server (AuthService.ModuleLevel :: rest) inner
                (AuthService.AxiosError st first) w1)
      as (r & w' & -> & Hd & Ha & Hinert).
    destruct r as [resp | e |].
    + rewrite runChain_fulfilled. eexists _, _. split; [reflexivity |].
      split; [exact Hd | exact Ha].
    + destruct (runChain_inert
                  (AuthService.api_step server (AuthService.ModuleLevel :: rest) inner)
                  rest e w' (Hinert e eq_refl)) as (e' & -> & _).
      eexists _, _. split; [reflexivity |]. split; [exact Hd | exact Ha].
    + rewrite runChain_pending. eexists _, _. split; [reflexivity |].
      split; [exact Hd | exact Ha].
Qed.

(** The stale token again: the flag of the auth context is untouched. *)
Lemma context_callbacks_are_shadowed_witness :
  exists r w',
    AuthService.api Sample.expiredServer Cases.bothInterceptors 2
      Sample.moodsConfig Sample.staleWorld = Some (r, w')
    /\ AuthService.defaultAuthorization w' = None
    /\ AuthService.isAuthenticated w' = true.
Proof.
  destruct (context_callbacks_are_shadowed Sample.expiredServer [AuthService.Setup] 0
              Sample.moodsConfig Sample.staleWorld) as (r & w' & Hrun & Hd & Ha).
  exists r, w'. split; [exact Hrun |]. split; [exact Hd | exact Ha].
Defined.

(** ** The renewal slot over any sequence of events *)

Lemma filter_awaits_Forall (p : nat) (l : list (nat * nat)) :
  Forall (fun w => w.2 = p) l ->
  List.filter (SingleFlight.awaits p) l = l
  /\ List.filter (fun w => negb (SingleFlight.awaits p w)) l = [].
Proof.
  induction 1 as [| w l Hw _ [IH1 IH2]]; [split; reflexivity |].
  assert (Ha : SingleFlight.awaits p w = true)
    by (unfold SingleFlight.awaits; rewrite Hw; apply Nat.eqb_refl).
  simpl. rewrite Ha, IH1, IH2. split; reflexivity.
Qed.

Lemma filter_awaits_other (p q : nat) (l : list (nat * nat)) :
  q <> p ->
  Forall (fun w => w.2 = p) l ->
  List.filter (SingleFlight.awaits q) l = []
  /\ List.filter (fun w => negb (SingleFlight.awaits q w)) l = l.
Proof.
  intros Hq. induction 1 as [| w l Hw _ [IH1 IH2]]; [split; reflexivity |].
  assert (Ha : SingleFlight.awaits q w = false).
  { unfold SingleFlight.awaits. rewrite Hw.
    destruct (Nat.eqb_spec p q) as [-> | _]; [contradiction | reflexivity]. }
  simpl. rewrite Ha, IH1, IH2. split; reflexivity.
Qed.

(** One event keeps the slot and the callers in agreement, loses no
    caller, and posts a renewal only when none is in flight. *)
Lemma step_slotAgrees (e : RenewalTrace.Event) (s : SingleFlight.State) :
  slotAgrees s ->
  let s' := RenewalTrace.step e s in
  slotAgrees s'
  /\ length (SingleFlight.waiting s') + length (SingleFlight.settled s')
     = length (SingleFlight.waiting s) + length (SingleFlight.settled s)
       + (if RenewalTrace.isCall e then 1 else 0)
  /\ SingleFlight.posts s' + inFlight s
     = SingleFlight.posts s + inFlight s'
       + (if RenewalTrace.isCall e then 0
          else inFlight s - inFlight s')
  /\ inFlight s' <= inFlight s + (if RenewalTrace.isCall e then 1 else 0)
  /\ SingleFlight.posts s <= SingleFlight.posts s'.
Proof.
  intros Hs. unfold slotAgrees, inFlight in *.
  destruct e as [c | q r]; cbn [RenewalTrace.step RenewalTrace.isCall].
  - unfold SingleFlight.call.
    destruct (SingleFlight.refreshTokenRequest s) as [p |] eqn:Hslot; simpl.
    + destruct Hs as (Hne & Hp & Hall).
      rewrite length_app. simpl. repeat split; try lia.
      * intros Habs. apply app_eq_nil in Habs as [_ Habs]. discriminate.
      * apply Forall_app. split; [exact Hall |]. constructor; [reflexivity | constructor].
    + rewrite Hs. simpl. repeat split; try lia.
      * discriminate.
      * constructor; [reflexivity | constructor].
  - unfold SingleFlight.resolve.
    destruct (SingleFlight.neverSettles r).
    { destruct (SingleFlight.refreshTokenRequest s);
        repeat split; try lia; tauto. }
    destruct (SingleFlight.refreshTokenRequest s) as [p |] eqn:Hslot.
    + destruct Hs as (Hne & Hp & Hall).
      destruct (Nat.eq_dec q p) as [-> | Hq].
      * destruct (filter_awaits_Forall p _ Hall) as [-> ->].
        destruct (SingleFlight.waiting s) as [| w0 ws] eqn:Hw; [contradiction |].
        cbn [SingleFlight.refreshTokenRequest SingleFlight.waiting
             SingleFlight.settled SingleFlight.posts].
        rewrite length_app, length_map. simpl. repeat split; lia.
      * destruct (filter_awaits_other p q _ Hq Hall) as [-> ->].
        cbn [SingleFlight.refreshTokenRequest SingleFlight.waiting
             SingleFlight.settled SingleFlight.posts].
        rewrite ?Hslot, ?app_nil_r. simpl. repeat split; try lia; assumption.
    + rewrite Hs.
      cbn [List.filter SingleFlight.refreshTokenRequest SingleFlight.waiting
           SingleFlight.settled SingleFlight.posts map].
      rewrite ?Hslot, ?app_nil_r. simpl. repeat split; lia.
Qed.

Lemma run_slotAgrees (trace : list RenewalTrace.Event) (s : SingleFlight.State) :
  slotAgrees s ->
  let s' := RenewalTrace.run trace s in
  slotAgrees s'
  /\ length (SingleFlight.waiting s') + length (SingleFlight.settled s')
     = length (SingleFlight.waiting s) + length (SingleFlight.settled s)
       + countCalls trace
  /\ SingleFlight.posts s' + inFlight s
     <= SingleFlight.posts s + inFlight s' + countSettles trace
  /\ SingleFlight.posts s' <= SingleFlight.posts s + countCalls trace
  /\ SingleFlight.posts s <= SingleFlight.posts s'.
Proof.
  revert s. induction trace as [| e trace IH]; intros s Hs.
  - simpl. unfold countCalls, countSettles. simpl. repeat split; try lia. exact Hs.
  - destruct (step_slotAgrees e s Hs) as (Hs1 & Hlen1 & Hposts1 & Hfl1 & Hmono1).
    destruct (IH (RenewalTrace.step e s) Hs1) as (Hs2 & Hlen2 & Hposts2 & Hcalls2 & Hmono2).
    change (RenewalTrace.run (e :: trace) s)
      with (RenewalTrace.run trace (RenewalTrace.step e s)).
    cbv zeta. unfold countCalls, countSettles in *.
    assert (Hb : inFlight s <= 1)
      by (unfold inFlight; destruct (SingleFlight.refreshTokenRequest s); lia).
    cbn [List.filter]. destruct (RenewalTrace.isCall e); cbn [negb length] in *.
    + repeat split; try lia. exact Hs2.
    + repeat split; try lia. exact Hs2.
Qed.

(** The renewal slot over any sequence of events. From a state with no
    renewal in flight, after any sequence of callers entering
    [refreshToken] and of renewal answers arriving: a promise is stored
    exactly when some caller waits, and then every waiting caller awaits
    that one promise; every caller that entered is either waiting or has
    ended; and no more renewal requests were posted than answers arrived
    plus one, nor more than callers entered. *)
Theorem renewal_slot_over_any_trace :
  forall (trace : list RenewalTrace.Event) (s0 : SingleFlight.State),
    SingleFlight.idle s0 ->
    let s := RenewalTrace.run trace s0 in
    (SingleFlight.refreshTokenRequest s = None <-> SingleFlight.waiting s = [])
    /\ (forall p, SingleFlight.refreshTokenRequest s = Some p ->
                  p < SingleFlight.posts s
                  /\ forall w, w ∈ SingleFlight.waiting s -> w.2 = p)
    /\ length (SingleFlight.waiting s) + length (SingleFlight.settled s)
       = length (SingleFlight.settled s0)
         + length (List.filter RenewalTrace.isCall trace)
    /\ SingleFlight.posts s
       <= SingleFlight.posts s0
          + S (length (List.filter (fun e => negb (RenewalTrace.isCall e)) trace))
    /\ SingleFlight.posts s
       <= SingleFlight.posts s0 + length (List.filter RenewalTrace.isCall trace).
Proof.
  intros trace s0 [Hslot Hwait] s.
  assert (H0 : slotAgrees s0) by (unfold slotAgrees; rewrite Hslot; exact Hwait).
  destruct (run_slotAgrees trace s0 H0) as (Hs & Hlen & Hposts & Hcalls & _).
  fold s in Hs, Hlen, Hposts, Hcalls.
  unfold slotAgrees, inFlight, countCalls, countSettles in *.
  rewrite Hslot in Hposts. rewrite Hwait in Hlen. simpl in Hlen.
  destruct (SingleFlight.refreshTokenRequest s) as [p |] eqn:Hp.
  - destruct Hs as (Hne & Hlt & Hall).
    split; [split; [discriminate | intros Habs; contradiction] |].
    split.
    { intros p' [= <-]. split; [exact Hlt |]. intros w Hw.
      rewrite Forall_forall in Hall. exact (Hall w Hw). }
    repeat split; lia.
  - split; [split; [intros _; exact Hs | reflexivity] |].
    split; [discriminate |].
    repeat split; lia.
Qed.

(** Three callers, two renewals, one answer so far. *)
Lemma renewal_slot_over_any_trace_witness :
  SingleFlight.idle Sample.idleState
  /\ SingleFlight.posts (RenewalTrace.run Cases.twoRenewals Sample.idleState) <= 2
  /\ length (SingleFlight.waiting (RenewalTrace.run Cases.twoRenewals Sample.idleState))
     + length (SingleFlight.settled (RenewalTrace.run Cases.twoRenewals Sample.idleState))
     = 3.
Proof.
  assert (Hidle : SingleFlight.idle Sample.idleState) by (split; reflexivity).
  destruct (renewal_slot_over_any_trace Cases.twoRenewals Sample.idleState Hidle)
    as (_ & _ & Hlen & Hposts & _).
  split; [exact Hidle |]. split; [exact Hposts | exact Hlen].
Defined.
